(** * Agentic MCP server: workflow and task state machine over the entity store

    A shallow embedding of the repositories ([ProjectRepository],
    [TaskRepository], [AgentSessionRepository], [WorkflowRepository]), of the
    part of [FileSync] the tool handlers depend on, and of the tool handlers
    [handleContextSave], [handleWorkflowHandoff] and [handleProjectCreate] of
    [AgenticMCPServer].

    The SQLite database is a record of four tables, each a list of rows in
    rowid order.  Every repository method is a state transformer over that
    record that either returns a value or throws; the database survives a
    throw, as it does in the source (no method runs inside a transaction). *)

From Stdlib Require Import String Ascii ZArith List Lia.
From stdpp Require Import base option list strings gmap sorting pretty.

Set Warnings "-register-all".
Local Open Scope string_scope.
Local Open Scope Z_scope.

(** ** JavaScript values and strings *)

(** JSON-serialisable values: what [Record<string, any>] payloads hold once
    they went through [JSON.stringify] and [JSON.parse]. *)
Inductive JsValue : Type :=
| JNull
| JBool (b : bool)
| JNum (n : Z)
| JStr (s : string)
| JArr (l : list JsValue)
| JObj (m : gmap string JsValue).

(** Truthiness of a value, as [!v] and [v ? a : b] test it. *)
Definition js_truthy (v : JsValue) : bool :=
  match v with
  | JNull => false
  | JBool b => b
  | JNum n => negb (n =? 0)
  | JStr s => negb (String.eqb s "")
  | JArr _ | JObj _ => true
  end.

(** [typeof v === 'object'] *)
Definition typeof_object (v : JsValue) : bool :=
  match v with
  | JNull | JArr _ | JObj _ => true
  | _ => false
  end.

(** A string-typed argument or field that may be missing ([undefined]); the
    result is the string when it is present and truthy (non-empty). *)
Definition truthy (o : option string) : option string :=
  match o with
  | Some s => if String.eqb s "" then None else Some s
  | None => None
  end.

(** [a || d] on an optional string. *)
Definition or_default (o : option string) (d : string) : string :=
  default d (truthy o).

(** [Array.prototype.includes] on an array of strings. *)
Definition includes (l : list string) (s : string) : bool :=
  existsb (String.eqb s) l.

(** [String.prototype.includes] *)
Definition str_includes (hay needle : string) : bool :=
  match index 0 needle hay with
  | Some _ => true
  | None => false
  end.

(** [Array.prototype.indexOf]: the first position of [s], or -1. *)
Fixpoint indexOf_from (i : Z) (l : list string) (s : string) : Z :=
  match l with
  | [] => -1
  | x :: l' => if String.eqb x s then i else indexOf_from (i + 1) l' s
  end.

Definition indexOf (l : list string) (s : string) : Z := indexOf_from 0 l s.

(** [l[i]]; [None] is JavaScript's [undefined]. *)
Definition array_get (l : list string) (i : Z) : option string :=
  if i <? 0 then None else l !! Z.to_nat i.

(** ** Node's [path.join] (POSIX)

    [path.join] joins its non-empty arguments with [/] and normalizes the
    result: empty segments and [.] segments are dropped, a [..] segment
    removes the segment before it, the leading [/] and a trailing [/] are
    kept. *)

(** The segments of [path] between its separators; [segment] collects the
    characters of the segment being read. *)
Fixpoint path_segments (path segment : string) : list string :=
  match path with
  | EmptyString => [segment]
  | String c rest =>
      if Ascii.eqb c "/" then segment :: path_segments rest ""
      else path_segments rest (segment +:+ String c "")
  end.

(** One step of [normalizeString]; [res] holds the segments kept so far, the
    last one first. *)
Definition normalize_segment (allowAboveRoot : bool) (res : list string)
    (segment : string) : list string :=
  if String.eqb segment "" || String.eqb segment "." then res
  else if String.eqb segment ".." then
    match res with
    | last :: res' =>
        if String.eqb last ".." then (if allowAboveRoot then ".." :: res else res)
        else res'
    | [] => if allowAboveRoot then [".."] else []
    end
  else segment :: res.

Fixpoint ends_with_separator (path : string) : bool :=
  match path with
  | EmptyString => false
  | String c EmptyString => Ascii.eqb c "/"
  | String _ rest => ends_with_separator rest
  end.

(** [path.normalize] *)
Definition path_normalize (path : string) : string :=
  if String.eqb path "" then "."
  else
    let isAbsolute := String.prefix "/" path in
    let trailingSeparator := ends_with_separator path in
    let res :=
      String.concat "/"
        (rev (foldl (normalize_segment (negb isAbsolute)) [] (path_segments path ""))) in
    if String.eqb res "" then
      if isAbsolute then "/" else if trailingSeparator then "./" else "."
    else
      (if isAbsolute then "/" else "") +:+ res +:+
      (if trailingSeparator then "/" else "").

Definition path_join (paths : list string) : string :=
  match List.filter (fun p => negb (String.eqb p "")) paths with
  | [] => "."
  | joined => path_normalize (String.concat "/" joined)
  end.

(** ** Exceptions *)

Inductive ErrorCode := InvalidParams | InternalError | MethodNotFound.

Definition ErrorCode_number (c : ErrorCode) : string :=
  match c with
  | InvalidParams => "-32602"
  | InternalError => "-32603"
  | MethodNotFound => "-32601"
  end.

(** What the code throws: a plain [Error] (also SQLite's and Node's own
    errors) or the SDK's [McpError], which carries a code. *)
Inductive Exn :=
| Error (message : string)
| McpError (code : ErrorCode) (message : string).

(** [error.message]; the SDK's [McpError] prefixes its message with its code. *)
Definition exn_message (e : Exn) : string :=
  match e with
  | Error m => m
  | McpError c m => "MCP error " +:+ ErrorCode_number c +:+ ": " +:+ m
  end.

(** ** The database *)

Record ProjectRow := mkProjectRow {
  p_id : string;
  p_name : string;
  p_description : option string;
  p_status : string;
  p_current_phase : string;
  p_created_at : nat;
  p_updated_at : nat }.

(** The JSON columns [requirements_refs] and [dependencies] hold what
    [JSON.stringify] wrote; [None] is SQL NULL. *)
Record TaskRow := mkTaskRow {
  t_id : string;
  t_project_id : string;
  t_parent_id : option string;
  t_title : string;
  t_description : option string;
  t_phase : string;
  t_status : string;
  t_assignee_type : option string;
  t_priority : Z;
  t_requirements_refs : option (list string);
  t_dependencies : option (list string);
  t_created_at : nat;
  t_updated_at : nat }.

Record AgentSessionRow := mkAgentSessionRow {
  s_id : string;
  s_project_id : string;
  s_task_id : option string;
  s_agent_type : string;
  s_context_data : option JsValue;
  s_last_active : nat }.

Record CheckpointData := mkCheckpointData {
  completedTasks : list string;
  currentTask : option string;
  phaseDeliverables : gmap string JsValue }.

Record WorkflowCheckpointRow := mkWorkflowCheckpointRow {
  c_id : string;
  c_project_id : string;
  c_phase : string;
  c_checkpoint_data : CheckpointData;
  c_created_at : nat }.

Record Database := mkDatabase {
  projects : list ProjectRow;
  tasks : list TaskRow;
  agent_sessions : list AgentSessionRow;
  workflow_checkpoints : list WorkflowCheckpointRow }.

Definition set_projects (db : Database) (l : list ProjectRow) : Database :=
  mkDatabase l (tasks db) (agent_sessions db) (workflow_checkpoints db).

Definition set_tasks (db : Database) (l : list TaskRow) : Database :=
  mkDatabase (projects db) l (agent_sessions db) (workflow_checkpoints db).

Definition set_agent_sessions (db : Database) (l : list AgentSessionRow) : Database :=
  mkDatabase (projects db) (tasks db) l (workflow_checkpoints db).

Definition set_workflow_checkpoints (db : Database) (l : list WorkflowCheckpointRow) : Database :=
  mkDatabase (projects db) (tasks db) (agent_sessions db) l.

(** What an operation takes from outside the program: the identifier that
    [lower(hex(randomblob(16)))] draws for an inserted row, the value of
    [CURRENT_TIMESTAMP], the error (if any) the file system raises while the
    mirror is written, and the message of Node's [TypeError] for a path that
    is not a string. *)
Record Env := mkEnv {
  randomblob : string;
  CURRENT_TIMESTAMP : nat;
  fs_error : option string;
  path_type_error : string }.

(** ** Operations: database passing with exceptions *)

Definition Op (A : Type) : Type := Database -> Database * (Exn + A).

Definition ret {A} (a : A) : Op A := fun db => (db, inr a).

Definition throw {A} (e : Exn) : Op A := fun db => (db, inl e).

Definition bind {A B} (m : Op A) (k : A -> Op B) : Op B :=
  fun db =>
    match m db with
    | (db', inr a) => k a db'
    | (db', inl e) => (db', inl e)
    end.

(** [try { m } catch (error) { h error }] *)
Definition try_catch {A} (m : Op A) (h : Exn -> Op A) : Op A :=
  fun db =>
    match m db with
    | (db', inr a) => (db', inr a)
    | (db', inl e) => h e db'
    end.

(** A query: reads the database and leaves it as it is. *)
Definition query {A} (f : Database -> A) : Op A := fun db => (db, inr (f db)).

Notation "'do' x <- m ; k" := (bind m (fun x => k))
  (at level 10, x name, m at level 100, k at level 200).
Notation "m ;; k" := (bind m (fun _ => k))
  (at level 100, k at level 200, right associativity).

(** ** Validation helpers (types/index.ts) *)

Definition isValidProjectStatus (status : string) : bool :=
  includes ["active"; "paused"; "completed"] status.

Definition isValidProjectPhase (phase : string) : bool :=
  includes ["requirements"; "design"; "tasks"; "execute"] phase.

Definition isValidTaskStatus (status : string) : bool :=
  includes ["pending"; "in_progress"; "blocked"; "completed"] status.

Definition isValidTaskPhase (phase : string) : bool :=
  includes ["requirements"; "design"; "tasks"; "execute"] phase.

Definition isValidAgentType (type : string) : bool :=
  includes ["requirements"; "design"; "tasks"; "implementation"] type.

(** [parseJsonArray] on a JSON column. *)
Definition parseJsonArray (json : option (list string)) : list string :=
  default [] json.

(** [parseJsonObject]: an object that is not an array, else the empty object. *)
Definition parseJsonObject (json : option JsValue) : gmap string JsValue :=
  match json with
  | Some (JObj m) => m
  | _ => ∅
  end.

(** ** Entities (types/index.ts) *)

Module Project.
Record t := mk {
  id : string;
  name : string;
  description : option string;
  status : string;
  currentPhase : string;
  createdAt : nat;
  updatedAt : nat }.

(** [Partial<Project>], the fields the repository reads; [description] may be
    given as [null]. *)
Record partial := mkPartial {
  name' : option string;
  description' : option (option string);
  status' : option string;
  currentPhase' : option string }.

Definition empty : partial := mkPartial None None None None.
End Project.

Module Task.
Record t := mk {
  id : string;
  projectId : string;
  parentId : option string;
  title : string;
  description : option string;
  phase : string;
  status : string;
  assigneeType : option string;
  priority : Z;
  requirementsRefs : list string;
  dependencies : list string;
  createdAt : nat;
  updatedAt : nat }.

Record partial := mkPartial {
  projectId' : option string;
  parentId' : option string;
  title' : option string;
  description' : option (option string);
  phase' : option string;
  status' : option string;
  assigneeType' : option string;
  priority' : option Z;
  requirementsRefs' : option (list string);
  dependencies' : option (list string) }.

Definition empty : partial :=
  mkPartial None None None None None None None None None None.
End Task.

(** [TaskFilter]; [parentId] is [undefined], [null] or a string. *)
Module TaskFilter.
Record t := mk {
  status : option string;
  phase : option string;
  assigneeType : option string;
  parentId : option (option string) }.

Definition none : t := mk None None None None.
End TaskFilter.

Module AgentSession.
Record t := mk {
  id : string;
  projectId : string;
  taskId : option string;
  agentType : string;
  contextData : gmap string JsValue;
  lastActive : nat }.

Record partial := mkPartial {
  projectId' : option string;
  taskId' : option string;
  agentType' : option string;
  contextData' : option JsValue }.
End AgentSession.

Module WorkflowCheckpoint.
Record t := mk {
  id : string;
  projectId : string;
  phase : string;
  checkpointData : CheckpointData;
  createdAt : nat }.

Record partial := mkPartial {
  projectId' : option string;
  phase' : option string;
  checkpointData' : option CheckpointData }.
End WorkflowCheckpoint.

Module WorkflowState.
Record t := mk {
  project : Project.t;
  currentPhase : string;
  checkpoint : option WorkflowCheckpoint.t;
  pendingTasks : list Task.t;
  completedTasks : list Task.t }.
End WorkflowState.

(** Converter functions *)

Definition projectFromRow (row : ProjectRow) : Project.t :=
  Project.mk (p_id row) (p_name row) (p_description row) (p_status row)
    (p_current_phase row) (p_created_at row) (p_updated_at row).

Definition taskFromRow (row : TaskRow) : Task.t :=
  Task.mk (t_id row) (t_project_id row) (truthy (t_parent_id row))
    (t_title row) (t_description row) (t_phase row) (t_status row)
    (truthy (t_assignee_type row)) (t_priority row)
    (parseJsonArray (t_requirements_refs row))
    (parseJsonArray (t_dependencies row))
    (t_created_at row) (t_updated_at row).

Definition agentSessionFromRow (row : AgentSessionRow) : AgentSession.t :=
  AgentSession.mk (s_id row) (s_project_id row) (truthy (s_task_id row))
    (s_agent_type row) (parseJsonObject (s_context_data row))
    (s_last_active row).

Definition workflowCheckpointFromRow (row : WorkflowCheckpointRow) : WorkflowCheckpoint.t :=
  WorkflowCheckpoint.mk (c_id row) (c_project_id row) (c_phase row)
    (c_checkpoint_data row) (c_created_at row).

(** ** SQLite: the constraints of init.sql

    The statements the repositories prepare are modelled one by one next to
    the method that runs them.  A statement that violates a constraint throws
    and changes nothing.  Foreign keys are enforced (better-sqlite3 turns them
    on by default). *)

Definition UNIQUE_failed (column : string) : Exn :=
  Error ("UNIQUE constraint failed: " +:+ column).

Definition CHECK_failed (expr : string) : Exn :=
  Error ("CHECK constraint failed: " +:+ expr).

Definition FOREIGN_KEY_failed : Exn := Error "FOREIGN KEY constraint failed".

(** [CHECK (status IN ('active', 'paused', 'completed'))] *)
Definition check_project_status (status : string) : bool :=
  includes ["active"; "paused"; "completed"] status.

(** [CHECK (current_phase IN ('requirements', 'design', 'tasks', 'execute'))],
    which is also the CHECK on [tasks.phase] *)
Definition check_phase (phase : string) : bool :=
  includes ["requirements"; "design"; "tasks"; "execute"] phase.

(** [CHECK (status IN ('pending', 'in_progress', 'blocked', 'completed'))] *)
Definition check_task_status (status : string) : bool :=
  includes ["pending"; "in_progress"; "blocked"; "completed"] status.

Definition has_project (db : Database) (id : string) : bool :=
  existsb (fun r => String.eqb (p_id r) id) (projects db).

Definition has_task (db : Database) (id : string) : bool :=
  existsb (fun r => String.eqb (t_id r) id) (tasks db).

(** *** Foreign key actions

    [tasks.parent_id ... ON DELETE CASCADE] and [agent_sessions.task_id ...
    ON DELETE SET NULL].  A row is identified by its primary key. *)

Definition parent_in (gone : list string) (r : TaskRow) : bool :=
  match t_parent_id r with
  | Some p => includes gone p
  | None => false
  end.

(** One round of the cascade: the rows whose parent is gone go too. *)
Definition cascade_round (rows : list TaskRow) (gone : list string) : list string :=
  gone ++
  map t_id
    (List.filter (fun r => parent_in gone r && negb (includes gone (t_id r))) rows).

(** The cascade runs until no row is left to delete; [fuel] rounds. *)
Fixpoint cascade (fuel : nat) (rows : list TaskRow) (gone : list string) : list string :=
  match fuel with
  | O => gone
  | S fuel' => cascade fuel' rows (cascade_round rows gone)
  end.

Definition set_null (gone : list string) (s : AgentSessionRow) : AgentSessionRow :=
  match s_task_id s with
  | Some t =>
      if includes gone t
      then mkAgentSessionRow (s_id s) (s_project_id s) None (s_agent_type s)
             (s_context_data s) (s_last_active s)
      else s
  | None => s
  end.

(** [DELETE FROM tasks WHERE ...] for the rows that [doomed] selects, with
    the foreign key actions; the number is [info.changes], which counts the
    selected rows only. *)
Definition delete_tasks (doomed : TaskRow -> bool) (db : Database) : Database * nat :=
  let selected := List.filter doomed (tasks db) in
  let gone := cascade (length (tasks db)) (tasks db) (map t_id selected) in
  (mkDatabase (projects db)
     (List.filter (fun r => negb (includes gone (t_id r))) (tasks db))
     (map (set_null gone) (agent_sessions db))
     (workflow_checkpoints db),
   length selected).

(** *** ORDER BY

    Every SELECT of the repositories reads one table, by rowid or through a
    single-column index under an equality constraint, so that the rows reach
    the sorter in rowid order, the order of insertion, which is the order of
    the table here.  SQLite's sorter keeps rows that are equal on the ORDER BY
    terms in the order in which they reach it.  [order_by R] is that stable
    sort; [R a b] says that [a] sorts before [b] or ties with it. *)
Section order_by.
Context {A : Type} (R : relation A) `{forall x y, Decision (R x y)}.

(** [x], which comes before every row of [l] in the table, goes in front of
    the first row it sorts before or ties with. *)
Fixpoint insert_row (x : A) (l : list A) : list A :=
  match l with
  | [] => [x]
  | y :: l' => if decide (R x y) then x :: l else y :: insert_row x l'
  end.

Fixpoint order_by (l : list A) : list A :=
  match l with
  | [] => []
  | x :: l' => insert_row x (order_by l')
  end.

End order_by.

(** ** ProjectRepository *)

Module ProjectRepository.

(** [INSERT INTO projects (name, description, status, current_phase)
    VALUES (?, ?, ?, ?)], then the row read back by its rowid. *)
Definition INSERT (env : Env) (name : string) (description : option string)
    (status current_phase : string) : Op ProjectRow :=
  fun db =>
    if negb (check_project_status status) then
      (db, inl (CHECK_failed "status IN ('active', 'paused', 'completed')"))
    else if negb (check_phase current_phase) then
      (db, inl (CHECK_failed
        "current_phase IN ('requirements', 'design', 'tasks', 'execute')"))
    else if has_project db (randomblob env) then
      (db, inl (UNIQUE_failed "projects.id"))
    else if existsb (fun r => String.eqb (p_name r) name) (projects db) then
      (db, inl (UNIQUE_failed "projects.name"))
    else
      let row := mkProjectRow (randomblob env) name description status
                   current_phase (CURRENT_TIMESTAMP env) (CURRENT_TIMESTAMP env) in
      (set_projects db (projects db ++ [row]), inr row).

Definition create (env : Env) (item : Project.partial) : Op Project.t :=
  match truthy (Project.name' item) with
  | None => throw (Error "Project name is required")
  | Some name =>
      do row <- INSERT env name
                  (truthy (mjoin (Project.description' item)))
                  (or_default (Project.status' item) "active")
                  (or_default (Project.currentPhase' item) "requirements");
      ret (projectFromRow row)
  end.

Definition findById (id : string) : Op (option Project.t) :=
  query (fun db =>
    projectFromRow <$> find (fun r => String.eqb (p_id r) id) (projects db)).

Definition findByName (name : string) : Op (option Project.t) :=
  query (fun db =>
    projectFromRow <$> find (fun r => String.eqb (p_name r) name) (projects db)).

(** The SET clauses [update] collects, applied to one row. *)
Definition apply_sets (updates : Project.partial) (r : ProjectRow) : ProjectRow :=
  mkProjectRow (p_id r)
    (default (p_name r) (Project.name' updates))
    (default (p_description r) (Project.description' updates))
    (default (p_status r) (Project.status' updates))
    (default (p_current_phase r) (Project.currentPhase' updates))
    (p_created_at r) (p_updated_at r).

(** The trigger [update_projects_timestamp]. *)
Definition touch (env : Env) (r : ProjectRow) : ProjectRow :=
  mkProjectRow (p_id r) (p_name r) (p_description r) (p_status r)
    (p_current_phase r) (p_created_at r) (CURRENT_TIMESTAMP env).

(** [UPDATE projects SET ... WHERE id = ?]; the result is [info.changes]. *)
Definition UPDATE (env : Env) (id : string) (sets : ProjectRow -> ProjectRow) : Op nat :=
  fun db =>
    let hit r := String.eqb (p_id r) id in
    let new r := if hit r then sets r else r in
    if existsb (fun r => hit r && negb (check_project_status (p_status (new r))))
         (projects db) then
      (db, inl (CHECK_failed "status IN ('active', 'paused', 'completed')"))
    else if existsb (fun r => hit r && negb (check_phase (p_current_phase (new r))))
         (projects db) then
      (db, inl (CHECK_failed
        "current_phase IN ('requirements', 'design', 'tasks', 'execute')"))
    else if existsb (fun r => hit r &&
           existsb (fun r' => negb (String.eqb (p_id r') (p_id r)) &&
                              String.eqb (p_name r') (p_name (new r)))
             (projects db)) (projects db) then
      (db, inl (UNIQUE_failed "projects.name"))
    else
      (set_projects db
         (map (fun r => if hit r then touch env (sets r) else r) (projects db)),
       inr (length (List.filter hit (projects db)))).

Definition no_sets (updates : Project.partial) : bool :=
  match updates with
  | Project.mkPartial None None None None => true
  | _ => false
  end.

Definition update (env : Env) (id : string) (updates : Project.partial)
    : Op (option Project.t) :=
  match Project.status' updates with
  | Some status =>
      if isValidProjectStatus status then ret tt
      else throw (Error ("Invalid project status: " +:+ status))
  | None => ret tt
  end ;;
  match Project.currentPhase' updates with
  | Some phase =>
      if isValidProjectPhase phase then ret tt
      else throw (Error ("Invalid project phase: " +:+ phase))
  | None => ret tt
  end ;;
  if no_sets updates then findById id
  else
    do changes <- UPDATE env id (apply_sets updates);
    if Nat.eqb changes 0 then ret None else findById id.

Definition updateStatus (env : Env) (id : string) (status : string) : Op unit :=
  if negb (isValidProjectStatus status) then
    throw (Error ("Invalid project status: " +:+ status))
  else
    do changes <- UPDATE env id (fun r =>
      mkProjectRow (p_id r) (p_name r) (p_description r) status
        (p_current_phase r) (p_created_at r) (p_updated_at r));
    if Nat.eqb changes 0 then throw (Error ("Project not found: " +:+ id))
    else ret tt.

(** [DELETE FROM projects WHERE id = ?]: the tasks, sessions and checkpoints
    of a deleted project go with it (ON DELETE CASCADE). *)
Definition DELETE (id : string) : Op nat :=
  fun db =>
    let hit r := String.eqb (p_id r) id in
    let changes := length (List.filter hit (projects db)) in
    if Nat.eqb changes 0 then (db, inr 0%nat)
    else
      let db1 := fst (delete_tasks (fun r => String.eqb (t_project_id r) id) db) in
      (mkDatabase
         (List.filter (fun r => negb (hit r)) (projects db))
         (tasks db1)
         (List.filter (fun s => negb (String.eqb (s_project_id s) id))
            (agent_sessions db1))
         (List.filter (fun c => negb (String.eqb (c_project_id c) id))
            (workflow_checkpoints db)),
       inr changes).

Definition delete (id : string) : Op bool :=
  do changes <- DELETE id;
  ret (negb (Nat.eqb changes 0)).

End ProjectRepository.

(** ** TaskRepository *)

(** [ORDER BY priority DESC, created_at ASC] *)
Definition task_order (a b : TaskRow) : Prop :=
  t_priority b < t_priority a \/
  (t_priority a = t_priority b /\ (t_created_at a <= t_created_at b)%nat).

#[global] Instance task_order_dec a b : Decision (task_order a b).
Proof. unfold task_order. apply _. Defined.

(** A [TaskNode] of [getTaskTree]: the task and its [children] array.  The
    array holds references to the node objects of the lookup map; a reference
    is the key of the node in that map. *)
Module TaskNode.
Record t := mk {
  task : Task.t;
  children : list string }.
End TaskNode.

Module TaskRepository.

(** [INSERT INTO tasks (...) VALUES (?, ?, ?, ?, ?, ?, ?, ?, ?, ?)] *)
Definition INSERT (env : Env) (project_id : string) (parent_id : option string)
    (title : string) (description : option string) (phase status : string)
    (assignee_type : option string) (priority : Z)
    (requirements_refs dependencies : option (list string)) : Op TaskRow :=
  fun db =>
    if negb (check_phase phase) then
      (db, inl (CHECK_failed
        "phase IN ('requirements', 'design', 'tasks', 'execute')"))
    else if negb (check_task_status status) then
      (db, inl (CHECK_failed
        "status IN ('pending', 'in_progress', 'blocked', 'completed')"))
    else if has_task db (randomblob env) then
      (db, inl (UNIQUE_failed "tasks.id"))
    else if negb (has_project db project_id) then
      (db, inl FOREIGN_KEY_failed)
    else if match parent_id with
            | Some p => negb (has_task db p || String.eqb p (randomblob env))
            | None => false
            end then
      (db, inl FOREIGN_KEY_failed)
    else
      let row := mkTaskRow (randomblob env) project_id parent_id title
                   description phase status assignee_type priority
                   requirements_refs dependencies
                   (CURRENT_TIMESTAMP env) (CURRENT_TIMESTAMP env) in
      (set_tasks db (tasks db ++ [row]), inr row).

(** [item.priority || 1] *)
Definition priority_or_1 (p : option Z) : Z :=
  match p with
  | Some n => if n =? 0 then 1 else n
  | None => 1
  end.

Definition create (env : Env) (item : Task.partial) : Op Task.t :=
  match truthy (Task.projectId' item), truthy (Task.title' item),
        truthy (Task.phase' item) with
  | Some projectId, Some title, Some phase =>
      if negb (isValidTaskPhase phase) then
        throw (Error ("Invalid task phase: " +:+ phase))
      else
        do row <- INSERT env projectId (truthy (Task.parentId' item)) title
                    (truthy (mjoin (Task.description' item))) phase
                    (or_default (Task.status' item) "pending")
                    (truthy (Task.assigneeType' item))
                    (priority_or_1 (Task.priority' item))
                    (Task.requirementsRefs' item)
                    (Task.dependencies' item);
        ret (taskFromRow row)
  | _, _, _ => throw (Error "Task projectId, title, and phase are required")
  end.

Definition findById (id : string) : Op (option Task.t) :=
  query (fun db =>
    taskFromRow <$> find (fun r => String.eqb (t_id r) id) (tasks db)).

(** The SET clauses [update] collects, applied to one row. *)
Definition apply_sets (updates : Task.partial) (r : TaskRow) : TaskRow :=
  mkTaskRow (t_id r) (t_project_id r) (t_parent_id r)
    (default (t_title r) (Task.title' updates))
    (default (t_description r) (Task.description' updates))
    (t_phase r)
    (default (t_status r) (Task.status' updates))
    (match Task.assigneeType' updates with
     | Some a => Some a
     | None => t_assignee_type r
     end)
    (default (t_priority r) (Task.priority' updates))
    (match Task.requirementsRefs' updates with
     | Some l => Some l
     | None => t_requirements_refs r
     end)
    (match Task.dependencies' updates with
     | Some l => Some l
     | None => t_dependencies r
     end)
    (t_created_at r) (t_updated_at r).

(** The trigger [update_tasks_timestamp]. *)
Definition touch (env : Env) (r : TaskRow) : TaskRow :=
  mkTaskRow (t_id r) (t_project_id r) (t_parent_id r) (t_title r)
    (t_description r) (t_phase r) (t_status r) (t_assignee_type r)
    (t_priority r) (t_requirements_refs r) (t_dependencies r)
    (t_created_at r) (CURRENT_TIMESTAMP env).

(** [UPDATE tasks SET ... WHERE id = ?]; the result is [info.changes]. *)
Definition UPDATE (env : Env) (id : string) (sets : TaskRow -> TaskRow) : Op nat :=
  fun db =>
    let hit r := String.eqb (t_id r) id in
    if existsb (fun r => hit r && negb (check_task_status (t_status (sets r))))
         (tasks db) then
      (db, inl (CHECK_failed
        "status IN ('pending', 'in_progress', 'blocked', 'completed')"))
    else
      (set_tasks db
         (map (fun r => if hit r then touch env (sets r) else r) (tasks db)),
       inr (length (List.filter hit (tasks db)))).

(** [setClauses.length === 0]: [update] sets neither [projectId], [parentId]
    nor [phase]. *)
Definition no_sets (updates : Task.partial) : bool :=
  match updates with
  | Task.mkPartial _ _ None None _ None None None None None => true
  | _ => false
  end.

Definition update (env : Env) (id : string) (updates : Task.partial)
    : Op (option Task.t) :=
  match Task.status' updates with
  | Some status =>
      if isValidTaskStatus status then ret tt
      else throw (Error ("Invalid task status: " +:+ status))
  | None => ret tt
  end ;;
  if no_sets updates then findById id
  else
    do changes <- UPDATE env id (apply_sets updates);
    if Nat.eqb changes 0 then ret None else findById id.

(** The WHERE clause [findByProject] builds from its filter. *)
Definition matches (projectId : string) (filter : TaskFilter.t) (r : TaskRow) : bool :=
  String.eqb (t_project_id r) projectId &&
  match truthy (TaskFilter.status filter) with
  | Some s => String.eqb (t_status r) s
  | None => true
  end &&
  match truthy (TaskFilter.phase filter) with
  | Some p => String.eqb (t_phase r) p
  | None => true
  end &&
  match truthy (TaskFilter.assigneeType filter) with
  | Some a => match t_assignee_type r with
              | Some a' => String.eqb a' a
              | None => false
              end
  | None => true
  end &&
  match TaskFilter.parentId filter with
  | None => true
  | Some None => match t_parent_id r with None => true | Some _ => false end
  | Some (Some p) => match t_parent_id r with
                     | Some p' => String.eqb p' p
                     | None => false
                     end
  end.

Definition findByProject (projectId : string) (filter : TaskFilter.t) : Op (list Task.t) :=
  query (fun db =>
    map taskFromRow
      (order_by task_order (List.filter (matches projectId filter) (tasks db)))).

(** [taskMap.set(task.id, { ...task, children: [] })] *)
Definition set_node (taskMap : gmap string TaskNode.t) (task : Task.t)
    : gmap string TaskNode.t :=
  <[Task.id task := TaskNode.mk task []]> taskMap.

(** First pass of [getTaskTree]: one node per task, no children yet. *)
Definition first_pass (allTasks : list Task.t) : gmap string TaskNode.t :=
  foldl set_node ∅ allTasks.

(** [parent.children.push(taskNode)] *)
Definition push_child (child : string) (node : TaskNode.t) : TaskNode.t :=
  TaskNode.mk (TaskNode.task node) (TaskNode.children node ++ [child]).

(** One iteration of the second pass. *)
Definition link (st : gmap string TaskNode.t * list string) (task : Task.t)
    : gmap string TaskNode.t * list string :=
  let '(taskMap, rootTasks) := st in
  match truthy (Task.parentId task) with
  | Some parentId =>
      if bool_decide (is_Some (taskMap !! parentId))
      then (alter (push_child (Task.id task)) parentId taskMap, rootTasks)
      else (taskMap, (rootTasks ++ [Task.id task])%list)
  | None => (taskMap, (rootTasks ++ [Task.id task])%list)
  end.

(** Both passes: the node objects and the [rootTasks] array of references. *)
Definition build_tree (allTasks : list Task.t) : gmap string TaskNode.t * list string :=
  foldl link (first_pass allTasks, []) allTasks.

Definition getTaskTree (projectId : string)
    : Op (gmap string TaskNode.t * list string) :=
  do allTasks <- findByProject projectId TaskFilter.none;
  ret (build_tree allTasks).

(** [SELECT COUNT( * ) as incomplete FROM tasks WHERE id IN (...) AND
    status != 'completed'] *)
Definition count_incomplete (dependencies : list string) : Op nat :=
  query (fun db =>
    length (List.filter (fun r =>
      includes dependencies (t_id r) &&
      negb (String.eqb (t_status r) "completed")) (tasks db))).

Definition checkDependencies (taskId : string) : Op bool :=
  do task <- findById taskId;
  match task with
  | None => ret true
  | Some task =>
      if Nat.eqb (length (Task.dependencies task)) 0 then ret true
      else
        do incomplete <- count_incomplete (Task.dependencies task);
        ret (Nat.eqb incomplete 0)
  end.

(** [DELETE FROM tasks WHERE parent_id = ?] *)
Definition DELETE_children (id : string) : Op nat :=
  fun db =>
    let '(db', changes) :=
      delete_tasks (fun r => match t_parent_id r with
                             | Some p => String.eqb p id
                             | None => false
                             end) db in
    (db', inr changes).

(** [DELETE FROM tasks WHERE id = ?] *)
Definition DELETE (id : string) : Op nat :=
  fun db =>
    let '(db', changes) := delete_tasks (fun r => String.eqb (t_id r) id) db in
    (db', inr changes).

Definition delete (id : string) : Op bool :=
  DELETE_children id ;;
  do changes <- DELETE id;
  ret (negb (Nat.eqb changes 0)).

End TaskRepository.

(** ** AgentSessionRepository *)

(** [ORDER BY last_active DESC] *)
Definition session_order (a b : AgentSessionRow) : Prop :=
  (s_last_active b <= s_last_active a)%nat.

#[global] Instance session_order_dec a b : Decision (session_order a b).
Proof. unfold session_order. apply _. Defined.

Module AgentSessionRepository.

(** [INSERT INTO agent_sessions (project_id, task_id, agent_type,
    context_data) VALUES (?, ?, ?, ?)] *)
Definition INSERT (env : Env) (project_id : string) (task_id : option string)
    (agent_type : string) (context_data : option JsValue) : Op AgentSessionRow :=
  fun db =>
    if existsb (fun r => String.eqb (s_id r) (randomblob env)) (agent_sessions db) then
      (db, inl (UNIQUE_failed "agent_sessions.id"))
    else if negb (has_project db project_id) then
      (db, inl FOREIGN_KEY_failed)
    else if match task_id with
            | Some t => negb (has_task db t)
            | None => false
            end then
      (db, inl FOREIGN_KEY_failed)
    else
      let row := mkAgentSessionRow (randomblob env) project_id task_id
                   agent_type context_data (CURRENT_TIMESTAMP env) in
      (set_agent_sessions db (agent_sessions db ++ [row]), inr row).

Definition create (env : Env) (item : AgentSession.partial) : Op AgentSession.t :=
  match truthy (AgentSession.projectId' item),
        truthy (AgentSession.agentType' item) with
  | Some projectId, Some agentType =>
      if negb (isValidAgentType agentType) then
        throw (Error ("Invalid agent type: " +:+ agentType))
      else
        do row <- INSERT env projectId (truthy (AgentSession.taskId' item))
                    agentType
                    (match AgentSession.contextData' item with
                     | Some v => if js_truthy v then Some v else None
                     | None => None
                     end);
        ret (agentSessionFromRow row)
  | _, _ => throw (Error "AgentSession projectId and agentType are required")
  end.

Definition findById (id : string) : Op (option AgentSession.t) :=
  query (fun db =>
    agentSessionFromRow <$>
      find (fun r => String.eqb (s_id r) id) (agent_sessions db)).

Definition findByProject (projectId : string) : Op (list AgentSession.t) :=
  query (fun db =>
    map agentSessionFromRow
      (order_by session_order
         (List.filter (fun r => String.eqb (s_project_id r) projectId)
            (agent_sessions db)))).

Definition findByProjectAndType (projectId agentType : string)
    : Op (option AgentSession.t) :=
  query (fun db =>
    agentSessionFromRow <$>
      head (order_by session_order
              (List.filter (fun r => String.eqb (s_project_id r) projectId &&
                                     String.eqb (s_agent_type r) agentType)
                 (agent_sessions db)))).

(** [{ ...session.contextData, ...context }]: the keys of both, the value of
    [context] where both have the key. *)
Definition spread (contextData context : gmap string JsValue) : gmap string JsValue :=
  context ∪ contextData.

(** [UPDATE agent_sessions SET context_data = ?, last_active =
    CURRENT_TIMESTAMP WHERE id = ?] *)
Definition UPDATE_context (env : Env) (id : string) (context_data : JsValue) : Op nat :=
  fun db =>
    let hit r := String.eqb (s_id r) id in
    (set_agent_sessions db
       (map (fun r =>
          if hit r then
            mkAgentSessionRow (s_id r) (s_project_id r) (s_task_id r)
              (s_agent_type r) (Some context_data) (CURRENT_TIMESTAMP env)
          else r) (agent_sessions db)),
     inr (length (List.filter hit (agent_sessions db)))).

Definition updateContext (env : Env) (id : string) (context : gmap string JsValue)
    : Op unit :=
  do session <- findById id;
  match session with
  | None => throw (Error ("Agent session not found: " +:+ id))
  | Some session =>
      let updatedContext := spread (AgentSession.contextData session) context in
      UPDATE_context env id (JObj updatedContext) ;;
      ret tt
  end.

Definition getAllContexts (projectId : string) : Op (gmap string (gmap string JsValue)) :=
  do sessions <- findByProject projectId;
  ret (foldl (fun contexts session =>
         <[AgentSession.agentType session := AgentSession.contextData session]> contexts)
       ∅ sessions).

(** The SET clauses of [update]: [context_data] when [contextData] is given,
    and always [last_active = CURRENT_TIMESTAMP]. *)
Definition UPDATE (env : Env) (id : string) (contextData : option JsValue) : Op nat :=
  fun db =>
    let hit r := String.eqb (s_id r) id in
    (set_agent_sessions db
       (map (fun r =>
          if hit r then
            mkAgentSessionRow (s_id r) (s_project_id r) (s_task_id r)
              (s_agent_type r)
              (match contextData with
               | Some v => Some v
               | None => s_context_data r
               end)
              (CURRENT_TIMESTAMP env)
          else r) (agent_sessions db)),
     inr (length (List.filter hit (agent_sessions db)))).

Definition update (env : Env) (id : string) (updates : AgentSession.partial)
    : Op (option AgentSession.t) :=
  let setClauses :=
    (match AgentSession.contextData' updates with
     | Some _ => ["context_data = ?"]
     | None => []
     end ++ ["last_active = CURRENT_TIMESTAMP"])%list in
  if Nat.eqb (length setClauses) 0 then findById id
  else
    do changes <- UPDATE env id (AgentSession.contextData' updates);
    if Nat.eqb changes 0 then ret None else findById id.

(** [UPDATE agent_sessions SET last_active = CURRENT_TIMESTAMP WHERE id = ?] *)
Definition UPDATE_last_active (env : Env) (id : string) : Op nat :=
  UPDATE env id None.

(** [new_Date] is what [new Date()] gives: a reading of the JavaScript
    clock, taken after the UPDATE and independent of the [CURRENT_TIMESTAMP]
    that SQLite stored in the row. *)
Definition resumeSession (env : Env) (new_Date : nat) (id : string)
    : Op AgentSession.t :=
  do session <- findById id;
  match session with
  | None => throw (Error ("Agent session not found: " +:+ id))
  | Some session =>
      UPDATE_last_active env id ;;
      ret (AgentSession.mk (AgentSession.id session) (AgentSession.projectId session)
             (AgentSession.taskId session) (AgentSession.agentType session)
             (AgentSession.contextData session) new_Date)
  end.

(** [UPDATE agent_sessions SET task_id = ?, last_active = CURRENT_TIMESTAMP
    WHERE id = ?] *)
Definition UPDATE_task (env : Env) (id taskId : string) : Op nat :=
  fun db =>
    let hit r := String.eqb (s_id r) id in
    if existsb hit (agent_sessions db) && negb (has_task db taskId) then
      (db, inl FOREIGN_KEY_failed)
    else
      (set_agent_sessions db
         (map (fun r =>
            if hit r then
              mkAgentSessionRow (s_id r) (s_project_id r) (Some taskId)
                (s_agent_type r) (s_context_data r) (CURRENT_TIMESTAMP env)
            else r) (agent_sessions db)),
       inr (length (List.filter hit (agent_sessions db)))).

(** The result of the first branch is [findById(existing.id)] cast to a
    session: [None] is the [null] the cast hides. *)
Definition assignAgent (env : Env) (taskId agentType : string)
    : Op (option AgentSession.t) :=
  do taskRow <- query (fun db =>
      find (fun r => String.eqb (t_id r) taskId) (tasks db));
  match taskRow with
  | None => throw (Error ("Task not found: " +:+ taskId))
  | Some taskRow =>
      do existing <- findByProjectAndType (t_project_id taskRow) agentType;
      match existing with
      | Some existing =>
          UPDATE_task env (AgentSession.id existing) taskId ;;
          findById (AgentSession.id existing)
      | None =>
          do session <- create env
            (AgentSession.mkPartial (Some (t_project_id taskRow))
               (Some taskId) (Some agentType) (Some (JObj ∅)));
          ret (Some session)
      end
  end.

End AgentSessionRepository.

(** ** WorkflowRepository *)

(** [ORDER BY created_at DESC] *)
Definition checkpoint_order (a b : WorkflowCheckpointRow) : Prop :=
  (c_created_at b <= c_created_at a)%nat.

#[global] Instance checkpoint_order_dec a b : Decision (checkpoint_order a b).
Proof. unfold checkpoint_order. apply _. Defined.

(** [ORDER BY created_at ASC] *)
Definition checkpoint_order_asc (a b : WorkflowCheckpointRow) : Prop :=
  (c_created_at a <= c_created_at b)%nat.

#[global] Instance checkpoint_order_asc_dec a b : Decision (checkpoint_order_asc a b).
Proof. unfold checkpoint_order_asc. apply _. Defined.

Module WorkflowRepository.

(** [INSERT INTO workflow_checkpoints (project_id, phase, checkpoint_data)
    VALUES (?, ?, ?)] *)
Definition INSERT (env : Env) (project_id phase : string)
    (checkpoint_data : CheckpointData) : Op WorkflowCheckpointRow :=
  fun db =>
    if existsb (fun r => String.eqb (c_id r) (randomblob env))
         (workflow_checkpoints db) then
      (db, inl (UNIQUE_failed "workflow_checkpoints.id"))
    else if negb (has_project db project_id) then
      (db, inl FOREIGN_KEY_failed)
    else
      let row := mkWorkflowCheckpointRow (randomblob env) project_id phase
                   checkpoint_data (CURRENT_TIMESTAMP env) in
      (set_workflow_checkpoints db (workflow_checkpoints db ++ [row]), inr row).

Definition create (env : Env) (item : WorkflowCheckpoint.partial)
    : Op WorkflowCheckpoint.t :=
  match truthy (WorkflowCheckpoint.projectId' item),
        truthy (WorkflowCheckpoint.phase' item),
        WorkflowCheckpoint.checkpointData' item with
  | Some projectId, Some phase, Some checkpointData =>
      do row <- INSERT env projectId phase checkpointData;
      ret (workflowCheckpointFromRow row)
  | _, _, _ =>
      throw (Error
        "WorkflowCheckpoint projectId, phase, and checkpointData are required")
  end.

(** Workflow checkpoints are immutable: [update] touches no table. *)
Definition update (_id : string) (_updates : WorkflowCheckpoint.partial)
    : Op (option WorkflowCheckpoint.t) :=
  throw (Error "Workflow checkpoints cannot be updated").

Definition findById (id : string) : Op (option WorkflowCheckpoint.t) :=
  query (fun db =>
    workflowCheckpointFromRow <$>
      find (fun r => String.eqb (c_id r) id) (workflow_checkpoints db)).

Definition createCheckpoint (env : Env) (projectId phase : string)
    : Op WorkflowCheckpoint.t :=
  do completedTasks <- TaskRepository.findByProject projectId
       (TaskFilter.mk (Some "completed") (Some phase) None None);
  do inProgressTasks <- TaskRepository.findByProject projectId
       (TaskFilter.mk (Some "in_progress") (Some phase) None None);
  let checkpointData :=
    mkCheckpointData (map Task.id completedTasks)
      (Task.id <$> head inProgressTasks) ∅ in
  create env (WorkflowCheckpoint.mkPartial (Some projectId) (Some phase)
                (Some checkpointData)).

Definition getLatestCheckpoint (projectId : string)
    : Op (option WorkflowCheckpoint.t) :=
  query (fun db =>
    workflowCheckpointFromRow <$>
      head (order_by checkpoint_order
              (List.filter (fun r => String.eqb (c_project_id r) projectId)
                 (workflow_checkpoints db)))).

Definition resumeWorkflow (projectId : string) : Op WorkflowState.t :=
  do project <- ProjectRepository.findById projectId;
  match project with
  | None => throw (Error ("Project not found: " +:+ projectId))
  | Some project =>
      do checkpoint <- getLatestCheckpoint projectId;
      do allTasks <- TaskRepository.findByProject projectId
           (TaskFilter.mk None (Some (Project.currentPhase project)) None None);
      let completedTasks :=
        List.filter (fun t => String.eqb (Task.status t) "completed") allTasks in
      let pendingTasks :=
        List.filter (fun t => negb (String.eqb (Task.status t) "completed")) allTasks in
      ret (WorkflowState.mk project (Project.currentPhase project) checkpoint
             pendingTasks completedTasks)
  end.

Definition getCheckpointsByPhase (projectId phase : string)
    : Op (list WorkflowCheckpoint.t) :=
  query (fun db =>
    map workflowCheckpointFromRow
      (order_by checkpoint_order
         (List.filter (fun r => String.eqb (c_project_id r) projectId &&
                                String.eqb (c_phase r) phase)
            (workflow_checkpoints db)))).

Definition getCheckpoints (projectId : string) : Op (list WorkflowCheckpoint.t) :=
  query (fun db =>
    map workflowCheckpointFromRow
      (order_by checkpoint_order_asc
         (List.filter (fun r => String.eqb (c_project_id r) projectId)
            (workflow_checkpoints db)))).

(** [DELETE FROM workflow_checkpoints WHERE project_id = ?]; the result is
    [info.changes]. *)
Definition deleteProjectCheckpoints (projectId : string) : Op nat :=
  fun db =>
    let hit r := String.eqb (c_project_id r) projectId in
    (set_workflow_checkpoints db
       (List.filter (fun r => negb (hit r)) (workflow_checkpoints db)),
     inr (length (List.filter hit (workflow_checkpoints db)))).

End WorkflowRepository.

(** ** FileSync: the document mirror, as far as the handlers depend on it

    The mirror writes no table.  What the file system answers is in [Env]. *)

Module FileSync.

Record t := mk {
  baseDir : string;
  specDir : string;
  enabled : bool }.

(** [new FileSync(baseDir?, specDir?, enabled = true)] in the directory [cwd] *)
Definition constructor (cwd : string) (baseDir specDir : option string)
    (enabled : option bool) : t :=
  mk (or_default baseDir (path_join [cwd; "projects"]))
     (or_default specDir (path_join [cwd; ".spec"]))
     (default true enabled).

Definition isEnabled (self : t) : bool := enabled self.

Definition getProjectPath (self : t) (projectId : string) : string :=
  path_join [baseDir self; projectId].

(** The file system calls of a method: they raise [fs_error], if any. *)
Definition fs_calls (env : Env) : Op unit :=
  match fs_error env with
  | Some message => throw (Error message)
  | None => ret tt
  end.

Definition createProjectFiles (self : t) (env : Env) (projectId projectName : string)
    (description : option string) : Op unit :=
  if negb (enabled self) then ret tt else fs_calls env.

(** A property read [handoffMap[phase]] on the object literal of
    [completePhase]: an own property, a property inherited from
    [Object.prototype] (a function or an object, truthy and not a string), or
    [undefined]. *)
Inductive property :=
| Own (value : string)
| Inherited
| Undefined.

Definition Object_prototype : list string :=
  ["constructor"; "__defineGetter__"; "__defineSetter__"; "hasOwnProperty";
   "__lookupGetter__"; "__lookupSetter__"; "isPrototypeOf";
   "propertyIsEnumerable"; "toString"; "valueOf"; "__proto__";
   "toLocaleString"].

Definition handoffMap (phase : string) : property :=
  if String.eqb phase "requirements" then Own "requirements-to-design.md"
  else if String.eqb phase "design" then Own "design-to-tasks.md"
  else if String.eqb phase "tasks" then Own "tasks-to-implementation.md"
  else if includes Object_prototype phase then Inherited
  else Undefined.

Definition completePhase (self : t) (env : Env) (projectId phase : string)
    (deliverables : JsValue) (handoffNotes : string) : Op unit :=
  if negb (enabled self) then ret tt
  else
    match handoffMap phase with
    | Undefined => throw (Error ("Unknown phase: " +:+ phase))
    | Inherited => throw (Error (path_type_error env))
    | Own handoffFile => fs_calls env
    end.

End FileSync.

(** ** AgenticMCPServer: the tool handlers

    An argument the handler tests with [typeof] is a [JsValue] that may be
    missing; an argument it passes on unchecked has the type the tool's
    [inputSchema] declares, and may be missing. *)

Module ContextSaveArgs.
Record t := mk {
  projectId : option string;
  agentType : option string;
  context : option JsValue;
  summary : option string }.
End ContextSaveArgs.

Module ContextSaveResult.
Record t := mk {
  success : bool;
  session_id : string;
  session_projectId : string;
  session_agentType : string;
  session_summary : option string }.
End ContextSaveResult.

Module HandoffArgs.
Record t := mk {
  projectId : option JsValue;
  currentPhase : option JsValue;
  phaseDeliverables : option JsValue;
  handoffNotes : option JsValue }.
End HandoffArgs.

Module HandoffResult.
Record t := mk {
  success : bool;
  checkpoint_id : string;
  checkpoint_phase : string;
  checkpoint_createdAt : nat;
  handoff_fromPhase : string;
  handoff_toPhase : option string;
  handoff_deliverables : JsValue;
  handoff_notes : string;
  project_id : string;
  project_name : string;
  project_currentPhase : option string;
  message : string }.
End HandoffResult.

Module ProjectCreateArgs.
Record t := mk {
  name : option JsValue;
  description : option string }.
End ProjectCreateArgs.

Module ProjectCreateResult.
Record t := mk {
  success : bool;
  project : Project.t;
  projectPath : option string;
  message : string }.
End ProjectCreateResult.

(** [task_progress]: the handler passes [taskId] to the UPDATE unchecked; it
    is taken as the string the schema requires. *)
Module TaskProgressArgs.
Record t := mk {
  taskId : string;
  status : option string;
  notes : option string }.
End TaskProgressArgs.

Module TaskProgressResult.
Record t := mk {
  success : bool;
  taskId : string;
  status : option string;
  notes : option string;
  message : string }.
End TaskProgressResult.

Module TaskQueryArgs.
Record t := mk {
  projectId : option string;
  status : option string;
  assigneeType : option string;
  phase : option string;
  includeHierarchy : option bool }.
End TaskQueryArgs.

(** One entry of the [tasks] array [handleTaskQuery] returns. *)
Module TaskSummary.
Record t := mk {
  id : string;
  title : string;
  status : string;
  projectId : string }.
End TaskSummary.

Module WorkflowResumeResult.
Record t := mk {
  success : bool;
  project_id : string;
  project_name : string;
  project_currentPhase : string;
  project_status : string;
  message : string }.
End WorkflowResumeResult.

Module TaskQueryResult.
Record t := mk {
  success : bool;
  tasks : list TaskSummary.t }.
End TaskQueryResult.

(** One entry of the [sessions] array [handleContextLoad] returns. *)
Module SessionSummary.
Record t := mk {
  id : string;
  agentType : string;
  lastActive : nat;
  hasContext : bool }.
End SessionSummary.

Module ContextLoadResult.
Record t := mk {
  success : bool;
  project_id : string;
  project_name : string;
  project_currentPhase : string;
  contexts : gmap string (gmap string JsValue);
  sessions : list SessionSummary.t;
  message : string }.
End ContextLoadResult.

(** [!v || typeof v !== 'string'] fails: [v] is a non-empty string. *)
Definition required_string (v : option JsValue) : option string :=
  match v with
  | Some (JStr s) => if String.eqb s "" then None else Some s
  | _ => None
  end.

(** [!v || typeof v !== 'object'] fails: [v] is an object or an array. *)
Definition required_object (v : option JsValue) : option JsValue :=
  match v with
  | Some x => if js_truthy x && typeof_object x then Some x else None
  | None => None
  end.

Module AgenticMCPServer.

Record t := mk {
  fileSync : FileSync.t }.

(** The constructor builds [new FileSync()]: the mirror is enabled. *)
Definition constructor (cwd : string) : t :=
  mk (FileSync.constructor cwd None None None).

Definition handleContextSave (self : t) (env : Env) (args : ContextSaveArgs.t)
    : Op ContextSaveResult.t :=
  do session <- AgentSessionRepository.create env
      (AgentSession.mkPartial (ContextSaveArgs.projectId args) None
         (ContextSaveArgs.agentType args) (ContextSaveArgs.context args));
  ret (ContextSaveResult.mk true (AgentSession.id session)
         (AgentSession.projectId session) (AgentSession.agentType session)
         (ContextSaveArgs.summary args)).

Definition phaseOrder : list string := ["requirements"; "design"; "tasks"; "execute"].

(** [nextPhase] of [handleWorkflowHandoff]; [None] is [undefined]. *)
Definition nextPhase (currentPhase : string) : option string :=
  let currentIndex := indexOf phaseOrder currentPhase in
  if currentIndex <? Z.of_nat (length phaseOrder) - 1
  then array_get phaseOrder (currentIndex + 1)
  else Some "complete".

(** [`${v}`] for a string that may be [undefined] *)
Definition template (v : option string) : string := default "undefined" v.

Definition handoff_body (self : t) (env : Env) (projectId currentPhase : string)
    (phaseDeliverables : JsValue) (handoffNotes : string) : Op HandoffResult.t :=
  do project <- ProjectRepository.findById projectId;
  match project with
  | None => throw (McpError InvalidParams ("Project not found: " +:+ projectId))
  | Some project =>
      do checkpoint <- WorkflowRepository.createCheckpoint env projectId currentPhase;
      let nextPhase := nextPhase currentPhase in
      (if bool_decide (nextPhase <> Some "complete") then
         ProjectRepository.update env projectId
           (Project.mkPartial None None None nextPhase) ;; ret tt
       else ret tt) ;;
      (if FileSync.isEnabled (fileSync self) then
         FileSync.completePhase (fileSync self) env projectId currentPhase
           phaseDeliverables handoffNotes
       else ret tt) ;;
      ret (HandoffResult.mk true
             (WorkflowCheckpoint.id checkpoint)
             (WorkflowCheckpoint.phase checkpoint)
             (WorkflowCheckpoint.createdAt checkpoint)
             currentPhase nextPhase phaseDeliverables handoffNotes
             (Project.id project) (Project.name project) nextPhase
             ("Phase '" +:+ currentPhase +:+ "' completed. " +:+
              (if bool_decide (nextPhase = Some "complete")
               then "Project complete!"
               else "Ready for '" +:+ template nextPhase +:+ "' phase.")))
  end.

Definition handleWorkflowHandoff (self : t) (env : Env) (args : HandoffArgs.t)
    : Op HandoffResult.t :=
  match required_string (HandoffArgs.projectId args) with
  | None => throw (McpError InvalidParams
              "Project ID is required and must be a string")
  | Some projectId =>
  match required_string (HandoffArgs.currentPhase args) with
  | None => throw (McpError InvalidParams
              "Current phase is required and must be a string")
  | Some currentPhase =>
  match required_object (HandoffArgs.phaseDeliverables args) with
  | None => throw (McpError InvalidParams
              "Phase deliverables are required and must be an object")
  | Some phaseDeliverables =>
  match required_string (HandoffArgs.handoffNotes args) with
  | None => throw (McpError InvalidParams
              "Handoff notes are required and must be a string")
  | Some handoffNotes =>
      try_catch
        (handoff_body self env projectId currentPhase phaseDeliverables handoffNotes)
        (fun error => throw (McpError InternalError
           ("Failed to complete handoff: " +:+ exn_message error)))
  end end end end.

Definition handleProjectCreate (self : t) (env : Env) (args : ProjectCreateArgs.t)
    : Op ProjectCreateResult.t :=
  match required_string (ProjectCreateArgs.name args) with
  | None => throw (McpError InvalidParams
              "Project name is required and must be a string")
  | Some name =>
      try_catch
        (do project <- ProjectRepository.create env
             (Project.mkPartial (Some name)
                (Some <$> truthy (ProjectCreateArgs.description args)) None None);
         (if FileSync.isEnabled (fileSync self) then
            FileSync.createProjectFiles (fileSync self) env (Project.id project)
              (Project.name project) (truthy (Project.description project))
          else ret tt) ;;
         ret (ProjectCreateResult.mk true project
                (if FileSync.isEnabled (fileSync self)
                 then Some (FileSync.getProjectPath (fileSync self) (Project.id project))
                 else None)
                ("Project '" +:+ Project.name project +:+ "' created successfully")))
        (fun error =>
           if str_includes (exn_message error) "UNIQUE constraint failed" then
             throw (McpError InvalidParams
               ("Project with name '" +:+ name +:+ "' already exists"))
           else
             throw (McpError InternalError
               ("Failed to create project: " +:+ exn_message error)))
  end.

Definition handleTaskProgress (self : t) (env : Env) (args : TaskProgressArgs.t)
    : Op TaskProgressResult.t :=
  TaskRepository.update env (TaskProgressArgs.taskId args)
    (Task.mkPartial None None None None None
       (match TaskProgressArgs.status args with
        | Some status => if String.eqb status "started" then Some "in_progress"
                         else Some status
        | None => None
        end)
       (Some "implementation") None None None) ;;
  ret (TaskProgressResult.mk true (TaskProgressArgs.taskId args)
         (TaskProgressArgs.status args) (TaskProgressArgs.notes args)
         "Task progress updated successfully").

Definition handleTaskQuery (self : t) (args : TaskQueryArgs.t)
    : Op TaskQueryResult.t :=
  do tasks <-
    match truthy (TaskQueryArgs.projectId args) with
    | Some projectId =>
        TaskRepository.findByProject projectId
          (match truthy (TaskQueryArgs.status args) with
           | Some status => TaskFilter.mk (Some status) None None None
           | None => TaskFilter.none
           end)
    | None => ret []
    end;
  ret (TaskQueryResult.mk true
         (map (fun task => TaskSummary.mk (Task.id task) (Task.title task)
                             (Task.status task) (Task.projectId task)) tasks)).

(** [projectId] goes to [findById] unchecked; it is taken as the string the
    schema requires. *)
Definition handleWorkflowResume (self : t) (projectId : string)
    : Op WorkflowResumeResult.t :=
  do project <- ProjectRepository.findById projectId;
  match project with
  | None => throw (McpError InvalidParams ("Project not found: " +:+ projectId))
  | Some project =>
      ret (WorkflowResumeResult.mk true (Project.id project) (Project.name project)
             (Project.currentPhase project) (Project.status project)
             "Workflow resumed successfully")
  end.


End AgenticMCPServer.

(** ** Stores and requests used as concrete instances *)

Module Sample.

Definition env (id : string) (now : nat) : Env := mkEnv id now None "ERR_INVALID_ARG_TYPE".

Definition demo : ProjectRow :=
  mkProjectRow "p1" "demo" None "active" "requirements" 1 1.

Definition t1 : TaskRow :=
  mkTaskRow "t1" "p1" None "gather" None "requirements" "completed" None 1
    None None 2 3.

Definition t2 : TaskRow :=
  mkTaskRow "t2" "p1" (Some "t1") "review" None "requirements" "pending" None 2
    None (Some ["t1"; "gone"]) 4 4.

Definition t3 : TaskRow :=
  mkTaskRow "t3" "p1" (Some "lost") "sketch" None "design" "in_progress" None 1
    None (Some ["t2"]) 5 5.

Definition cp1 : WorkflowCheckpointRow :=
  mkWorkflowCheckpointRow "c1" "p1" "requirements"
    (mkCheckpointData ["t1"] None ∅) 6.

Definition db : Database := mkDatabase [demo] [t1; t2; t3] [] [cp1].

(** The server as its constructor builds it, and one with the mirror off. *)
Definition server : AgenticMCPServer.t := AgenticMCPServer.constructor "/srv".

Definition server_no_mirror : AgenticMCPServer.t :=
  AgenticMCPServer.mk (FileSync.constructor "/srv" None None (Some false)).

Definition handoff (phase : string) : HandoffArgs.t :=
  HandoffArgs.mk (Some (JStr "p1")) (Some (JStr phase))
    (Some (JObj {["doc" := JStr "x"]})) (Some (JStr "done")).

Definition save (context : gmap string JsValue) : ContextSaveArgs.t :=
  ContextSaveArgs.mk (Some "p1") (Some "design") (Some (JObj context))
    (Some "notes").

(** The scenario of the specification run from an empty database: create
    project p, tasks t1 and t2 (t2 depends on t1), check t2, complete t1,
    check t2 again, hand off the requirements phase with the mirror off. *)
Definition scenario : Op (Project.t * Task.t * bool * bool * HandoffResult.t *
                          option Project.t) :=
  do p <- ProjectRepository.create (env "p" 1)
            (Project.mkPartial (Some "p") None None None);
  do t1 <- TaskRepository.create (env "t1" 2)
             (Task.mkPartial (Some (Project.id p)) None (Some "t1") None
                (Some "requirements") None None None None None);
  do t2 <- TaskRepository.create (env "t2" 3)
             (Task.mkPartial (Some (Project.id p)) None (Some "t2") None
                (Some "requirements") None None None None (Some [Task.id t1]));
  do before <- TaskRepository.checkDependencies (Task.id t2);
  TaskRepository.update (env "" 4) (Task.id t1)
    (Task.mkPartial None None None None None (Some "completed") None None None None) ;;
  do after <- TaskRepository.checkDependencies (Task.id t2);
  do h <- AgenticMCPServer.handleWorkflowHandoff server_no_mirror (env "c1" 5)
            (HandoffArgs.mk (Some (JStr (Project.id p))) (Some (JStr "requirements"))
               (Some (JObj {["doc" := JStr "x"]})) (Some (JStr "done")));
  do p' <- ProjectRepository.findById (Project.id p);
  ret (p, t1, before, after, h, p').

End Sample.

(** ** Statements the code is compared with *)

(** A dependency id blocks when it resolves to an existing task whose status
    is not [completed]. *)
Definition blocks (db : Database) (dependency : string) : bool :=
  match find (fun r => String.eqb (t_id r) dependency) (tasks db) with
  | Some r => negb (String.eqb (t_status r) "completed")
  | None => false
  end.

(** The count of dependency ids that block. *)
Definition incomplete_dependencies (db : Database) (dependencies : list string) : nat :=
  length (List.filter (blocks db) dependencies).

(** The parent of a task resolves within a set of task ids. *)
Definition resolved (ids : list string) (task : Task.t) : bool :=
  match truthy (Task.parentId task) with
  | Some parentId => includes ids parentId
  | None => false
  end.

Definition child_of (parentId : string) (task : Task.t) : bool :=
  match truthy (Task.parentId task) with
  | Some p => String.eqb p parentId
  | None => false
  end.

(** [taskMap.has(task.parentId)] for a truthy [parentId]. *)
Definition has_parent (taskMap : gmap string TaskNode.t) (task : Task.t) : bool :=
  match truthy (Task.parentId task) with
  | Some parentId => bool_decide (is_Some (taskMap !! parentId))
  | None => false
  end.

(** A node after the tasks of [rest] were linked. *)
Definition linked (k : string) (rest : list Task.t) (node : TaskNode.t) : TaskNode.t :=
  TaskNode.mk (TaskNode.task node)
    (TaskNode.children node ++ map Task.id (List.filter (child_of k) rest)).

(** The [children] array of the node a reference points to. *)
Definition children_of (taskMap : gmap string TaskNode.t) (ref : string) : list string :=
  match taskMap !! ref with
  | Some node => TaskNode.children node
  | None => []
  end.

(** The nodes of the forest below [rootTasks]: a root, or a child of a node
    of the forest. *)
Inductive in_forest (taskMap : gmap string TaskNode.t) (rootTasks : list string)
    : string -> Prop :=
| forest_root x : In x rootTasks -> in_forest taskMap rootTasks x
| forest_child p x :
    in_forest taskMap rootTasks p -> In x (children_of taskMap p) ->
    in_forest taskMap rootTasks x.

(** The rows of a project's tasks in one phase. *)
Definition in_phase (projectId phase : string) (r : TaskRow) : bool :=
  String.eqb (t_project_id r) projectId && String.eqb (t_phase r) phase.

(** An operation that ends without throwing. *)
Definition succeeds {A} (r : Database * (Exn + A)) : Prop :=
  exists a, snd r = inr a.

(** PRIMARY KEY on [tasks.id]. *)
Definition tasks_pk (db : Database) : Prop := NoDup (map t_id (tasks db)).

(** CHECK on [projects.current_phase]. *)
Definition projects_check (db : Database) : Prop :=
  forall r, In r (projects db) -> check_phase (p_current_phase r) = true.

(** The constraints of init.sql on [projects]: primary key, UNIQUE name and
    the two CHECKs. *)
Definition projects_constraints (db : Database) : Prop :=
  NoDup (map p_id (projects db)) /\
  NoDup (map p_name (projects db)) /\
  forall r, In r (projects db) ->
    check_project_status (p_status r) = true /\
    check_phase (p_current_phase r) = true.

(** A task id below [root] in the hierarchy the table [rows] stores: the id
    of a row whose parent is [root], or whose parent is below [root]. *)
Inductive descends (rows : list TaskRow) (root : string) : string -> Prop :=
| descends_child r :
    In r rows -> t_parent_id r = Some root -> descends rows root (t_id r)
| descends_step r p :
    In r rows -> t_parent_id r = Some p -> descends rows root p ->
    descends rows root (t_id r).

(** A set of deleted ids that the cascade has nothing to add to. *)
Definition cascade_closed (rows : list TaskRow) (gone : list string) : Prop :=
  forall r, In r rows -> parent_in gone r = true -> In (t_id r) gone.

(** * Theorems *)

Ltac run :=
  unfold bind, ret, throw, query, try_catch; simpl.

Lemma includes_In (l : list string) (s : string) :
  includes l s = true <-> In s l.
Proof.
  unfold includes. rewrite existsb_exists. split.
  - intros (x & Hx & E). apply String.eqb_eq in E. now subst.
  - intros H. exists s. split; [assumption | apply String.eqb_refl].
Qed.

(** *** ORDER BY *)

Section order_by_correct.
Context {A : Type} (R : relation A) `{forall x y, Decision (R x y)}.

Lemma insert_row_Permutation (x : A) (l : list A) : insert_row R x l ≡ₚ x :: l.
Proof.
  induction l as [|y l IH]; simpl; [reflexivity|].
  destruct (decide (R x y)); [reflexivity|]. rewrite IH. apply Permutation_swap.
Qed.

Lemma order_by_Permutation (l : list A) : order_by R l ≡ₚ l.
Proof.
  induction l as [|x l IH]; simpl; [reflexivity|].
  now rewrite insert_row_Permutation, IH.
Qed.

Lemma StronglySorted_insert_row `{!Transitive R, !Total R} (x : A) (l : list A) :
  StronglySorted R l -> StronglySorted R (insert_row R x l).
Proof.
  induction 1 as [|y l Hl IH Hy]; simpl.
  - repeat constructor.
  - destruct (decide (R x y)) as [Hxy|Hxy].
    + constructor; [now constructor|]. constructor; [assumption|].
      eapply Forall_impl; [exact Hy|]. intros z Hz. now transitivity y.
    + constructor; [assumption|]. rewrite insert_row_Permutation.
      constructor; [|assumption]. now destruct (total R x y).
Qed.

Lemma StronglySorted_order_by `{!Transitive R, !Total R} (l : list A) :
  StronglySorted R (order_by R l).
Proof.
  induction l as [|x l IH]; simpl; [constructor|].
  now apply StronglySorted_insert_row.
Qed.

(** The sort is stable at its head: the first row of the result sorts
    strictly before every row that precedes it in the table, and before or
    level with every row that follows it. *)
Lemma head_order_by `{!Transitive R, !Total R} (l : list A) (c : A) :
  head (order_by R l) = Some c ->
  exists before after,
    l = (before ++ c :: after)%list /\
    Forall (fun y => ~ R y c) before /\ Forall (R c) after.
Proof.
  revert c. induction l as [|x l IH]; intros c; simpl; [discriminate|].
  pose proof (order_by_Permutation l) as P.
  destruct (order_by R l) as [|h t] eqn:E; simpl.
  - intros [= <-]. apply Permutation_nil_l in P. subst l.
    exists [], []. repeat split; constructor.
  - destruct (IH h eq_refl) as (before & after & -> & Hb & Ha).
    destruct (decide (R x h)) as [Hxh|Hxh]; simpl; intros [= <-].
    + exists [], (before ++ h :: after)%list. split; [reflexivity|].
      split; [constructor|]. apply Forall_app. split; [|constructor].
      * eapply Forall_impl; [exact Hb|]. intros y Hy. cbv beta in Hy.
        transitivity h; [assumption|]. now destruct (total R h y).
      * assumption.
      * eapply Forall_impl; [exact Ha|]. intros y Hy. now transitivity h.
    + exists (x :: before), after. split; [reflexivity|].
      split; [now constructor|assumption].
Qed.

End order_by_correct.

(** The concrete scenario of the specification, on the model. *)
Example scenario_runs :
  exists p t1 h p',
    snd (Sample.scenario (mkDatabase [] [] [] [])) =
      inr (p, t1, false, true, h, Some p') /\
    Project.status p = "active" /\ Project.currentPhase p = "requirements" /\
    Task.status t1 = "pending" /\ Task.priority t1 = 1 /\
    HandoffResult.checkpoint_phase h = "requirements" /\
    HandoffResult.handoff_toPhase h = Some "design" /\
    Project.currentPhase p' = "design".
Proof.
  do 4 eexists. split; [vm_compute; reflexivity|]. repeat split.
Qed.

(** C2: updating a workflow checkpoint, whatever the identifier and the
    payload, throws the error "Workflow checkpoints cannot be updated" and
    leaves every table of the database as it was; in particular the stored
    checkpoint reads back unchanged. *)
Theorem checkpoint_update_is_rejected :
  forall (db : Database) (id : string) (updates : WorkflowCheckpoint.partial),
    let r := WorkflowRepository.update id updates db in
    snd r = inl (Error "Workflow checkpoints cannot be updated") /\
    fst r = db /\
    WorkflowRepository.findById id (fst r) = WorkflowRepository.findById id db.
Proof.
  intros db id updates. cbv zeta.
  unfold WorkflowRepository.update, throw. simpl. repeat split.
Qed.

(** C9: a task update whose [status] is outside pending, in_progress,
    blocked, completed throws "Invalid task status: " followed by the value,
    and the database is unchanged, whatever other fields the update carries. *)
Theorem task_update_invalid_status :
  forall (env : Env) (db : Database) (id : string) (updates : Task.partial)
         (status : string),
    Task.status' updates = Some status ->
    isValidTaskStatus status = false ->
    TaskRepository.update env id updates db =
      (db, inl (Error ("Invalid task status: " +:+ status))).
Proof.
  intros env db id updates status Hs Hinv.
  unfold TaskRepository.update. rewrite Hs, Hinv. reflexivity.
Qed.

Lemma task_update_invalid_status_witness :
  let updates := Task.mkPartial None None (Some "renamed") None None
                   (Some "done") None (Some 5) None None in
  TaskRepository.update (Sample.env "x" 9) "t2" updates Sample.db =
    (Sample.db, inl (Error "Invalid task status: done")).
Proof.
  apply (task_update_invalid_status (Sample.env "x" 9) Sample.db "t2"
           (Task.mkPartial None None (Some "renamed") None None
              (Some "done") None (Some 5) None None) "done");
    reflexivity.
Defined.

(** C7: [resumeWorkflow] writes nothing, and a second call on the database
    the first one left returns the same result. *)
Theorem resume_is_idempotent :
  forall (db : Database) (projectId : string),
    let r := WorkflowRepository.resumeWorkflow projectId db in
    fst r = db /\
    WorkflowRepository.resumeWorkflow projectId (fst r) = r.
Proof.
  intros db projectId. cbv zeta.
  assert (H : fst (WorkflowRepository.resumeWorkflow projectId db) = db).
  { unfold WorkflowRepository.resumeWorkflow, ProjectRepository.findById. run.
    destruct (find _ (projects db)); reflexivity. }
  split; [exact H | now rewrite H].
Qed.

Lemma existsb_name (rows : list ProjectRow) (row : ProjectRow) :
  In row rows ->
  existsb (fun r => String.eqb (p_name r) (p_name row)) rows = true.
Proof.
  intros H. apply existsb_exists. exists row.
  split; [assumption | apply String.eqb_refl].
Qed.

(** C8: creating a project under a name that a stored project already has
    fails with the InvalidParams error "Project with name '...' already
    exists" (a generic failure has the code InternalError), and the database
    is unchanged: the first project is found as before, by id and by name. *)
Theorem project_create_duplicate_name :
  forall (self : AgenticMCPServer.t) (env : Env) (db : Database)
         (row : ProjectRow) (description : option string),
    In row (projects db) ->
    p_name row <> "" ->
    let r := AgenticMCPServer.handleProjectCreate self env
               (ProjectCreateArgs.mk (Some (JStr (p_name row))) description) db in
    snd r = inl (McpError InvalidParams
                   ("Project with name '" +:+ p_name row +:+ "' already exists")) /\
    (forall message, snd r <> inl (McpError InternalError message)) /\
    fst r = db /\
    ProjectRepository.findById (p_id row) (fst r) =
      ProjectRepository.findById (p_id row) db /\
    ProjectRepository.findByName (p_name row) (fst r) =
      ProjectRepository.findByName (p_name row) db.
Proof.
  intros self env db row description Hin Hname. cbv zeta.
  assert (E : AgenticMCPServer.handleProjectCreate self env
                (ProjectCreateArgs.mk (Some (JStr (p_name row))) description) db =
              (db, inl (McpError InvalidParams
                 ("Project with name '" +:+ p_name row +:+ "' already exists")))).
  { unfold AgenticMCPServer.handleProjectCreate. simpl.
    destruct (String.eqb_spec (p_name row) "") as [|_]; [contradiction|].
    unfold try_catch, ProjectRepository.create. simpl.
    destruct (String.eqb_spec (p_name row) "") as [|_]; [contradiction|].
    unfold bind, ProjectRepository.INSERT. simpl.
    destruct (has_project db (randomblob env)); [reflexivity|].
    rewrite (existsb_name _ _ Hin). reflexivity. }
  rewrite E. simpl. repeat split. intros message H. discriminate H.
Qed.

Lemma project_create_duplicate_name_witness :
  snd (AgenticMCPServer.handleProjectCreate Sample.server (Sample.env "p2" 7)
         (ProjectCreateArgs.mk (Some (JStr "demo")) (Some "again")) Sample.db) =
    inl (McpError InvalidParams "Project with name 'demo' already exists").
Proof.
  apply (project_create_duplicate_name Sample.server (Sample.env "p2" 7)
           Sample.db Sample.demo (Some "again")).
  - simpl. left. reflexivity.
  - discriminate.
Defined.

(** *** Dependency gating *)

Lemma find_by_id_In (rows : list TaskRow) (id : string) (r : TaskRow) :
  find (fun x => String.eqb (t_id x) id) rows = Some r ->
  In r rows /\ t_id r = id.
Proof.
  intros H. apply find_some in H. destruct H as [H1 H2].
  apply String.eqb_eq in H2. auto.
Qed.

Lemma find_by_id_unique (rows : list TaskRow) (r : TaskRow) :
  NoDup (map t_id rows) -> In r rows ->
  find (fun x => String.eqb (t_id x) (t_id r)) rows = Some r.
Proof.
  induction rows as [|x rows IH]; intros Hnd Hin; [destruct Hin|].
  simpl in Hnd. apply NoDup_cons in Hnd as [Hx Hrows]. simpl.
  destruct Hin as [->|Hin].
  - now rewrite String.eqb_refl.
  - destruct (String.eqb_spec (t_id x) (t_id r)) as [E|_].
    + exfalso. apply Hx. rewrite E. apply list_elem_of_In, in_map, Hin.
    + now apply IH.
Qed.

Lemma filter_length_0 {A} (f : A -> bool) (l : list A) :
  length (List.filter f l) = 0%nat <-> (forall x, In x l -> f x = false).
Proof.
  induction l as [|a l IH]; simpl.
  - split; [intros _ x []|reflexivity].
  - destruct (f a) eqn:E; simpl.
    + split; [discriminate|]. intros H. specialize (H a (or_introl eq_refl)). congruence.
    + rewrite IH. split.
      * intros H x [<-|Hx]; auto.
      * intros H x Hx. apply H. now right.
Qed.

(** The rows SQLite counts and the dependency ids that block agree on
    whether there is any, under the primary key of [tasks]. *)
Lemma count_incomplete_0 (db : Database) (dependencies : list string) :
  tasks_pk db ->
  snd (TaskRepository.count_incomplete dependencies db) = inr 0%nat <->
  incomplete_dependencies db dependencies = 0%nat.
Proof.
  intros Hpk. unfold TaskRepository.count_incomplete, query, incomplete_dependencies.
  simpl. split.
  - intros H. assert (H' : length (List.filter (fun r : TaskRow =>
        includes dependencies (t_id r) && negb (String.eqb (t_status r) "completed"))
        (tasks db)) = 0%nat) by congruence.
    rewrite filter_length_0 in H'. apply filter_length_0. intros d Hd.
    unfold blocks. destruct (find _ (tasks db)) as [r|] eqn:F; [|reflexivity].
    apply find_by_id_In in F as [Hr <-].
    specialize (H' r Hr). apply andb_false_iff in H' as [H'|H']; [|assumption].
    apply includes_In in Hd. congruence.
  - intros H. f_equal. rewrite filter_length_0 in H. apply filter_length_0.
    intros r Hr. destruct (includes dependencies (t_id r)) eqn:I; [|reflexivity].
    apply includes_In in I. specialize (H _ I). unfold blocks in H.
    now rewrite (find_by_id_unique _ _ Hpk Hr) in H.
Qed.

(** C3: for a stored task, [checkDependencies] returns true when the
    dependency list is empty; otherwise it returns true iff no dependency id
    resolves to an existing task whose status is not completed.  An id that
    resolves to no task does not block: a task all of whose dependencies are
    dangling is satisfied. *)
Theorem checkDependencies_spec :
  forall (db : Database) (taskId : string) (task : Task.t),
    tasks_pk db ->
    TaskRepository.findById taskId db = (db, inr (Some task)) ->
    exists satisfied : bool,
      TaskRepository.checkDependencies taskId db = (db, inr satisfied) /\
      (Task.dependencies task = [] -> satisfied = true) /\
      (Task.dependencies task <> [] ->
         (satisfied = true <->
          incomplete_dependencies db (Task.dependencies task) = 0%nat)) /\
      (forall d, has_task db d = false -> blocks db d = false) /\
      ((forall d, In d (Task.dependencies task) -> has_task db d = false) ->
         satisfied = true).
Proof.
  intros db taskId task Hpk Hfind.
  assert (Hdangling : forall d, has_task db d = false -> blocks db d = false).
  { intros d Hd. unfold blocks. destruct (find _ (tasks db)) as [r|] eqn:F; [|reflexivity].
    apply find_some in F. unfold has_task in Hd.
    assert (existsb (fun r => String.eqb (t_id r) d) (tasks db) = true)
      by (apply existsb_exists; exists r; exact F).
    congruence. }
  unfold TaskRepository.checkDependencies, bind. rewrite Hfind.
  destruct (Task.dependencies task) as [|d deps] eqn:D.
  - exists true. simpl. split; [reflexivity|]. split; [reflexivity|].
    split; [congruence|]. split; [exact Hdangling|]. reflexivity.
  - change (Nat.eqb (length (d :: deps)) 0) with false. cbv iota.
    destruct (TaskRepository.count_incomplete (d :: deps) db) as [db' [e|n]] eqn:C;
      [unfold TaskRepository.count_incomplete, query in C; discriminate|].
    assert (db' = db) by (unfold TaskRepository.count_incomplete, query in C; congruence).
    subst db'. exists (Nat.eqb n 0). rewrite C. unfold ret.
    assert (Hiff : Nat.eqb n 0 = true <-> incomplete_dependencies db (d :: deps) = 0%nat).
    { rewrite <- (count_incomplete_0 db (d :: deps) Hpk), C. simpl.
      rewrite Nat.eqb_eq. split; [intros ->; reflexivity | congruence]. }
    split; [reflexivity|]. split; [congruence|].
    split; [intros _; exact Hiff|]. split; [exact Hdangling|].
    intros Hall. apply Hiff. apply filter_length_0.
    intros x Hx. apply Hdangling, Hall, Hx.
Qed.

Lemma checkDependencies_spec_witness :
  exists satisfied : bool,
    TaskRepository.checkDependencies "t3" Sample.db = (Sample.db, inr satisfied) /\
    (satisfied = true <-> incomplete_dependencies Sample.db ["t2"] = 0%nat).
Proof.
  destruct (checkDependencies_spec Sample.db "t3" (taskFromRow Sample.t3))
    as (b & Hrun & _ & Hiff & _).
  - unfold tasks_pk. apply (bool_decide_unpack _). vm_compute. exact I.
  - reflexivity.
  - exists b. split; [exact Hrun|]. apply Hiff. discriminate.
Defined.

(** *** Resume *)

Lemma filter_split {A} (f : A -> bool) (l : list A) :
  List.filter f l ++ List.filter (fun x => negb (f x)) l ≡ₚ l.
Proof.
  induction l as [|a l IH]; simpl; [reflexivity|].
  destruct (f a); simpl.
  - now rewrite IH.
  - rewrite <- Permutation_middle. now rewrite IH.
Qed.

Lemma filter_Forall {A} (f : A -> bool) (l : list A) :
  Forall (fun x => f x = true) (List.filter f l).
Proof.
  apply Forall_forall. intros x Hx. apply list_elem_of_In, filter_In in Hx. tauto.
Qed.

#[local] Instance checkpoint_order_trans : Transitive checkpoint_order.
Proof. unfold checkpoint_order. intros a b c. lia. Qed.

#[local] Instance checkpoint_order_total : Total checkpoint_order.
Proof. unfold checkpoint_order. intros a b. lia. Qed.

(** [ORDER BY created_at DESC LIMIT 1]: no row when there is none to choose
    from, else a row that no other is newer than. *)
Lemma latest_row (rows : list WorkflowCheckpointRow) :
  match head (order_by checkpoint_order rows) with
  | None => rows = []
  | Some c => In c rows /\
              forall c', In c' rows -> (c_created_at c' <= c_created_at c)%nat
  end.
Proof.
  pose proof (order_by_Permutation checkpoint_order rows) as P.
  pose proof (StronglySorted_order_by checkpoint_order rows) as S.
  destruct (order_by checkpoint_order rows) as [|c l]; simpl.
  - now apply Permutation_nil in P.
  - split.
    + apply list_elem_of_In. rewrite <- P. left.
    + intros c' Hc'. apply list_elem_of_In in Hc'. rewrite <- P in Hc'.
      apply StronglySorted_inv in S as [_ S].
      apply elem_of_cons in Hc' as [->|Hc']; [lia|].
      rewrite Forall_forall in S. apply (S c' Hc').
Qed.

Lemma in_phase_matches (projectId phase : string) (r : TaskRow) :
  phase <> "" ->
  TaskRepository.matches projectId (TaskFilter.mk None (Some phase) None None) r =
  in_phase projectId phase r.
Proof.
  intros H. unfold TaskRepository.matches, in_phase. simpl.
  destruct (String.eqb_spec phase ""); [contradiction|].
  now rewrite !andb_true_r.
Qed.

Lemma check_phase_nonempty (phase : string) : check_phase phase = true -> phase <> "".
Proof. intros H ->. discriminate H. Qed.

(** The two filters of [resumeWorkflow] split the tasks of the phase. *)
Lemma status_partition (rows : list TaskRow) (projectId phase : string) :
  phase <> "" ->
  let allTasks :=
    map taskFromRow
      (order_by task_order
         (List.filter
            (TaskRepository.matches projectId (TaskFilter.mk None (Some phase) None None))
            rows)) in
  List.filter (fun t => String.eqb (Task.status t) "completed") allTasks ++
  List.filter (fun t => negb (String.eqb (Task.status t) "completed")) allTasks ≡ₚ
    map taskFromRow (List.filter (in_phase projectId phase) rows) /\
  Forall (fun t => Task.status t = "completed")
    (List.filter (fun t => String.eqb (Task.status t) "completed") allTasks) /\
  Forall (fun t => Task.status t <> "completed")
    (List.filter (fun t => negb (String.eqb (Task.status t) "completed")) allTasks).
Proof.
  intros Hne allTasks. split; [|split].
  - rewrite filter_split. unfold allTasks.
    rewrite (order_by_Permutation task_order).
    erewrite filter_ext; [reflexivity|].
    intros r. now apply in_phase_matches.
  - eapply Forall_impl; [apply filter_Forall|].
    intros t Ht. now apply String.eqb_eq.
  - eapply Forall_impl; [apply (filter_Forall (fun t =>
      negb (String.eqb (Task.status t) "completed")))|].
    intros t Ht E. simpl in Ht. rewrite E in Ht. discriminate Ht.
Qed.

(** [ORDER BY created_at DESC LIMIT 1] among rows with the same timestamp:
    the row returned is the one inserted first. *)
Lemma latest_row_first (rows : list WorkflowCheckpointRow) (c : WorkflowCheckpointRow) :
  head (order_by checkpoint_order rows) = Some c ->
  exists before after,
    rows = (before ++ c :: after)%list /\
    Forall (fun c' => (c_created_at c' < c_created_at c)%nat) before /\
    Forall (fun c' => (c_created_at c' <= c_created_at c)%nat) after.
Proof.
  intros H.
  destruct (head_order_by checkpoint_order rows c H) as (before & after & E & Hb & Ha).
  exists before, after. split; [exact E|]. split; [|exact Ha].
  eapply Forall_impl; [exact Hb|]. intros c' Hc'. unfold checkpoint_order in Hc'.
  cbv beta in Hc'. lia.
Qed.

(** C6 (the code departs from it): [resumeWorkflow] throws iff no project
    has the given id.  When it returns, the state holds the project, its
    current phase, a checkpoint of the project (none when the project has no
    checkpoint), and the tasks of the project in its current phase, each of
    them in exactly one of [completedTasks] (status completed) and
    [pendingTasks] (any other status).  The checkpoint has the greatest
    creation time, but among the checkpoints of that time it is the one
    created first, not last: [created_at] counts whole seconds and the query
    orders by nothing else.  When two checkpoints of a project are created
    within one second, [getLatestCheckpoint] and [resumeWorkflow] return the
    earlier one. *)
Theorem resumeWorkflow_spec :
  (forall (db : Database) (projectId : string),
     projects_check db ->
     let r := WorkflowRepository.resumeWorkflow projectId db in
     ((exists e, snd r = inl e) <-> has_project db projectId = false) /\
     forall st, snd r = inr st ->
       (exists row,
          find (fun r => String.eqb (p_id r) projectId) (projects db) = Some row /\
          WorkflowState.project st = projectFromRow row /\
          WorkflowState.currentPhase st = p_current_phase row) /\
       (WorkflowState.checkpoint st = None <->
          forall c, In c (workflow_checkpoints db) -> c_project_id c <> projectId) /\
       (forall cp, WorkflowState.checkpoint st = Some cp ->
          exists c, In c (workflow_checkpoints db) /\ c_project_id c = projectId /\
            cp = workflowCheckpointFromRow c /\
            (forall c', In c' (workflow_checkpoints db) ->
               c_project_id c' = projectId ->
               (c_created_at c' <= c_created_at c)%nat) /\
            exists before after,
              List.filter (fun r => String.eqb (c_project_id r) projectId)
                (workflow_checkpoints db) = (before ++ c :: after)%list /\
              Forall (fun c' => (c_created_at c' < c_created_at c)%nat) before /\
              Forall (fun c' => (c_created_at c' <= c_created_at c)%nat) after) /\
       WorkflowState.completedTasks st ++ WorkflowState.pendingTasks st ≡ₚ
         map taskFromRow
           (List.filter (in_phase projectId (WorkflowState.currentPhase st)) (tasks db)) /\
       Forall (fun t => Task.status t = "completed") (WorkflowState.completedTasks st) /\
       Forall (fun t => Task.status t <> "completed") (WorkflowState.pendingTasks st)) /\
  (let db := mkDatabase [Sample.demo] [Sample.t1; Sample.t2; Sample.t3] [] [] in
   let first := WorkflowRepository.createCheckpoint (Sample.env "c1" 6) "p1"
                  "requirements" db in
   let second := WorkflowRepository.createCheckpoint (Sample.env "c2" 6) "p1"
                   "design" (fst first) in
   map c_id (workflow_checkpoints (fst second)) = ["c1"; "c2"] /\
   (exists cp, snd second = inr cp /\ WorkflowCheckpoint.id cp = "c2" /\
      WorkflowCheckpoint.phase cp = "design") /\
   exists cp,
     snd (WorkflowRepository.getLatestCheckpoint "p1" (fst second)) = inr (Some cp) /\
     (exists st, snd (WorkflowRepository.resumeWorkflow "p1" (fst second)) = inr st /\
        WorkflowState.checkpoint st = Some cp) /\
     WorkflowCheckpoint.id cp = "c1" /\
     WorkflowCheckpoint.phase cp = "requirements").
Proof.
  split.
  2: { cbv zeta. split; [vm_compute; reflexivity|]. split.
       - eexists. split; [vm_compute; reflexivity|]. split; reflexivity.
       - eexists. split; [vm_compute; reflexivity|]. split; [|split; reflexivity].
         eexists. split; [vm_compute; reflexivity|]. reflexivity. }
  intros db projectId Hcheck. cbv zeta.
  unfold WorkflowRepository.resumeWorkflow, ProjectRepository.findById,
    WorkflowRepository.getLatestCheckpoint, TaskRepository.findByProject.
  run. unfold has_project.
  destruct (find (fun r => String.eqb (p_id r) projectId) (projects db))
    as [row|] eqn:F; simpl.
  - split.
    + split; [intros [e He]; discriminate He|].
      intros H. apply find_some in F.
      assert (existsb (fun r => String.eqb (p_id r) projectId) (projects db) = true)
        by (apply existsb_exists; exists row; exact F).
      congruence.
    + intros st Hst. injection Hst as <-. simpl.
      assert (Hne : p_current_phase row <> "").
      { apply check_phase_nonempty, Hcheck. now apply find_some in F. }
      split; [exists row; auto|].
      pose proof (latest_row (List.filter
        (fun r => String.eqb (c_project_id r) projectId) (workflow_checkpoints db))) as L.
      pose proof (latest_row_first (List.filter
        (fun r => String.eqb (c_project_id r) projectId) (workflow_checkpoints db))) as L'.
      destruct (head _) as [c|] eqn:Hhead; simpl.
      * destruct L as [Hin Hmax]. apply filter_In in Hin as [Hin Hid].
        apply String.eqb_eq in Hid. split; [|split].
        -- split; [discriminate|]. intros H. exfalso. exact (H c Hin Hid).
        -- intros cp Hcp. injection Hcp as <-. exists c.
           split; [assumption|]. split; [assumption|]. split; [reflexivity|].
           split; [|exact (L' c eq_refl)].
           intros c' Hc' Hid'. apply Hmax. apply filter_In. split; [assumption|].
           now apply String.eqb_eq.
        -- now apply status_partition.
      * split; [|split].
        -- split; [|reflexivity]. intros _ c Hc Hid.
           assert (Hin : In c (List.filter
             (fun r => String.eqb (c_project_id r) projectId) (workflow_checkpoints db))).
           { apply filter_In. split; [assumption|]. now apply String.eqb_eq. }
           rewrite L in Hin. destruct Hin.
        -- intros cp Hcp. discriminate Hcp.
        -- now apply status_partition.
  - split.
    + split; [intros _|intros _; eexists; reflexivity].
      apply not_true_is_false. intros H. apply existsb_exists in H as (r & Hr & E).
      apply (find_none _ _ F) in Hr. congruence.
    + intros st Hst. discriminate Hst.
Qed.

Lemma resumeWorkflow_spec_witness :
  (exists e, snd (WorkflowRepository.resumeWorkflow "p1" Sample.db) = inl e) <->
  has_project Sample.db "p1" = false.
Proof.
  apply (proj1 resumeWorkflow_spec Sample.db "p1").
  intros r [<-|[]]. reflexivity.
Defined.

(** *** Tree construction *)

Section BuildTree.

Implicit Types (taskMap : gmap string TaskNode.t) (task : Task.t).

Lemma first_pass_other (l : list Task.t) taskMap (k : string) :
  ~ In k (map Task.id l) ->
  foldl TaskRepository.set_node taskMap l !! k = taskMap !! k.
Proof.
  revert taskMap. induction l as [|a l IH]; intros taskMap Hk; [reflexivity|].
  simpl in *. rewrite IH by tauto. unfold TaskRepository.set_node.
  apply lookup_insert_ne. tauto.
Qed.

Lemma first_pass_dom (l : list Task.t) taskMap (k : string) :
  is_Some (foldl TaskRepository.set_node taskMap l !! k) <->
  is_Some (taskMap !! k) \/ In k (map Task.id l).
Proof.
  revert taskMap. induction l as [|a l IH]; intros taskMap; simpl; [tauto|].
  rewrite IH. unfold TaskRepository.set_node. rewrite lookup_insert_is_Some.
  destruct (decide (Task.id a = k)); tauto.
Qed.

Lemma first_pass_node (l : list Task.t) taskMap task :
  NoDup (map Task.id l) -> In task l ->
  foldl TaskRepository.set_node taskMap l !! Task.id task = Some (TaskNode.mk task []).
Proof.
  revert taskMap. induction l as [|a l IH]; intros taskMap Hnd Hin; [destruct Hin|].
  simpl in Hnd. apply NoDup_cons in Hnd as [Ha Hl]. simpl.
  destruct Hin as [->|Hin].
  - rewrite first_pass_other.
    + apply lookup_insert_eq.
    + intros H. apply Ha, list_elem_of_In, H.
  - now apply IH.
Qed.

Lemma has_parent_alter taskMap (f : TaskNode.t -> TaskNode.t) (p : string) task :
  has_parent (alter f p taskMap) task = has_parent taskMap task.
Proof.
  unfold has_parent. destruct (truthy (Task.parentId task)) as [q|]; [|reflexivity].
  apply bool_decide_ext. rewrite lookup_alter_is_Some. reflexivity.
Qed.

(** The second pass in closed form: the roots are the tasks without a parent
    in the map, in order; the children of a node are the tasks that name it
    as parent, in order. *)
Lemma second_pass (rest : list Task.t) taskMap (rootTasks : list string) :
  snd (foldl TaskRepository.link (taskMap, rootTasks) rest) =
    (rootTasks ++
     map Task.id (List.filter (fun t => negb (has_parent taskMap t)) rest))%list /\
  forall k, fst (foldl TaskRepository.link (taskMap, rootTasks) rest) !! k =
              linked k rest <$> taskMap !! k.
Proof.
  revert taskMap rootTasks.
  induction rest as [|a rest IH]; intros taskMap rootTasks.
  - simpl. split; [now rewrite app_nil_r|].
    intros k. destruct (taskMap !! k) as [[t c]|]; [|reflexivity].
    simpl. unfold linked. simpl. now rewrite app_nil_r.
  - cbn [foldl List.filter].
    assert (Hhp : has_parent taskMap a =
                  match truthy (Task.parentId a) with
                  | Some p => bool_decide (is_Some (taskMap !! p))
                  | None => false
                  end) by reflexivity.
    assert (Hlink : TaskRepository.link (taskMap, rootTasks) a =
                    match truthy (Task.parentId a) with
                    | Some p =>
                        if bool_decide (is_Some (taskMap !! p))
                        then (alter (TaskRepository.push_child (Task.id a)) p taskMap,
                              rootTasks)
                        else (taskMap, (rootTasks ++ [Task.id a])%list)
                    | None => (taskMap, (rootTasks ++ [Task.id a])%list)
                    end) by reflexivity.
    rewrite Hlink, Hhp. clear Hlink Hhp.
    destruct (truthy (Task.parentId a)) as [p|] eqn:P.
    + destruct (bool_decide (is_Some (taskMap !! p))) eqn:B.
      * destruct (IH (alter (TaskRepository.push_child (Task.id a)) p taskMap) rootTasks)
          as [IHr IHm].
        split.
        -- rewrite IHr. simpl. f_equal. f_equal. apply filter_ext.
           intros t. now rewrite has_parent_alter.
        -- intros k. rewrite IHm. destruct (decide (p = k)) as [<-|Hne].
           ++ rewrite lookup_alter_eq. destruct (taskMap !! p) as [[t c]|]; [|reflexivity].
              simpl. unfold linked, child_of. simpl. rewrite P, String.eqb_refl.
              simpl. now rewrite <- app_assoc.
           ++ rewrite lookup_alter_ne by assumption.
              destruct (taskMap !! k) as [n|]; [|reflexivity]. simpl.
              unfold linked, child_of. simpl. rewrite P.
              destruct (String.eqb_spec p k); [contradiction|reflexivity].
      * destruct (IH taskMap (rootTasks ++ [Task.id a])%list) as [IHr IHm].
        split.
        -- rewrite IHr. simpl. now rewrite <- app_assoc.
        -- intros k. rewrite IHm. destruct (taskMap !! k) as [n|] eqn:K; [|reflexivity].
           simpl. unfold linked, child_of. simpl. rewrite P.
           destruct (String.eqb_spec p k) as [->|]; [|reflexivity].
           apply bool_decide_eq_false in B. exfalso. apply B. now exists n.
    + destruct (IH taskMap (rootTasks ++ [Task.id a])%list) as [IHr IHm].
      split.
      * rewrite IHr. simpl. now rewrite <- app_assoc.
      * intros k. rewrite IHm. destruct (taskMap !! k) as [n|]; [|reflexivity].
        simpl. unfold linked, child_of. simpl. now rewrite P.
Qed.

Lemma has_parent_resolved (allTasks : list Task.t) task :
  has_parent (TaskRepository.first_pass allTasks) task =
  resolved (map Task.id allTasks) task.
Proof.
  unfold has_parent, resolved.
  destruct (truthy (Task.parentId task)) as [p|]; [|reflexivity].
  apply eq_true_iff_eq. rewrite bool_decide_eq_true, includes_In.
  unfold TaskRepository.first_pass.
  rewrite (first_pass_dom allTasks ∅ p). rewrite lookup_empty.
  split; [intros [[x Hx]|H]; [discriminate|assumption] | auto].
Qed.

(** [build_tree] in closed form. *)
Lemma build_tree_spec (allTasks : list Task.t) :
  snd (TaskRepository.build_tree allTasks) =
    map Task.id
      (List.filter (fun t => negb (resolved (map Task.id allTasks) t)) allTasks) /\
  forall k, fst (TaskRepository.build_tree allTasks) !! k =
              linked k allTasks <$> TaskRepository.first_pass allTasks !! k.
Proof.
  unfold TaskRepository.build_tree.
  destruct (second_pass allTasks (TaskRepository.first_pass allTasks) []) as [Hr Hm].
  split; [|exact Hm].
  rewrite Hr. simpl. f_equal. apply filter_ext.
  intros t. now rewrite has_parent_resolved.
Qed.

End BuildTree.

Lemma NoDup_map_filter {A B} (g : A -> B) (f : A -> bool) (l : list A) :
  NoDup (map g l) -> NoDup (map g (List.filter f l)).
Proof.
  induction l as [|a l IH]; simpl; intros H; [constructor|].
  apply NoDup_cons in H as [Ha Hl]. destruct (f a); simpl; [|auto].
  apply NoDup_cons. split; [|auto].
  intros H. apply Ha. apply list_elem_of_In in H. apply list_elem_of_In.
  apply in_map_iff in H as (x & <- & Hx). apply filter_In in Hx as [Hx _].
  now apply in_map.
Qed.

Lemma findByProject_NoDup (db : Database) (projectId : string) (filter : TaskFilter.t)
    (allTasks : list Task.t) :
  tasks_pk db ->
  snd (TaskRepository.findByProject projectId filter db) = inr allTasks ->
  NoDup (map Task.id allTasks).
Proof.
  unfold tasks_pk, TaskRepository.findByProject, query. simpl.
  intros Hpk H. injection H as <-.
  rewrite map_map. simpl.
  change (fun x : TaskRow => t_id x) with t_id.
  rewrite (order_by_Permutation task_order).
  now apply NoDup_map_filter.
Qed.

Lemma count_occ_absent (l : list Task.t) (P : Task.t -> bool) (x : string) :
  ~ In x (map Task.id l) ->
  count_occ string_dec (map Task.id (List.filter P l)) x = 0%nat.
Proof.
  intros H. apply count_occ_not_In. intros Hx. apply H.
  apply in_map_iff in Hx as (t & <- & Ht). apply filter_In in Ht as [Ht _].
  now apply in_map.
Qed.

(** Among tasks with distinct ids, a task occurs once in a selection that
    keeps it and not at all in one that drops it. *)
Lemma count_occ_selected (l : list Task.t) (P : Task.t -> bool) (task : Task.t) :
  NoDup (map Task.id l) -> In task l ->
  count_occ string_dec (map Task.id (List.filter P l)) (Task.id task) =
    if P task then 1%nat else 0%nat.
Proof.
  induction l as [|a l IH]; intros Hnd Hin; [destruct Hin|].
  simpl in Hnd. apply NoDup_cons in Hnd as [Ha Hl].
  assert (Ha' : ~ In (Task.id a) (map Task.id l))
    by (intros H; apply Ha, list_elem_of_In, H).
  destruct Hin as [->|Hin].
  - simpl. destruct (P task); simpl.
    + destruct (string_dec (Task.id task) (Task.id task)); [|contradiction].
      now rewrite count_occ_absent.
    + now apply count_occ_absent.
  - assert (Hne : Task.id a <> Task.id task).
    { intros E. apply Ha'. rewrite E. now apply in_map. }
    simpl. destruct (P a); simpl.
    + destruct (string_dec (Task.id a) (Task.id task)); [contradiction|]. now apply IH.
    + now apply IH.
Qed.

Lemma truthy_inv (o : option string) (s : string) : truthy o = Some s -> o = Some s.
Proof.
  destruct o as [x|]; simpl; [|discriminate].
  destruct (String.eqb x ""); [discriminate|auto].
Qed.

(** C5: over the tasks of a project (distinct ids, any order), the tree built
    by [getTaskTree] has a node for every task; a task whose parentId is set
    and is the id of a task of the set occurs exactly once in the children of
    that parent's node, in no other children list and not among the roots;
    every other task occurs exactly once among the roots and in no children
    list; roots and children hold nothing but tasks of the set.  When the
    parent links have no cycle (parents rank below their children, as rows
    inserted through [create] do), every task is in the forest below the
    roots. *)
Theorem getTaskTree_positions :
  forall (db : Database) (projectId : string),
    tasks_pk db ->
    exists (allTasks : list Task.t) (taskMap : gmap string TaskNode.t)
           (rootTasks : list string),
      TaskRepository.findByProject projectId TaskFilter.none db = (db, inr allTasks) /\
      TaskRepository.getTaskTree projectId db = (db, inr (taskMap, rootTasks)) /\
      allTasks ≡ₚ
        map taskFromRow
          (List.filter (fun r => String.eqb (t_project_id r) projectId) (tasks db)) /\
      (forall task, In task allTasks ->
         (exists node, taskMap !! Task.id task = Some node /\
                       TaskNode.task node = task) /\
         if resolved (map Task.id allTasks) task then
           exists parentId,
             Task.parentId task = Some parentId /\
             In parentId (map Task.id allTasks) /\
             count_occ string_dec (children_of taskMap parentId) (Task.id task) = 1%nat /\
             count_occ string_dec rootTasks (Task.id task) = 0%nat /\
             forall q, q <> parentId ->
               count_occ string_dec (children_of taskMap q) (Task.id task) = 0%nat
         else
           count_occ string_dec rootTasks (Task.id task) = 1%nat /\
           forall q, count_occ string_dec (children_of taskMap q) (Task.id task) = 0%nat) /\
      (forall x, In x rootTasks -> In x (map Task.id allTasks)) /\
      (forall q x, In x (children_of taskMap q) -> In x (map Task.id allTasks)) /\
      (forall k, is_Some (taskMap !! k) <-> In k (map Task.id allTasks)) /\
      (forall rank : string -> nat,
         (forall task parentId, In task allTasks ->
            Task.parentId task = Some parentId ->
            In parentId (map Task.id allTasks) ->
            (rank parentId < rank (Task.id task))%nat) ->
         forall task, In task allTasks ->
           in_forest taskMap rootTasks (Task.id task)).
Proof.
  intros db projectId Hpk.
  destruct (TaskRepository.findByProject projectId TaskFilter.none db)
    as [db' [e|allTasks]] eqn:F;
    [unfold TaskRepository.findByProject, query in F; discriminate|].
  assert (db' = db) by (unfold TaskRepository.findByProject, query in F; congruence).
  subst db'.
  assert (Hnd : NoDup (map Task.id allTasks)).
  { apply (findByProject_NoDup db projectId TaskFilter.none); [assumption|].
    now rewrite F. }
  destruct (build_tree_spec allTasks) as [Hroots Hmap].
  destruct (TaskRepository.build_tree allTasks) as [taskMap rootTasks] eqn:B.
  simpl in Hroots, Hmap.
  assert (Hchildren : forall q,
            children_of taskMap q =
            if includes (map Task.id allTasks) q
            then map Task.id (List.filter (child_of q) allTasks) else []).
  { intros q. unfold children_of. rewrite Hmap.
    destruct (includes (map Task.id allTasks) q) eqn:Hq.
    - apply includes_In, in_map_iff in Hq as (t & <- & Ht).
      unfold TaskRepository.first_pass. now rewrite first_pass_node.
    - destruct (TaskRepository.first_pass allTasks !! q) as [n|] eqn:N; [|reflexivity].
      exfalso. apply not_true_iff_false in Hq. apply Hq, includes_In.
      unfold TaskRepository.first_pass in N.
      assert (S : is_Some (foldl TaskRepository.set_node ∅ allTasks !! q))
        by (now exists n).
      apply first_pass_dom in S as [[x Hx]|S]; [|assumption].
      rewrite lookup_empty in Hx. discriminate Hx. }
  exists allTasks, taskMap, rootTasks.
  split; [reflexivity|]. split.
  { unfold TaskRepository.getTaskTree, bind. rewrite F. unfold ret. now rewrite B. }
  split.
  { unfold TaskRepository.findByProject, query in F. injection F as <-.
    rewrite (order_by_Permutation task_order). apply Permutation_map.
    erewrite filter_ext; [reflexivity|].
    intros r. unfold TaskRepository.matches. simpl. now rewrite !andb_true_r. }
  assert (Hpos : forall task, In task allTasks ->
    (exists node, taskMap !! Task.id task = Some node /\
                  TaskNode.task node = task) /\
    if resolved (map Task.id allTasks) task then
      exists parentId,
        Task.parentId task = Some parentId /\
        In parentId (map Task.id allTasks) /\
        count_occ string_dec (children_of taskMap parentId) (Task.id task) = 1%nat /\
        count_occ string_dec rootTasks (Task.id task) = 0%nat /\
        forall q, q <> parentId ->
          count_occ string_dec (children_of taskMap q) (Task.id task) = 0%nat
    else
      count_occ string_dec rootTasks (Task.id task) = 1%nat /\
      forall q, count_occ string_dec (children_of taskMap q) (Task.id task) = 0%nat).
  { intros task Hin. split.
    - exists (linked (Task.id task) allTasks (TaskNode.mk task [])). split.
      + rewrite Hmap. unfold TaskRepository.first_pass.
        now rewrite first_pass_node.
      + reflexivity.
    - destruct (resolved (map Task.id allTasks) task) eqn:R.
      + unfold resolved in R.
        destruct (truthy (Task.parentId task)) as [p|] eqn:P; [|discriminate].
        apply includes_In in R. exists p.
        split; [now apply truthy_inv|]. split; [assumption|].
        split; [|split].
        * rewrite Hchildren. rewrite (proj2 (includes_In _ _) R).
          rewrite count_occ_selected by assumption.
          unfold child_of. now rewrite P, String.eqb_refl.
        * rewrite Hroots, count_occ_selected by assumption.
          unfold resolved. rewrite P.
          apply includes_In in R. now rewrite R.
        * intros q Hq. rewrite Hchildren.
          destruct (includes (map Task.id allTasks) q); [|reflexivity].
          rewrite count_occ_selected by assumption.
          unfold child_of. rewrite P.
          destruct (String.eqb_spec p q); [congruence|reflexivity].
      + split.
        * rewrite Hroots, count_occ_selected by assumption. now rewrite R.
        * intros q. rewrite Hchildren.
          destruct (includes (map Task.id allTasks) q) eqn:Hq; [|reflexivity].
          rewrite count_occ_selected by assumption.
          destruct (child_of q task) eqn:C; [|reflexivity].
          exfalso. unfold child_of in C. unfold resolved in R.
          destruct (truthy (Task.parentId task)) as [p|]; [|discriminate].
          apply String.eqb_eq in C. subst p. congruence. }
  split; [exact Hpos|].
  split.
  { intros x Hx. rewrite Hroots in Hx.
    apply in_map_iff in Hx as (t & <- & Ht). apply filter_In in Ht as [Ht _].
    now apply in_map. }
  split.
  { intros q x Hx. rewrite Hchildren in Hx.
    destruct (includes (map Task.id allTasks) q); [|destruct Hx].
    apply in_map_iff in Hx as (t & <- & Ht). apply filter_In in Ht as [Ht _].
    now apply in_map. }
  split.
  { intros k. rewrite Hmap, fmap_is_Some. unfold TaskRepository.first_pass.
    rewrite first_pass_dom, lookup_empty. split; [intros [[x Hx]|H]|]; auto.
    discriminate Hx. }
  intros rank Hrank.
  assert (Hwf : forall n task, In task allTasks -> (rank (Task.id task) < n)%nat ->
                  in_forest taskMap rootTasks (Task.id task)).
  { induction n as [|n IHn]; intros task Hin Hlt; [lia|].
    destruct (Hpos task Hin) as [_ Hp].
    destruct (resolved (map Task.id allTasks) task).
    - destruct Hp as (p & Hparent & Hp & Hcount & _).
      apply in_map_iff in Hp as Hp'. destruct Hp' as (parent & Eid & Hparent_in).
      apply (forest_child _ _ p).
      + rewrite <- Eid. apply IHn; [assumption|].
        specialize (Hrank task p Hin Hparent Hp). rewrite Eid. lia.
      + apply (count_occ_In string_dec). lia.
    - destruct Hp as [Hcount _]. apply forest_root.
      apply (count_occ_In string_dec). lia. }
  intros task Hin. apply (Hwf (S (rank (Task.id task)))); [assumption|lia].
Qed.

Lemma getTaskTree_positions_witness :
  exists (allTasks : list Task.t) (taskMap : gmap string TaskNode.t)
         (rootTasks : list string),
    TaskRepository.getTaskTree "p1" Sample.db = (Sample.db, inr (taskMap, rootTasks)) /\
    forall k, is_Some (taskMap !! k) <-> In k (map Task.id allTasks).
Proof.
  destruct (getTaskTree_positions Sample.db "p1")
    as (allTasks & taskMap & rootTasks & _ & Hrun & _ & _ & _ & _ & Hdom & _).
  - unfold tasks_pk. apply (bool_decide_unpack _). vm_compute. exact I.
  - exists allTasks, taskMap, rootTasks. split; assumption.
Defined.

(** *** Handoff *)

(** [createCheckpoint] writes no table but [workflow_checkpoints]. *)
Lemma createCheckpoint_projects (env : Env) (projectId phase : string) (db : Database) :
  projects (fst (WorkflowRepository.createCheckpoint env projectId phase db)) =
  projects db.
Proof.
  unfold WorkflowRepository.createCheckpoint, WorkflowRepository.create,
    TaskRepository.findByProject. run.
  destruct (String.eqb projectId ""); [reflexivity|].
  destruct (String.eqb phase ""); [reflexivity|].
  unfold WorkflowRepository.INSERT. simpl.
  destruct (existsb _ (workflow_checkpoints db)); [reflexivity|].
  destruct (has_project db projectId); reflexivity.
Qed.

(** [createCheckpoint] for an existing project, a non-empty label and a fresh
    row id appends one row that carries the label. *)
Lemma createCheckpoint_appends (env : Env) (projectId phase : string) (db : Database) :
  projectId <> "" -> phase <> "" ->
  has_project db projectId = true ->
  existsb (fun r => String.eqb (c_id r) (randomblob env)) (workflow_checkpoints db) = false ->
  exists data,
    let row := mkWorkflowCheckpointRow (randomblob env) projectId phase data
                 (CURRENT_TIMESTAMP env) in
    WorkflowRepository.createCheckpoint env projectId phase db =
      (set_workflow_checkpoints db (workflow_checkpoints db ++ [row]),
       inr (workflowCheckpointFromRow row)).
Proof.
  intros Hp Hph Hhas Hfresh.
  unfold WorkflowRepository.createCheckpoint, WorkflowRepository.create,
    TaskRepository.findByProject. run.
  destruct (String.eqb_spec projectId ""); [contradiction|].
  destruct (String.eqb_spec phase ""); [contradiction|].
  unfold WorkflowRepository.INSERT. simpl. rewrite Hfresh, Hhas. simpl.
  eexists. reflexivity.
Qed.

Lemma completePhase_db (self : FileSync.t) (env : Env) (projectId phase : string)
    (deliverables : JsValue) (notes : string) (db : Database) :
  fst (FileSync.completePhase self env projectId phase deliverables notes db) = db.
Proof.
  unfold FileSync.completePhase, FileSync.fs_calls.
  destruct (FileSync.enabled self); simpl; [|reflexivity].
  destruct (FileSync.handoffMap phase); [|reflexivity..].
  destruct (fs_error env); reflexivity.
Qed.

(** C1 (the code departs from it): a handoff that declares the last phase,
    execute, computes the next phase "complete" and then writes no row of
    [projects], whatever the server, the database and the other arguments:
    the status is not set to completed.  On the sample store the project
    is still active after the call, which ends in an error when the mirror
    is on (the server's default) and returns toPhase "complete" when it is
    off. *)
Theorem handoff_execute_leaves_status :
  AgenticMCPServer.nextPhase "execute" = Some "complete" /\
  (forall (self : AgenticMCPServer.t) (env : Env) (db : Database)
          (projectId deliverables notes : option JsValue),
     projects (fst (AgenticMCPServer.handleWorkflowHandoff self env
                      (HandoffArgs.mk projectId (Some (JStr "execute"))
                         deliverables notes) db)) = projects db) /\
  (let r := AgenticMCPServer.handleWorkflowHandoff Sample.server
              (Sample.env "c2" 9) (Sample.handoff "execute") Sample.db in
   snd r = inl (McpError InternalError
                  "Failed to complete handoff: Unknown phase: execute") /\
   map p_status (projects (fst r)) = ["active"] /\
   map c_phase (workflow_checkpoints (fst r)) = ["requirements"; "execute"]) /\
  (let r := AgenticMCPServer.handleWorkflowHandoff Sample.server_no_mirror
              (Sample.env "c2" 9) (Sample.handoff "execute") Sample.db in
   (exists res, snd r = inr res /\
      HandoffResult.handoff_toPhase res = Some "complete") /\
   map p_status (projects (fst r)) = ["active"]).
Proof.
  split; [reflexivity|]. split.
  - intros self env db projectId deliverables notes.
    unfold AgenticMCPServer.handleWorkflowHandoff.
    cbn [HandoffArgs.projectId HandoffArgs.currentPhase
         HandoffArgs.phaseDeliverables HandoffArgs.handoffNotes].
    destruct (required_string projectId) as [pid|]; [|reflexivity].
    change (required_string (Some (JStr "execute"))) with (Some "execute").
    cbv iota.
    destruct (required_object deliverables) as [d|]; [|reflexivity].
    destruct (required_string notes) as [n|]; [|reflexivity].
    unfold try_catch, AgenticMCPServer.handoff_body, bind,
      ProjectRepository.findById, query.
    destruct (find _ (projects db)) as [row|]; simpl; [|reflexivity].
    pose proof (createCheckpoint_projects env pid "execute" db) as Hcp.
    destruct (WorkflowRepository.createCheckpoint env pid "execute" db)
      as [db1 [e|cp]]; simpl in Hcp |- *; [exact Hcp|].
    pose proof (completePhase_db (AgenticMCPServer.fileSync self) env pid
                  "execute" d n db1) as Hfs.
    destruct (FileSync.isEnabled (AgenticMCPServer.fileSync self)); simpl.
    + destruct (FileSync.completePhase _ env pid "execute" d n db1) as [db2 [e|u]];
        simpl in Hfs |- *; subst db2; exact Hcp.
    + exact Hcp.
  - split.
    + vm_compute. repeat split; reflexivity.
    + cbv zeta. split; [|vm_compute; reflexivity].
      eexists. split; [vm_compute; reflexivity|reflexivity].
Qed.

Lemma existsb_false {A} (f : A -> bool) (l : list A) :
  existsb f l = false <-> (forall x, In x l -> f x = false).
Proof.
  split.
  - intros H x Hx. destruct (f x) eqn:E; [|reflexivity].
    rewrite <- H. symmetry. apply existsb_exists. now exists x.
  - intros H. apply not_true_is_false. intros E.
    apply existsb_exists in E as (x & Hx & E). rewrite (H x Hx) in E. discriminate.
Qed.

Lemma NoDup_map_inj {A} (g : A -> string) (l : list A) (a b : A) :
  NoDup (map g l) -> In a l -> In b l -> g a = g b -> a = b.
Proof.
  induction l as [|x l IH]; intros Hnd Ha Hb E; [destruct Ha|].
  simpl in Hnd. apply NoDup_cons in Hnd as [Hx Hl].
  assert (Hx' : forall y, In y l -> g x <> g y).
  { intros y Hy Exy. apply Hx. rewrite Exy. now apply list_elem_of_In, in_map. }
  destruct Ha as [->|Ha], Hb as [->|Hb]; auto.
  - exfalso. now apply (Hx' b).
  - exfalso. now apply (Hx' a).
Qed.

Lemma count_by_key {A} (g : A -> string) (l : list A) (a : A) :
  NoDup (map g l) -> In a l ->
  length (List.filter (fun r => String.eqb (g r) (g a)) l) = 1%nat.
Proof.
  induction l as [|x l IH]; intros Hnd Ha; [destruct Ha|].
  simpl in Hnd. apply NoDup_cons in Hnd as [Hx Hl]. simpl.
  destruct Ha as [->|Ha].
  - rewrite String.eqb_refl. simpl. f_equal. apply filter_length_0.
    intros y Hy. apply String.eqb_neq. intros E. apply Hx. rewrite <- E.
    now apply list_elem_of_In, in_map.
  - destruct (String.eqb_spec (g x) (g a)) as [E|_]; [|now apply IH].
    exfalso. apply Hx. rewrite E. now apply list_elem_of_In, in_map.
Qed.

(** [UPDATE projects SET current_phase = ? WHERE id = ?] on a database that
    satisfies its constraints: one row changes. *)
Lemma UPDATE_current_phase (env : Env) (db : Database) (row : ProjectRow) (phase : string) :
  projects_constraints db ->
  In row (projects db) ->
  check_phase phase = true ->
  ProjectRepository.UPDATE env (p_id row)
    (ProjectRepository.apply_sets (Project.mkPartial None None None (Some phase))) db =
  (set_projects db
     (map (fun r =>
        if String.eqb (p_id r) (p_id row)
        then mkProjectRow (p_id r) (p_name r) (p_description r) (p_status r) phase
               (p_created_at r) (CURRENT_TIMESTAMP env)
        else r) (projects db)),
   inr 1%nat).
Proof.
  intros (Hid & Hname & Hchk) Hin Hphase.
  unfold ProjectRepository.UPDATE.
  assert (E1 : existsb (fun r => String.eqb (p_id r) (p_id row) &&
      negb (check_project_status (p_status
        (if String.eqb (p_id r) (p_id row)
         then ProjectRepository.apply_sets
                (Project.mkPartial None None None (Some phase)) r
         else r)))) (projects db) = false).
  { apply existsb_false. intros r Hr.
    destruct (String.eqb (p_id r) (p_id row)); [|reflexivity]. simpl.
    now rewrite (proj1 (Hchk r Hr)). }
  assert (E2 : existsb (fun r => String.eqb (p_id r) (p_id row) &&
      negb (check_phase (p_current_phase
        (if String.eqb (p_id r) (p_id row)
         then ProjectRepository.apply_sets
                (Project.mkPartial None None None (Some phase)) r
         else r)))) (projects db) = false).
  { apply existsb_false. intros r Hr.
    destruct (String.eqb (p_id r) (p_id row)); [|reflexivity]. simpl.
    now rewrite Hphase. }
  assert (E3 : existsb (fun r => String.eqb (p_id r) (p_id row) &&
      existsb (fun r' => negb (String.eqb (p_id r') (p_id r)) &&
                         String.eqb (p_name r') (p_name
        (if String.eqb (p_id r) (p_id row)
         then ProjectRepository.apply_sets
                (Project.mkPartial None None None (Some phase)) r
         else r))) (projects db)) (projects db) = false).
  { apply existsb_false. intros r Hr.
    destruct (String.eqb (p_id r) (p_id row)); [|reflexivity]. simpl.
    apply existsb_false. intros r' Hr'.
    destruct (String.eqb_spec (p_name r') (p_name r)) as [E|_];
      [|now rewrite andb_false_r].
    rewrite (NoDup_map_inj p_name _ r' r Hname Hr' Hr E).
    now rewrite String.eqb_refl. }
  cbv zeta. rewrite E1, E2, E3.
  now rewrite (count_by_key p_id _ row Hid Hin).
Qed.

Lemma nextPhase_unknown (phase : string) :
  includes AgenticMCPServer.phaseOrder phase = false ->
  AgenticMCPServer.nextPhase phase = Some "requirements".
Proof.
  unfold includes, AgenticMCPServer.phaseOrder. cbn [existsb]. intros H.
  apply orb_false_elim in H as [H0 H]. apply orb_false_elim in H as [H1 H].
  apply orb_false_elim in H as [H2 H]. apply orb_false_elim in H as [H3 _].
  unfold AgenticMCPServer.nextPhase, indexOf, AgenticMCPServer.phaseOrder.
  cbn [indexOf_from].
  rewrite (String.eqb_sym "requirements"), (String.eqb_sym "design"),
    (String.eqb_sym "tasks"), (String.eqb_sym "execute").
  rewrite H0, H1, H2, H3. reflexivity.
Qed.


(** Running a bind whose first operation is known. *)
Lemma bind_inr {A B} (m : Op A) (k : A -> Op B) (db db' : Database) (a : A) :
  m db = (db', inr a) -> bind m k db = k a db'.
Proof. intros H. unfold bind. now rewrite H. Qed.

(** [update(id, { currentPhase })] with a valid phase on an existing project. *)
Lemma update_current_phase (env : Env) (db : Database) (row : ProjectRow) (phase : string) :
  projects_constraints db ->
  In row (projects db) ->
  check_phase phase = true ->
  exists v,
    ProjectRepository.update env (p_id row)
      (Project.mkPartial None None None (Some phase)) db =
    (set_projects db
       (map (fun r =>
          if String.eqb (p_id r) (p_id row)
          then mkProjectRow (p_id r) (p_name r) (p_description r) (p_status r) phase
                 (p_created_at r) (CURRENT_TIMESTAMP env)
          else r) (projects db)),
     inr v).
Proof.
  intros Hc Hin Hchk. unfold ProjectRepository.update.
  cbn [Project.status' Project.currentPhase' ProjectRepository.no_sets].
  assert (Hvalid : isValidProjectPhase phase = true) by exact Hchk.
  rewrite Hvalid.
  rewrite (bind_inr (ret tt) _ db db tt) by reflexivity.
  rewrite (bind_inr (ret tt) _ db db tt) by reflexivity.
  erewrite bind_inr by (apply UPDATE_current_phase; assumption).
  cbn [Nat.eqb]. eexists. reflexivity.
Qed.

(** The mirror's outcome does not depend on the database. *)
Lemma completePhase_result (self : FileSync.t) (env : Env) (projectId phase : string)
    (deliverables : JsValue) (notes : string) (db db' : Database) :
  FileSync.completePhase self env projectId phase deliverables notes db' =
  (db', snd (FileSync.completePhase self env projectId phase deliverables notes db)).
Proof.
  unfold FileSync.completePhase, FileSync.fs_calls.
  destruct (FileSync.enabled self); [|reflexivity].
  destruct (FileSync.handoffMap phase); [|reflexivity..].
  destruct (fs_error env); reflexivity.
Qed.

(** A handoff whose next phase is a phase: one checkpoint row is appended,
    the project's row gets the next phase, and the call ends as the mirror
    ends. *)
Lemma handoff_advances (self : AgenticMCPServer.t) (env : Env) (db : Database)
    (row : ProjectRow) (phase next : string) (deliverables : JsValue) (notes : string) :
  projects_constraints db ->
  In row (projects db) ->
  p_id row <> "" -> phase <> "" -> notes <> "" ->
  required_object (Some deliverables) = Some deliverables ->
  existsb (fun r => String.eqb (c_id r) (randomblob env)) (workflow_checkpoints db) = false ->
  AgenticMCPServer.nextPhase phase = Some next ->
  check_phase next = true ->
  let r := AgenticMCPServer.handleWorkflowHandoff self env
             (HandoffArgs.mk (Some (JStr (p_id row))) (Some (JStr phase))
                (Some deliverables) (Some (JStr notes))) db in
  exists data,
    let checkpoint := mkWorkflowCheckpointRow (randomblob env) (p_id row) phase data
                        (CURRENT_TIMESTAMP env) in
    fst r =
      mkDatabase
        (map (fun r =>
           if String.eqb (p_id r) (p_id row)
           then mkProjectRow (p_id r) (p_name r) (p_description r) (p_status r) next
                  (p_created_at r) (CURRENT_TIMESTAMP env)
           else r) (projects db))
        (tasks db) (agent_sessions db)
        (workflow_checkpoints db ++ [checkpoint]) /\
    snd r =
      match snd (FileSync.completePhase (AgenticMCPServer.fileSync self) env
                   (p_id row) phase deliverables notes db) with
      | inl e => inl (McpError InternalError
                        ("Failed to complete handoff: " +:+ exn_message e))
      | inr _ =>
          inr (HandoffResult.mk true (randomblob env) phase (CURRENT_TIMESTAMP env)
                 phase (Some next) deliverables notes (p_id row) (p_name row)
                 (Some next)
                 ("Phase '" +:+ phase +:+ "' completed. " +:+
                  "Ready for '" +:+ next +:+ "' phase."))
      end.
Proof.
  intros Hc Hin Hpid Hphase Hnotes Hd Hfresh Hnext Hchk. cbv zeta.
  assert (Hnd := proj1 Hc).
  assert (F : ProjectRepository.findById (p_id row) db =
              (db, inr (Some (projectFromRow row)))).
  { unfold ProjectRepository.findById, query.
    destruct (find (fun r => String.eqb (p_id r) (p_id row)) (projects db))
      as [row'|] eqn:F.
    - apply find_some in F as [Hin' E]. apply String.eqb_eq in E.
      now rewrite (NoDup_map_inj p_id (projects db) row' row Hnd Hin' Hin E).
    - apply (find_none _ _ F) in Hin. now rewrite String.eqb_refl in Hin. }
  assert (Hhas : has_project db (p_id row) = true).
  { unfold has_project. apply existsb_exists. exists row.
    split; [assumption|apply String.eqb_refl]. }
  destruct (createCheckpoint_appends env (p_id row) phase db Hpid Hphase Hhas Hfresh)
    as [data Hcp]. cbv zeta in Hcp.
  exists data.
  set (db1 := set_workflow_checkpoints db _) in Hcp.
  destruct (update_current_phase env db1 row next Hc Hin Hchk) as [v Hup].
  set (db2 := set_projects db1 _) in Hup.
  assert (Hne : next <> "complete") by (intros ->; discriminate Hchk).
  unfold AgenticMCPServer.handleWorkflowHandoff.
  cbn [HandoffArgs.projectId HandoffArgs.currentPhase
       HandoffArgs.phaseDeliverables HandoffArgs.handoffNotes required_string].
  destruct (String.eqb_spec (p_id row) ""); [contradiction|].
  destruct (String.eqb_spec phase ""); [contradiction|].
  destruct (String.eqb_spec notes ""); [contradiction|].
  rewrite Hd.
  assert (Hbody :
    AgenticMCPServer.handoff_body self env (p_id row) phase deliverables notes db =
    (db2,
     match snd (FileSync.completePhase (AgenticMCPServer.fileSync self) env
                  (p_id row) phase deliverables notes db) with
     | inl e => inl e
     | inr _ =>
         inr (HandoffResult.mk true (randomblob env) phase (CURRENT_TIMESTAMP env)
                phase (Some next) deliverables notes (p_id row) (p_name row)
                (Some next)
                ("Phase '" +:+ phase +:+ "' completed. " +:+
                 "Ready for '" +:+ next +:+ "' phase."))
     end)).
  { unfold AgenticMCPServer.handoff_body.
    rewrite (bind_inr _ _ _ _ _ F). cbv beta iota.
    rewrite (bind_inr _ _ _ _ _ Hcp). rewrite Hnext.
    rewrite bool_decide_eq_true_2 by congruence.
    rewrite (bool_decide_eq_false_2 (Some next = Some "complete")) by congruence.
    erewrite (bind_inr (bind _ _)); [|erewrite bind_inr by exact Hup; reflexivity].
    unfold FileSync.isEnabled.
    destruct (FileSync.enabled (AgenticMCPServer.fileSync self)) eqn:En.
    - unfold bind.
      rewrite (completePhase_result _ env (p_id row) phase deliverables notes db db2).
      destruct (snd (FileSync.completePhase _ env (p_id row) phase deliverables notes db))
        as [e|u]; reflexivity.
    - unfold FileSync.completePhase. rewrite En. reflexivity. }
  unfold try_catch. rewrite Hbody.
  destruct (snd (FileSync.completePhase _ env (p_id row) phase deliverables notes db))
    as [e|u]; split; reflexivity.
Qed.

Lemma handoffMap_unknown (phase : string) :
  includes AgenticMCPServer.phaseOrder phase = false ->
  FileSync.handoffMap phase =
    if includes FileSync.Object_prototype phase
    then FileSync.Inherited else FileSync.Undefined.
Proof.
  unfold includes at 1, AgenticMCPServer.phaseOrder. cbn [existsb]. intros H.
  apply orb_false_elim in H as [H0 H]. apply orb_false_elim in H as [H1 H].
  apply orb_false_elim in H as [H2 _].
  unfold FileSync.handoffMap. now rewrite H0, H1, H2.
Qed.

(** C10 (the code departs from what its tests and the specification
    require): a handoff that declares a non-empty label outside requirements,
    design, tasks, execute for an existing project is not checked before the
    store is written: a checkpoint row carrying the label is appended and the
    project's current phase becomes requirements.  With the mirror off the
    call then returns toPhase requirements; with the mirror on (as the
    server builds it) the call then fails with an InternalError, "Unknown
    phase: " and the label unless the label names a property of
    Object.prototype, and the checkpoint and the phase update stay in the
    store.  No path answers with the error that names the four phases. *)
Theorem handoff_unknown_phase :
  forall (self : AgenticMCPServer.t) (env : Env) (db : Database)
         (row : ProjectRow) (phase : string) (deliverables : JsValue)
         (notes : string),
    projects_constraints db ->
    In row (projects db) ->
    p_id row <> "" -> phase <> "" -> notes <> "" ->
    required_object (Some deliverables) = Some deliverables ->
    existsb (fun r => String.eqb (c_id r) (randomblob env))
      (workflow_checkpoints db) = false ->
    includes AgenticMCPServer.phaseOrder phase = false ->
    let r := AgenticMCPServer.handleWorkflowHandoff self env
               (HandoffArgs.mk (Some (JStr (p_id row))) (Some (JStr phase))
                  (Some deliverables) (Some (JStr notes))) db in
    (exists data,
       fst r =
         mkDatabase
           (map (fun r =>
              if String.eqb (p_id r) (p_id row)
              then mkProjectRow (p_id r) (p_name r) (p_description r) (p_status r)
                     "requirements" (p_created_at r) (CURRENT_TIMESTAMP env)
              else r) (projects db))
           (tasks db) (agent_sessions db)
           (workflow_checkpoints db ++
            [mkWorkflowCheckpointRow (randomblob env) (p_id row) phase data
               (CURRENT_TIMESTAMP env)])) /\
    (FileSync.enabled (AgenticMCPServer.fileSync self) = false ->
       exists res, snd r = inr res /\
         HandoffResult.checkpoint_phase res = phase /\
         HandoffResult.handoff_toPhase res = Some "requirements" /\
         HandoffResult.project_currentPhase res = Some "requirements") /\
    (FileSync.enabled (AgenticMCPServer.fileSync self) = true ->
       snd r = inl (McpError InternalError
                      ("Failed to complete handoff: " +:+
                       (if includes FileSync.Object_prototype phase
                        then path_type_error env
                        else "Unknown phase: " +:+ phase)))).
Proof.
  intros self env db row phase deliverables notes Hc Hin Hpid Hphase Hnotes Hd
    Hfresh Hunknown.
  destruct (handoff_advances self env db row phase "requirements" deliverables notes
              Hc Hin Hpid Hphase Hnotes Hd Hfresh (nextPhase_unknown phase Hunknown)
              eq_refl) as (data & Hdb & Hres).
  cbv zeta. split; [exists data; exact Hdb|]. split.
  - intros Hoff. rewrite Hres. unfold FileSync.completePhase. rewrite Hoff. simpl.
    eexists. split; [reflexivity|]. repeat split.
  - intros Hon. rewrite Hres. unfold FileSync.completePhase. rewrite Hon.
    cbn [negb]. rewrite (handoffMap_unknown phase Hunknown).
    destruct (includes FileSync.Object_prototype phase); reflexivity.
Qed.

Lemma sample_constraints : projects_constraints Sample.db.
Proof.
  split; [|split].
  - apply (bool_decide_unpack _). vm_compute. exact I.
  - apply (bool_decide_unpack _). vm_compute. exact I.
  - intros r [<-|[]]. split; reflexivity.
Qed.

Lemma handoff_unknown_phase_witness :
  (exists res,
     snd (AgenticMCPServer.handleWorkflowHandoff Sample.server_no_mirror
            (Sample.env "c2" 9) (Sample.handoff "review") Sample.db) = inr res /\
     HandoffResult.handoff_toPhase res = Some "requirements") /\
  snd (AgenticMCPServer.handleWorkflowHandoff Sample.server
         (Sample.env "c2" 9) (Sample.handoff "review") Sample.db) =
    inl (McpError InternalError "Failed to complete handoff: Unknown phase: review").
Proof.
  assert (Hin : In Sample.demo (projects Sample.db)) by (left; reflexivity).
  assert (H1 : p_id Sample.demo <> "") by discriminate.
  assert (H2 : "review" <> "") by discriminate.
  assert (H3 : "done" <> "") by discriminate.
  split.
  - destruct (handoff_unknown_phase Sample.server_no_mirror (Sample.env "c2" 9)
                Sample.db Sample.demo "review" (JObj {["doc" := JStr "x"]}) "done"
                sample_constraints Hin H1 H2 H3 eq_refl eq_refl eq_refl)
      as (_ & Hoff & _).
    destruct (Hoff eq_refl) as (res & Hres & _ & Hto & _).
    exists res. split; assumption.
  - exact (proj2 (proj2 (handoff_unknown_phase Sample.server (Sample.env "c2" 9)
             Sample.db Sample.demo "review" (JObj {["doc" := JStr "x"]}) "done"
             sample_constraints Hin H1 H2 H3 eq_refl eq_refl eq_refl)) eq_refl).
Defined.

(** On the server as constructed, a handoff that declares the label
    "review" ends in the mirror's error, raised after the store was
    written. *)
Lemma handoff_unknown_phase_rejected :
  let r := AgenticMCPServer.handleWorkflowHandoff Sample.server
             (Sample.env "c2" 9) (Sample.handoff "review") Sample.db in
  snd r = inl (McpError InternalError
                 "Failed to complete handoff: Unknown phase: review") /\
  ~ succeeds r.
Proof.
  cbv zeta. split; [vm_compute; reflexivity|].
  intros [res Hres]. vm_compute in Hres. discriminate Hres.
Qed.

(** *** Context *)

(** [updateContext] is the method that merges: the stored blob becomes the
    union of the old and the new one, new values winning. *)
Lemma updateContext_merges (env : Env) (db : Database) (row : AgentSessionRow)
    (context : gmap string JsValue) :
  find (fun r => String.eqb (s_id r) (s_id row)) (agent_sessions db) = Some row ->
  let r := AgentSessionRepository.updateContext env (s_id row) context db in
  snd r = inr tt /\
  agent_sessions (fst r) =
    map (fun r =>
      if String.eqb (s_id r) (s_id row)
      then mkAgentSessionRow (s_id r) (s_project_id r) (s_task_id r) (s_agent_type r)
             (Some (JObj (context ∪ parseJsonObject (s_context_data row))))
             (CURRENT_TIMESTAMP env)
      else r) (agent_sessions db).
Proof.
  intros F. cbv zeta. unfold AgentSessionRepository.updateContext.
  erewrite bind_inr
    by (unfold AgentSessionRepository.findById, query; rewrite F; reflexivity).
  cbn [fmap option_fmap option_map]. split; reflexivity.
Qed.

(** C4 (the code departs from it): [handleContextSave] inserts a session row
    on every call and never writes an existing one.  After saving a:1 and
    then b:2 for the same project and agent type the store holds two
    sessions, one with each blob; the most recently active one holds b:2
    alone, [getAllContexts] reports a:1 alone, and none holds the merged
    blob, which [updateContext] would have produced. *)
Theorem context_save_does_not_merge :
  (forall (self : AgenticMCPServer.t) (env : Env) (args : ContextSaveArgs.t)
          (db : Database),
     exists new : list AgentSessionRow,
       agent_sessions (fst (AgenticMCPServer.handleContextSave self env args db)) =
       (agent_sessions db ++ new)%list) /\
  (let a : gmap string JsValue := {["a" := JNum 1]} in
   let b : gmap string JsValue := {["b" := JNum 2]} in
   let merged : gmap string JsValue := {["a" := JNum 1; "b" := JNum 2]} in
   let r1 := AgenticMCPServer.handleContextSave Sample.server
               (Sample.env "s1" 10) (Sample.save a) Sample.db in
   let r2 := AgenticMCPServer.handleContextSave Sample.server
               (Sample.env "s2" 20) (Sample.save b) (fst r1) in
   succeeds r1 /\ succeeds r2 /\
   map (fun s => (s_id s, s_agent_type s, parseJsonObject (s_context_data s)))
     (agent_sessions (fst r2)) = [("s1", "design", a); ("s2", "design", b)] /\
   (exists session,
      snd (AgentSessionRepository.findByProjectAndType "p1" "design" (fst r2)) =
        inr (Some session) /\
      AgentSession.contextData session = b) /\
   (exists contexts,
      snd (AgentSessionRepository.getAllContexts "p1" (fst r2)) = inr contexts /\
      contexts !! "design" = Some a) /\
   a <> merged /\ b <> merged /\
   map (fun s => parseJsonObject (s_context_data s))
     (agent_sessions (fst (AgentSessionRepository.updateContext
                             (Sample.env "s2" 20) "s1" b (fst r1)))) = [merged]).
Proof.
  split.
  - intros self env args db.
    assert (Hnone : exists new : list AgentSessionRow,
              agent_sessions db = (agent_sessions db ++ new)%list)
      by (exists []; now rewrite app_nil_r).
    unfold AgenticMCPServer.handleContextSave, AgentSessionRepository.create, bind.
    cbn [AgentSession.projectId' AgentSession.agentType' AgentSession.taskId'
         AgentSession.contextData'].
    destruct (truthy (ContextSaveArgs.projectId args)) as [p|]; [|exact Hnone].
    destruct (truthy (ContextSaveArgs.agentType args)) as [t|]; [|exact Hnone].
    destruct (isValidAgentType t); [|exact Hnone].
    cbn [negb]. unfold AgentSessionRepository.INSERT, bind.
    destruct (existsb _ (agent_sessions db)); [exact Hnone|].
    destruct (has_project db p); [|exact Hnone].
    cbn [negb truthy]. eexists. simpl. reflexivity.
  - cbv zeta. split; [eexists; vm_compute; reflexivity|].
    split; [eexists; vm_compute; reflexivity|].
    split; [vm_compute; reflexivity|].
    split; [eexists; split; vm_compute; reflexivity|].
    split; [eexists; split; vm_compute; reflexivity|].
    split.
    { intros H. assert (E : ({["a" := JNum 1]} : gmap string JsValue) !! "b" =
        ({["a" := JNum 1; "b" := JNum 2]} : gmap string JsValue) !! "b")
        by (rewrite <- H; reflexivity).
      vm_compute in E. discriminate E. }
    split.
    { intros H. assert (E : ({["b" := JNum 2]} : gmap string JsValue) !! "a" =
        ({["a" := JNum 1; "b" := JNum 2]} : gmap string JsValue) !! "a")
        by (rewrite <- H; reflexivity).
      vm_compute in E. discriminate E. }
    vm_compute. reflexivity.
Qed.

(** * Further properties of the repositories and handlers *)

(** *** Projects *)

Lemma existsb_eqb_false {A} (g : A -> string) (l : list A) (k : string) :
  existsb (fun r => String.eqb (g r) k) l = false <-> ~ In k (map g l).
Proof.
  rewrite existsb_false. split.
  - intros H Hin. apply in_map_iff in Hin as (r & <- & Hr).
    specialize (H r Hr). now rewrite String.eqb_refl in H.
  - intros H r Hr. apply String.eqb_neq. intros E. apply H. rewrite <- E.
    now apply in_map.
Qed.

Lemma find_app_new {A} (g : A -> string) (l : list A) (a : A) (k : string) :
  g a = k -> ~ In k (map g l) ->
  find (fun r => String.eqb (g r) k) (l ++ [a]) = Some a.
Proof.
  intros <-. induction l as [|x l IH]; simpl; intros H.
  - now rewrite String.eqb_refl.
  - destruct (String.eqb_spec (g x) (g a)) as [E|_]; [tauto|]. apply IH. tauto.
Qed.

Lemma find_app_old {A} (g : A -> string) (l : list A) (a : A) (k : string) :
  g a <> k ->
  find (fun r => String.eqb (g r) k) (l ++ [a]) =
  find (fun r => String.eqb (g r) k) l.
Proof.
  intros H. induction l as [|x l IH]; simpl.
  - destruct (String.eqb_spec (g a) k); [contradiction|reflexivity].
  - now rewrite IH.
Qed.

Lemma NoDup_map_snoc {A} (g : A -> string) (l : list A) (a : A) :
  NoDup (map g l) -> ~ In (g a) (map g l) -> NoDup (map g (l ++ [a])).
Proof.
  intros Hl Ha. rewrite map_app. apply NoDup_app. split; [assumption|]. split.
  - intros x Hx Hx'. simpl in Hx'. apply list_elem_of_singleton in Hx'. subst x.
    apply Ha. now apply list_elem_of_In.
  - simpl. apply NoDup_singleton.
Qed.

(** X1: creating a project under a free, non-empty name (and a fresh row id)
    appends one row with status active and phase requirements, and both
    [findById] and [findByName] then return that project; a project stored
    before is found as before. *)
Theorem project_create_roundtrip :
  forall (env : Env) (db : Database) (name : string)
         (description : option (option string)),
    name <> "" ->
    has_project db (randomblob env) = false ->
    existsb (fun r => String.eqb (p_name r) name) (projects db) = false ->
    let row := mkProjectRow (randomblob env) name (truthy (mjoin description))
                 "active" "requirements"
                 (CURRENT_TIMESTAMP env) (CURRENT_TIMESTAMP env) in
    let db' := set_projects db (projects db ++ [row]) in
    ProjectRepository.create env (Project.mkPartial (Some name) description None None) db =
      (db', inr (projectFromRow row)) /\
    ProjectRepository.findById (randomblob env) db' =
      (db', inr (Some (projectFromRow row))) /\
    ProjectRepository.findByName name db' = (db', inr (Some (projectFromRow row))) /\
    forall id, id <> randomblob env ->
      snd (ProjectRepository.findById id db') = snd (ProjectRepository.findById id db).
Proof.
  intros env db name description Hname Hid Hfree. cbv zeta.
  split; [|split; [|split]].
  - unfold ProjectRepository.create. cbn [Project.name' truthy].
    destruct (String.eqb_spec name ""); [contradiction|].
    unfold bind, ProjectRepository.INSERT.
    cbn [Project.description' Project.status' Project.currentPhase' or_default
         truthy default]. simpl negb. cbv iota.
    now rewrite Hid, Hfree.
  - unfold ProjectRepository.findById, query. simpl projects.
    rewrite (find_app_new p_id); [reflexivity|reflexivity|].
    now apply existsb_eqb_false.
  - unfold ProjectRepository.findByName, query. simpl projects.
    rewrite (find_app_new p_name); [reflexivity|reflexivity|].
    now apply existsb_eqb_false.
  - intros id Hne. unfold ProjectRepository.findById, query. simpl.
    rewrite (find_app_old p_id); [reflexivity|]. simpl. congruence.
Qed.

Lemma project_create_roundtrip_witness :
  ProjectRepository.findByName "second"
    (set_projects Sample.db
       (projects Sample.db ++
        [mkProjectRow "p2" "second" None "active" "requirements" 7 7])) =
  (set_projects Sample.db
     (projects Sample.db ++
      [mkProjectRow "p2" "second" None "active" "requirements" 7 7]),
   inr (Some (Project.mk "p2" "second" None "active" "requirements" 7 7))).
Proof.
  assert (H1 : "second" <> "") by discriminate.
  exact (proj1 (proj2 (proj2 (project_create_roundtrip (Sample.env "p2" 7) Sample.db
           "second" None H1 eq_refl eq_refl)))).
Defined.

(** X2: whatever is asked of it, [create] leaves the table of projects within
    the constraints of the schema: distinct ids, distinct names, status and
    phase within their enumerations. *)
Theorem project_create_keeps_constraints :
  forall (env : Env) (db : Database) (item : Project.partial),
    projects_constraints db ->
    projects_constraints (fst (ProjectRepository.create env item db)).
Proof.
  intros env db item Hc. unfold ProjectRepository.create.
  destruct (truthy (Project.name' item)) as [name|]; [|exact Hc].
  unfold bind, ProjectRepository.INSERT.
  destruct (check_project_status _) eqn:Hs; [|exact Hc].
  destruct (check_phase _) eqn:Hp; [|exact Hc].
  destruct (has_project db (randomblob env)) eqn:Hid; [exact Hc|].
  destruct (existsb _ (projects db)) eqn:Hn; [exact Hc|].
  simpl. destruct Hc as (Hids & Hnames & Hchk).
  unfold projects_constraints. simpl projects. split; [|split].
  - apply (NoDup_map_snoc p_id); [assumption|]. now apply existsb_eqb_false.
  - apply (NoDup_map_snoc p_name); [assumption|]. now apply existsb_eqb_false.
  - intros r Hr. apply in_app_or in Hr as [Hr|[<-|[]]]; [now apply Hchk|].
    simpl. split; assumption.
Qed.

Lemma project_create_keeps_constraints_witness :
  projects_constraints
    (fst (ProjectRepository.create (Sample.env "p2" 7)
            (Project.mkPartial (Some "second") None (Some "paused") None) Sample.db)).
Proof.
  apply project_create_keeps_constraints. exact sample_constraints.
Defined.

Lemma set_projects_same (db : Database) : set_projects db (projects db) = db.
Proof. now destruct db. Qed.

Lemma map_no_hit {A} (hit : A -> bool) (f : A -> A) (l : list A) :
  existsb hit l = false -> map (fun r => if hit r then f r else r) l = l.
Proof.
  rewrite existsb_false. intros H. induction l as [|a l IH]; simpl; [reflexivity|].
  rewrite (H a (or_introl eq_refl)). f_equal. apply IH. intros x Hx. apply H. now right.
Qed.

Lemma existsb_hit_false {A} (hit f : A -> bool) (l : list A) :
  existsb hit l = false -> existsb (fun r => hit r && f r) l = false.
Proof.
  rewrite !existsb_false. intros H x Hx. now rewrite (H x Hx).
Qed.

Lemma filter_no_hit {A} (hit : A -> bool) (l : list A) :
  existsb hit l = false -> List.filter hit l = [].
Proof.
  rewrite existsb_false. intros H. induction l as [|a l IH]; simpl; [reflexivity|].
  rewrite (H a (or_introl eq_refl)). apply IH. intros x Hx. apply H. now right.
Qed.

(** [UPDATE projects ... WHERE id = ?] when no row has the id. *)
Lemma UPDATE_project_missing (env : Env) (db : Database) (id : string)
    (sets : ProjectRow -> ProjectRow) :
  has_project db id = false ->
  ProjectRepository.UPDATE env id sets db = (db, inr 0%nat).
Proof.
  unfold has_project. intros H. unfold ProjectRepository.UPDATE. cbv zeta.
  rewrite !(existsb_hit_false _ _ _ H), (map_no_hit _ _ _ H), (filter_no_hit _ _ H).
  now rewrite set_projects_same.
Qed.

(** X3: [ProjectRepository.update] validates before it writes: an update
    whose phase is outside the four phases throws and leaves the database
    unchanged, whatever else it carries.  The error names the phase, unless
    the update also carries an invalid status, which is checked first and
    named instead. *)
Theorem project_update_validates :
  forall (env : Env) (db : Database) (id : string) (updates : Project.partial)
         (phase : string),
    Project.currentPhase' updates = Some phase ->
    isValidProjectPhase phase = false ->
    exists message,
      ProjectRepository.update env id updates db = (db, inl (Error message)) /\
      match Project.status' updates with
      | Some status =>
          if isValidProjectStatus status
          then message = "Invalid project phase: " +:+ phase
          else message = "Invalid project status: " +:+ status
      | None => message = "Invalid project phase: " +:+ phase
      end.
Proof.
  intros env db id updates phase Hp Hinv. unfold ProjectRepository.update.
  rewrite Hp, Hinv.
  destruct (Project.status' updates) as [status|];
    [destruct (isValidProjectStatus status)|];
    eexists; split; reflexivity.
Qed.

Lemma project_update_validates_witness :
  exists message,
    ProjectRepository.update (Sample.env "" 9) "p1"
      (Project.mkPartial (Some "renamed") None (Some "paused") (Some "review"))
      Sample.db = (Sample.db, inl (Error message)) /\
    message = "Invalid project phase: review".
Proof.
  exact (project_update_validates (Sample.env "" 9) Sample.db "p1"
           (Project.mkPartial (Some "renamed") None (Some "paused") (Some "review"))
           "review" eq_refl eq_refl).
Defined.

(** X4: [ProjectRepository.update] for an id that no project has never
    writes and never returns a project: it returns null, or throws when a
    value is invalid. *)
Theorem project_update_missing :
  forall (env : Env) (db : Database) (id : string) (updates : Project.partial),
    has_project db id = false ->
    let r := ProjectRepository.update env id updates db in
    fst r = db /\
    (snd r = inr None \/ exists message, snd r = inl (Error message)).
Proof.
  intros env db id updates Hmiss. cbv zeta. unfold ProjectRepository.update.
  assert (Hfind : ProjectRepository.findById id db = (db, inr None)).
  { unfold ProjectRepository.findById, query.
    destruct (find _ (projects db)) as [row|] eqn:F; [|reflexivity].
    apply find_some in F. unfold has_project in Hmiss.
    rewrite existsb_false in Hmiss. rewrite (Hmiss row (proj1 F)) in F.
    destruct F as [_ F]. discriminate F. }
  assert (Hrest :
    let r := (if ProjectRepository.no_sets updates
              then ProjectRepository.findById id
              else do changes <- ProjectRepository.UPDATE env id
                                   (ProjectRepository.apply_sets updates);
                   if Nat.eqb changes 0 then ret None
                   else ProjectRepository.findById id) db in
    fst r = db /\ (snd r = inr None \/ exists message, snd r = inl (Error message))).
  { cbv zeta. destruct (ProjectRepository.no_sets updates).
    - rewrite Hfind. split; [reflexivity|now left].
    - unfold bind. rewrite (UPDATE_project_missing env db id _ Hmiss). simpl.
      split; [reflexivity|now left]. }
  cbv zeta in Hrest.
  destruct (Project.status' updates) as [status|];
    [destruct (isValidProjectStatus status)|];
    (destruct (Project.currentPhase' updates) as [phase|];
     [destruct (isValidProjectPhase phase)|]);
    first [ exact Hrest
          | split; [reflexivity | right; eexists; reflexivity] ].
Qed.

Lemma project_update_missing_witness :
  ProjectRepository.update (Sample.env "" 9) "nobody"
    (Project.mkPartial (Some "renamed") None (Some "paused") None) Sample.db =
  (Sample.db, inr None).
Proof.
  destruct (project_update_missing (Sample.env "" 9) Sample.db "nobody"
              (Project.mkPartial (Some "renamed") None (Some "paused") None) eq_refl)
    as [Hdb [Hnone|[message Herr]]].
  - rewrite <- Hdb at 2. rewrite <- Hnone. now destruct (ProjectRepository.update _ _ _ _).
  - vm_compute in Herr. discriminate Herr.
Defined.

Lemma find_map_update {A} (g : A -> string) (f : A -> A) (l : list A) (a : A) :
  NoDup (map g l) -> In a l -> g (f a) = g a ->
  find (fun r => String.eqb (g r) (g a))
    (map (fun r => if String.eqb (g r) (g a) then f r else r) l) = Some (f a).
Proof.
  intros Hnd Hin Hg. induction l as [|x l IH]; [destruct Hin|].
  simpl in Hnd. apply NoDup_cons in Hnd as [Hx Hl]. simpl.
  destruct (String.eqb_spec (g x) (g a)) as [E|Hne].
  - assert (x = a) as ->.
    { destruct Hin as [|Hin]; [assumption|]. exfalso. apply Hx. rewrite E.
      now apply list_elem_of_In, in_map. }
    now rewrite Hg, String.eqb_refl.
  - destruct (String.eqb_spec (g x) (g a)); [contradiction|].
    apply IH; [assumption|]. destruct Hin as [->|]; [contradiction|assumption].
Qed.

Lemma find_map_other {A} (g : A -> string) (f : A -> A) (l : list A) (k k' : string) :
  (forall r, g (f r) = g r) -> k' <> k ->
  find (fun r => String.eqb (g r) k')
    (map (fun r => if String.eqb (g r) k then f r else r) l) =
  find (fun r => String.eqb (g r) k') l.
Proof.
  intros Hg Hne. induction l as [|x l IH]; [reflexivity|]. simpl.
  destruct (String.eqb_spec (g x) k) as [E|_].
  - rewrite Hg. destruct (String.eqb_spec (g x) k'); [congruence|apply IH].
  - destruct (String.eqb (g x) k'); [reflexivity|apply IH].
Qed.

(** [UPDATE projects ... WHERE id = ?] on the row of an existing project,
    when the new row passes the CHECKs and takes no other project's name. *)
Lemma UPDATE_project_row (env : Env) (db : Database) (row : ProjectRow)
    (sets : ProjectRow -> ProjectRow) :
  projects_constraints db ->
  In row (projects db) ->
  check_project_status (p_status (sets row)) = true ->
  check_phase (p_current_phase (sets row)) = true ->
  (forall r', In r' (projects db) -> p_id r' <> p_id row ->
     p_name r' <> p_name (sets row)) ->
  ProjectRepository.UPDATE env (p_id row) sets db =
  (set_projects db
     (map (fun r => if String.eqb (p_id r) (p_id row)
                    then ProjectRepository.touch env (sets r) else r) (projects db)),
   inr 1%nat).
Proof.
  intros (Hid & Hname & Hchk) Hin Hs Hp Hfree.
  assert (Hrow : forall r, In r (projects db) ->
            String.eqb (p_id r) (p_id row) = true -> r = row).
  { intros r Hr E. apply String.eqb_eq in E.
    now apply (NoDup_map_inj p_id (projects db)). }
  unfold ProjectRepository.UPDATE. cbv zeta.
  assert (E1 : existsb (fun r => String.eqb (p_id r) (p_id row) &&
      negb (check_project_status (p_status
        (if String.eqb (p_id r) (p_id row) then sets r else r)))) (projects db) = false).
  { apply existsb_false. intros r Hr.
    destruct (String.eqb (p_id r) (p_id row)) eqn:E; [|reflexivity].
    rewrite (Hrow r Hr E). simpl. now rewrite Hs. }
  assert (E2 : existsb (fun r => String.eqb (p_id r) (p_id row) &&
      negb (check_phase (p_current_phase
        (if String.eqb (p_id r) (p_id row) then sets r else r)))) (projects db) = false).
  { apply existsb_false. intros r Hr.
    destruct (String.eqb (p_id r) (p_id row)) eqn:E; [|reflexivity].
    rewrite (Hrow r Hr E). simpl. now rewrite Hp. }
  assert (E3 : existsb (fun r => String.eqb (p_id r) (p_id row) &&
      existsb (fun r' => negb (String.eqb (p_id r') (p_id r)) &&
                         String.eqb (p_name r') (p_name
        (if String.eqb (p_id r) (p_id row) then sets r else r)))
        (projects db)) (projects db) = false).
  { apply existsb_false. intros r Hr.
    destruct (String.eqb (p_id r) (p_id row)) eqn:E; [|reflexivity].
    rewrite (Hrow r Hr E). simpl. apply existsb_false. intros r' Hr'.
    destruct (String.eqb_spec (p_id r') (p_id row)) as [|Hne]; [reflexivity|].
    simpl. apply String.eqb_neq. now apply Hfree. }
  rewrite E1, E2, E3.
  now rewrite (count_by_key p_id _ row Hid Hin).
Qed.

(** X5: renaming a project to the name of another project fails with
    SQLite's UNIQUE error on projects.name and changes nothing. *)
Theorem project_rename_conflict :
  forall (env : Env) (db : Database) (row other : ProjectRow),
    projects_constraints db ->
    In row (projects db) -> In other (projects db) ->
    p_id other <> p_id row ->
    ProjectRepository.update env (p_id row)
      (Project.mkPartial (Some (p_name other)) None None None) db =
    (db, inl (Error "UNIQUE constraint failed: projects.name")).
Proof.
  intros env db row other (Hid & Hname & Hchk) Hin Hother Hne.
  assert (Hrow : forall r, In r (projects db) ->
            String.eqb (p_id r) (p_id row) = true -> r = row).
  { intros r Hr E. apply String.eqb_eq in E.
    now apply (NoDup_map_inj p_id (projects db)). }
  unfold ProjectRepository.update. cbn [Project.status' Project.currentPhase'].
  rewrite (bind_inr (ret tt) _ db db tt) by reflexivity.
  rewrite (bind_inr (ret tt) _ db db tt) by reflexivity.
  cbn [ProjectRepository.no_sets]. unfold bind, ProjectRepository.UPDATE. cbv zeta.
  assert (E1 : existsb (fun r => String.eqb (p_id r) (p_id row) &&
      negb (check_project_status (p_status
        (if String.eqb (p_id r) (p_id row)
         then ProjectRepository.apply_sets
                (Project.mkPartial (Some (p_name other)) None None None) r
         else r)))) (projects db) = false).
  { apply existsb_false. intros r Hr.
    destruct (String.eqb (p_id r) (p_id row)); [|reflexivity]. simpl.
    now rewrite (proj1 (Hchk r Hr)). }
  assert (E2 : existsb (fun r => String.eqb (p_id r) (p_id row) &&
      negb (check_phase (p_current_phase
        (if String.eqb (p_id r) (p_id row)
         then ProjectRepository.apply_sets
                (Project.mkPartial (Some (p_name other)) None None None) r
         else r)))) (projects db) = false).
  { apply existsb_false. intros r Hr.
    destruct (String.eqb (p_id r) (p_id row)); [|reflexivity]. simpl.
    now rewrite (proj2 (Hchk r Hr)). }
  assert (E3 : existsb (fun r => String.eqb (p_id r) (p_id row) &&
      existsb (fun r' => negb (String.eqb (p_id r') (p_id r)) &&
                         String.eqb (p_name r') (p_name
        (if String.eqb (p_id r) (p_id row)
         then ProjectRepository.apply_sets
                (Project.mkPartial (Some (p_name other)) None None None) r
         else r))) (projects db)) (projects db) = true).
  { apply existsb_exists. exists row. split; [assumption|].
    rewrite String.eqb_refl. simpl. apply existsb_exists. exists other.
    split; [assumption|]. rewrite String.eqb_refl, andb_true_r.
    apply negb_true_iff, String.eqb_neq, Hne. }
  rewrite E1, E2, E3. reflexivity.
Qed.

Lemma project_rename_conflict_witness :
  let other := mkProjectRow "p2" "second" None "paused" "design" 7 7 in
  let db := set_projects Sample.db [Sample.demo; other] in
  ProjectRepository.update (Sample.env "" 9) "p1"
    (Project.mkPartial (Some "second") None None None) db =
  (db, inl (Error "UNIQUE constraint failed: projects.name")).
Proof.
  cbv zeta.
  apply (project_rename_conflict (Sample.env "" 9)
           (set_projects Sample.db
              [Sample.demo; mkProjectRow "p2" "second" None "paused" "design" 7 7])
           Sample.demo (mkProjectRow "p2" "second" None "paused" "design" 7 7)).
  - split; [|split].
    + apply (bool_decide_unpack _). vm_compute. exact I.
    + apply (bool_decide_unpack _). vm_compute. exact I.
    + intros r [<-|[<-|[]]]; split; reflexivity.
  - left. reflexivity.
  - right. left. reflexivity.
  - discriminate.
Defined.

(** X6: [updateStatus] with a valid status: for a stored project the status
    is set (and the update time), the id, name and phase are kept and
    [findById] returns the new state; for an id that no project has it throws
    "Project not found" and writes nothing. *)
Theorem updateStatus_spec :
  forall (env : Env) (db : Database) (id status : string),
    projects_constraints db ->
    isValidProjectStatus status = true ->
    let r := ProjectRepository.updateStatus env id status db in
    match find (fun r => String.eqb (p_id r) id) (projects db) with
    | Some row =>
        snd r = inr tt /\
        snd (ProjectRepository.findById id (fst r)) =
          inr (Some (Project.mk id (p_name row) (p_description row) status
                       (p_current_phase row) (p_created_at row)
                       (CURRENT_TIMESTAMP env))) /\
        forall id', id' <> id ->
          snd (ProjectRepository.findById id' (fst r)) =
          snd (ProjectRepository.findById id' db)
    | None => r = (db, inl (Error ("Project not found: " +:+ id)))
    end.
Proof.
  intros env db id status Hc Hvalid. cbv zeta.
  unfold ProjectRepository.updateStatus. rewrite Hvalid. cbn [negb].
  destruct (find (fun r => String.eqb (p_id r) id) (projects db)) as [row|] eqn:F.
  - apply find_some in F as [Hin E]. apply String.eqb_eq in E. subst id.
    set (sets := fun r => mkProjectRow (p_id r) (p_name r) (p_description r) status
                            (p_current_phase r) (p_created_at r) (p_updated_at r)).
    assert (HU := UPDATE_project_row env db row sets Hc Hin).
    destruct Hc as (Hid & Hname & Hchk).
    rewrite (bind_inr _ _ _ _ _ (HU Hvalid (proj2 (Hchk row Hin))
      (fun r' Hr' Hne E => Hne (f_equal p_id
         (NoDup_map_inj p_name (projects db) r' row Hname Hr' Hin E))))).
    cbn [Nat.eqb]. unfold ret. simpl fst. simpl snd. split; [reflexivity|]. split.
    + unfold ProjectRepository.findById, query. simpl projects. simpl snd.
      rewrite (find_map_update p_id (fun r => ProjectRepository.touch env (sets r)))
        by (assumption || reflexivity).
      reflexivity.
    + intros id' Hne. unfold ProjectRepository.findById, query. simpl.
      now rewrite (find_map_other p_id).
  - assert (Hmiss : has_project db id = false).
    { unfold has_project. apply existsb_false. intros r Hr.
      apply (find_none _ _ F r Hr). }
    rewrite (bind_inr _ _ _ _ _ (UPDATE_project_missing env db id _ Hmiss)).
    reflexivity.
Qed.

Lemma updateStatus_spec_witness :
  snd (ProjectRepository.findById "p1"
         (fst (ProjectRepository.updateStatus (Sample.env "" 9) "p1" "completed"
                 Sample.db))) =
  inr (Some (Project.mk "p1" "demo" None "completed" "requirements" 1 9)).
Proof.
  exact (proj1 (proj2 (updateStatus_spec (Sample.env "" 9) Sample.db "p1" "completed"
                         sample_constraints eq_refl))).
Defined.

(** *** Cascading deletes *)

Lemma parent_in_spec (gone : list string) (r : TaskRow) :
  parent_in gone r = true <-> exists p, t_parent_id r = Some p /\ In p gone.
Proof.
  unfold parent_in. destruct (t_parent_id r) as [p|].
  - rewrite includes_In. split; [intros H; now exists p|].
    intros (q & E & H). now injection E as ->.
  - split; [discriminate|]. intros (q & E & _). discriminate E.
Qed.

Lemma cascade_round_In (rows : list TaskRow) (gone : list string) (x : string) :
  In x (cascade_round rows gone) <->
  In x gone \/
  exists r, In r rows /\ t_id r = x /\ parent_in gone r = true /\ ~ In x gone.
Proof.
  unfold cascade_round. rewrite in_app_iff, in_map_iff. split.
  - intros [H|(r & <- & Hr)]; [now left|]. right.
    apply filter_In in Hr as [Hr Hc]. apply andb_true_iff in Hc as [Hp Hn].
    exists r. repeat split; auto. intros Hx. apply includes_In in Hx.
    rewrite Hx in Hn. discriminate Hn.
  - intros [H|(r & Hr & <- & Hp & Hn)]; [now left|]. right. exists r.
    split; [reflexivity|]. apply filter_In. split; [assumption|].
    rewrite Hp. simpl. apply negb_true_iff, not_true_is_false.
    now rewrite includes_In.
Qed.

Lemma cascade_mono (n : nat) (rows : list TaskRow) (gone : list string) (x : string) :
  In x gone -> In x (cascade n rows gone).
Proof.
  revert gone. induction n as [|n IH]; intros gone H; [assumption|].
  simpl. apply IH. apply cascade_round_In. now left.
Qed.

Lemma descends_below (rows : list TaskRow) (r : TaskRow) (p x : string) :
  In r rows -> t_parent_id r = Some p ->
  descends rows (t_id r) x -> descends rows p x.
Proof.
  intros Hr Hp H. induction H as [r2 Hr2 Hp2|r2 q Hr2 Hp2 _ IH].
  - apply (descends_step rows p r2 (t_id r)); auto. now apply descends_child.
  - apply (descends_step rows p r2 q); auto.
Qed.

(** The cascade deletes nothing but the selected rows and what is below
    them. *)
Lemma cascade_sound (n : nat) (rows : list TaskRow) (selected : list string) (x : string) :
  In x (cascade n rows selected) ->
  In x selected \/ exists s, In s selected /\ descends rows s x.
Proof.
  revert selected. induction n as [|n IH]; intros selected H; [now left|].
  simpl in H. apply IH in H as [H|(s & Hs & Hd)].
  - apply cascade_round_In in H as [H|(r & Hr & <- & Hp & _)]; [now left|].
    right. apply parent_in_spec in Hp as (p & Hp & Hin).
    exists p. split; [assumption|]. now apply descends_child.
  - apply cascade_round_In in Hs as [Hs|(r & Hr & <- & Hp & _)].
    + right. now exists s.
    + right. apply parent_in_spec in Hp as (p & Hp & Hin).
      exists p. split; [assumption|]. now apply (descends_below rows r).
Qed.

Lemma filter_length_lt {A} (f g : A -> bool) (l : list A) (a : A) :
  (forall x, f x = true -> g x = true) ->
  In a l -> g a = true -> f a = false ->
  (length (List.filter f l) < length (List.filter g l))%nat.
Proof.
  intros Hfg. assert (Hle : forall l', (length (List.filter f l') <=
                                         length (List.filter g l'))%nat).
  { induction l' as [|x l' IH]; simpl; [lia|].
    destruct (f x) eqn:F; [rewrite (Hfg x F); simpl; lia|].
    destruct (g x); simpl; lia. }
  induction l as [|x l IH]; intros Hin Hg Hf; [destruct Hin|].
  simpl. destruct Hin as [->|Hin].
  - rewrite Hg, Hf. simpl. specialize (Hle l). lia.
  - specialize (IH Hin Hg Hf). destruct (f x) eqn:F; [rewrite (Hfg x F); simpl; lia|].
    destruct (g x); simpl; lia.
Qed.

Lemma cascade_closed_stable (n : nat) (rows : list TaskRow) (gone : list string) :
  cascade_closed rows gone ->
  forall x, In x (cascade n rows gone) <-> In x gone.
Proof.
  revert gone. induction n as [|n IH]; intros gone Hc x; [reflexivity|].
  simpl. assert (Hsame : forall y, In y (cascade_round rows gone) <-> In y gone).
  { intros y. rewrite cascade_round_In. split; [|now left].
    intros [H|(r & Hr & <- & Hp & Hn)]; [assumption|]. now apply Hc. }
  rewrite IH; [apply Hsame|].
  intros r Hr Hp. apply Hsame. apply Hc; [assumption|].
  apply parent_in_spec in Hp as (p & Hp & Hin). apply parent_in_spec.
  exists p. split; [assumption|]. now apply Hsame.
Qed.

(** With as many rounds as there are rows still alive, the cascade ends with
    nothing left to delete. *)
Lemma cascade_reaches_closure (n : nat) (rows : list TaskRow) (gone : list string) :
  (length (List.filter (fun r => negb (includes gone (t_id r))) rows) <= n)%nat ->
  cascade_closed rows (cascade n rows gone).
Proof.
  revert gone. induction n as [|n IH]; intros gone Hn.
  - simpl. intros r Hr _. apply includes_In.
    assert (H0 : length (List.filter (fun r => negb (includes gone (t_id r))) rows) = 0%nat)
      by lia.
    rewrite filter_length_0 in H0. specialize (H0 r Hr).
    now apply negb_false_iff in H0.
  - simpl.
    destruct (List.filter (fun r => parent_in gone r && negb (includes gone (t_id r))) rows)
      as [|a pending] eqn:P.
    + assert (Hc : cascade_closed rows gone).
      { intros r Hr Hp. apply includes_In.
        destruct (includes gone (t_id r)) eqn:I; [reflexivity|].
        assert (Hin : In r (List.filter (fun r => parent_in gone r &&
                  negb (includes gone (t_id r))) rows))
          by (apply filter_In; split; [assumption|now rewrite Hp, I]).
        rewrite P in Hin. destruct Hin. }
      assert (Hround : cascade_round rows gone = gone)
        by (unfold cascade_round; rewrite P; apply app_nil_r).
      rewrite Hround. intros r Hr Hp.
      apply (cascade_closed_stable n rows gone Hc). apply Hc; [assumption|].
      apply parent_in_spec in Hp as (p & Hp & Hin). apply parent_in_spec.
      exists p. split; [assumption|]. now apply (cascade_closed_stable n rows gone Hc).
    + apply IH.
      assert (Ha : In a (List.filter (fun r => parent_in gone r &&
                negb (includes gone (t_id r))) rows)) by (rewrite P; now left).
      apply filter_In in Ha as [Ha Hcond]. apply andb_true_iff in Hcond as [Hp Hni].
      assert (Hlt : (length (List.filter
                 (fun r => negb (includes (cascade_round rows gone) (t_id r))) rows) <
               length (List.filter (fun r => negb (includes gone (t_id r))) rows))%nat).
      { apply (filter_length_lt _ _ rows a); try assumption.
        - intros x Hx. apply negb_true_iff in Hx. apply negb_true_iff.
          apply not_true_is_false. intros Hin. apply includes_In in Hin.
          apply not_true_iff_false in Hx. apply Hx, includes_In, cascade_round_In.
          now left.
        - apply negb_false_iff, includes_In, cascade_round_In. right.
          exists a. repeat split; auto. intros Hin. apply includes_In in Hin.
          rewrite Hin in Hni. discriminate Hni. }
      lia.
Qed.

Lemma cascade_complete (rows : list TaskRow) (selected : list string) (s x : string) :
  In s selected -> descends rows s x ->
  In x (cascade (length rows) rows selected).
Proof.
  intros Hs Hd.
  assert (Hc : cascade_closed rows (cascade (length rows) rows selected)).
  { apply cascade_reaches_closure. apply List.filter_length_le. }
  induction Hd as [r Hr Hp|r p Hr Hp _ IH].
  - apply Hc; [assumption|]. apply parent_in_spec. exists s.
    split; [assumption|]. now apply cascade_mono.
  - apply Hc; [assumption|]. apply parent_in_spec. now exists p.
Qed.

Lemma has_task_In (db : Database) (id : string) :
  has_task db id = true <-> exists r, In r (tasks db) /\ t_id r = id.
Proof.
  unfold has_task. rewrite existsb_exists. split.
  - intros (r & Hr & E). apply String.eqb_eq in E. now exists r.
  - intros (r & Hr & <-). exists r. split; [assumption|apply String.eqb_refl].
Qed.

Lemma not_includes_In (l : list string) (x : string) :
  negb (includes l x) = true <-> ~ In x l.
Proof.
  rewrite negb_true_iff, <- not_true_iff_false, includes_In. reflexivity.
Qed.

Lemma set_null_id (gone : list string) (s : AgentSessionRow) :
  s_id (set_null gone s) = s_id s.
Proof.
  unfold set_null. destruct (s_task_id s); [|reflexivity].
  destruct (includes gone s0); reflexivity.
Qed.

Lemma set_null_task (gone : list string) (s : AgentSessionRow) (t : string) :
  s_task_id (set_null gone s) = Some t -> s_task_id s = Some t /\ ~ In t gone.
Proof.
  unfold set_null. destruct (s_task_id s) as [t'|] eqn:E; [|now rewrite E].
  destruct (includes gone t') eqn:I; simpl; [discriminate|].
  rewrite E. intros [= ->]. split; [reflexivity|].
  now apply not_includes_In, negb_true_iff.
Qed.

(** The first statement of [TaskRepository.delete] removes exactly what is
    below the task. *)
Lemma children_cascade (rows : list TaskRow) (id x : string) :
  In x (cascade (length rows) rows
          (map t_id (List.filter (fun r => match t_parent_id r with
                                           | Some p => String.eqb p id
                                           | None => false
                                           end) rows))) <->
  descends rows id x.
Proof.
  set (children := List.filter _ rows).
  assert (Hchild : forall r, In r children <-> In r rows /\ t_parent_id r = Some id).
  { intros r. unfold children. rewrite filter_In.
    destruct (t_parent_id r) as [p|]; [|split; [intros [_ H]|intros [_ H]]; discriminate].
    split; intros [Hr H]; (split; [assumption|]).
    - apply String.eqb_eq in H. now subst.
    - injection H as ->. apply String.eqb_refl. }
  split.
  - intros H. apply cascade_sound in H as [H|(s & Hs & Hd)].
    + apply in_map_iff in H as (r & <- & Hr). apply Hchild in Hr as [Hr Hp].
      now apply descends_child.
    + apply in_map_iff in Hs as (r & <- & Hr). apply Hchild in Hr as [Hr Hp].
      now apply (descends_below rows r).
  - intros Hd.
    assert (Hc : cascade_closed rows (cascade (length rows) rows (map t_id children))).
    { apply cascade_reaches_closure. apply List.filter_length_le. }
    induction Hd as [r Hr Hp|r p Hr Hp _ IH].
    + apply cascade_mono, in_map. now apply Hchild.
    + apply Hc; [assumption|]. apply parent_in_spec. now exists p.
Qed.

(** X7: [TaskRepository.delete] removes the task and every task below it in
    the hierarchy, to any depth, and nothing else: a task that merely lists
    the deleted task among its dependencies stays.  Projects and checkpoints
    are untouched, no session is deleted and none refers to a deleted task
    afterwards.  The result is true only if the task existed, and it is true
    for an existing task that is not below itself. *)
Theorem task_delete_spec :
  forall (db : Database) (id : string),
    let r := TaskRepository.delete id db in
    (forall row, In row (tasks (fst r)) <->
       In row (tasks db) /\ t_id row <> id /\ ~ descends (tasks db) id (t_id row)) /\
    projects (fst r) = projects db /\
    workflow_checkpoints (fst r) = workflow_checkpoints db /\
    map s_id (agent_sessions (fst r)) = map s_id (agent_sessions db) /\
    (forall s t, In s (agent_sessions (fst r)) -> s_task_id s = Some t ->
       has_task db t = true -> has_task (fst r) t = true) /\
    (exists b, snd r = inr b /\
       (b = true -> has_task db id = true) /\
       (has_task db id = true -> ~ descends (tasks db) id id -> b = true)).
Proof.
  intros db id. cbv zeta.
  unfold TaskRepository.delete, TaskRepository.DELETE_children, TaskRepository.DELETE,
    bind, ret, delete_tasks. cbv zeta. simpl.
  set (rows := tasks db).
  set (gone1 := cascade (length rows) rows _).
  set (T1 := List.filter (fun r => negb (includes gone1 (t_id r))) rows).
  set (gone2 := cascade (length T1) T1 _).
  assert (H1 : forall x, In x gone1 <-> descends rows id x)
    by (intros x; apply children_cascade).
  assert (HT1 : forall r, In r T1 <-> In r rows /\ ~ descends rows id (t_id r)).
  { intros r. unfold T1. now rewrite filter_In, not_includes_In, H1. }
  assert (Hno : forall x, ~ descends T1 id x).
  { intros x Hd. induction Hd as [r Hr Hp|r p Hr Hp _ IH]; [|exact IH].
    apply HT1 in Hr as [Hr Hnd]. apply Hnd. now apply descends_child. }
  assert (H2 : forall x, In x gone2 <-> x = id /\ In id (map t_id T1)).
  { intros x. split.
    - intros H. apply cascade_sound in H as [H|(s & Hs & Hd)].
      + apply in_map_iff in H as (r & <- & Hr). apply filter_In in Hr as [Hr E].
        apply String.eqb_eq in E. split; [assumption|]. rewrite <- E. now apply in_map.
      + exfalso. apply in_map_iff in Hs as (r & <- & Hr).
        apply filter_In in Hr as [_ E]. apply String.eqb_eq in E.
        rewrite E in Hd. exact (Hno x Hd).
    - intros [-> Hin]. apply cascade_mono.
      apply in_map_iff in Hin as (r & E & Hr). apply in_map_iff. exists r.
      split; [assumption|]. apply filter_In. split; [assumption|].
      now apply String.eqb_eq. }
  assert (HT2 : forall row,
            In row (List.filter (fun r => negb (includes gone2 (t_id r))) T1) <->
            In row rows /\ t_id row <> id /\ ~ descends rows id (t_id row)).
  { intros row. rewrite filter_In, not_includes_In, H2, HT1. split.
    - intros [[Hr Hnd] Hn]. repeat split; auto. intros E. apply Hn.
      split; [assumption|]. rewrite <- E. apply in_map. now apply HT1.
    - intros (Hr & Hne & Hnd). split; [now split|]. intros [E _]. contradiction. }
  split; [exact HT2|]. split; [reflexivity|]. split; [reflexivity|]. split.
  { rewrite !map_map. apply map_ext. intros s. now rewrite !set_null_id. }
  split.
  { intros s t Hs Ht Hhas. apply in_map_iff in Hs as (s1 & <- & Hs1).
    apply in_map_iff in Hs1 as (s0 & <- & Hs0).
    apply set_null_task in Ht as [Ht Hn2]. apply set_null_task in Ht as [Ht Hn1].
    apply has_task_In in Hhas as (row & Hrow & E). apply has_task_In. simpl.
    exists row. split; [|assumption]. apply HT2.
    assert (Hnd : ~ descends rows id (t_id row))
      by (rewrite E; intros Hd; apply Hn1, H1, Hd).
    repeat split; auto. intros E'. apply Hn2, H2. split; [congruence|].
    rewrite <- E'. apply in_map. now apply HT1. }
  eexists. split; [reflexivity|]. split.
  - intros Hb. apply negb_true_iff, Nat.eqb_neq in Hb.
    destruct (List.filter (fun r => String.eqb (t_id r) id) T1) as [|r l] eqn:F;
      [contradiction Hb; reflexivity|].
    assert (Hr : In r (List.filter (fun r => String.eqb (t_id r) id) T1))
      by (rewrite F; now left).
    apply filter_In in Hr as [Hr E]. apply String.eqb_eq in E.
    apply has_task_In. exists r. split; [|assumption]. now apply HT1.
  - intros Hhas Hnd. apply has_task_In in Hhas as (row & Hrow & E).
    apply negb_true_iff, Nat.eqb_neq. intros H0.
    pose proof (proj1 (filter_length_0 _ _) H0) as H0'. clear H0. rename H0' into H0.
    specialize (H0 row). cbv beta in H0. rewrite E, String.eqb_refl in H0.
    assert (In row T1) by (apply HT1; split; [assumption|now rewrite E]).
    specialize (H0 H). discriminate H0.
Qed.

Lemma no_filter_hits {A} (hit : A -> bool) (l : list A) :
  Nat.eqb (length (List.filter hit l)) 0 = negb (existsb hit l).
Proof.
  induction l as [|a l IH]; simpl; [reflexivity|].
  destruct (hit a); simpl; [reflexivity|exact IH].
Qed.

Lemma filter_map_comm {A B} (f : B -> bool) (g : A -> B) (l : list A) :
  List.filter f (map g l) = map g (List.filter (fun x => f (g x)) l).
Proof.
  induction l as [|a l IH]; simpl; [reflexivity|].
  destruct (f (g a)); simpl; now rewrite IH.
Qed.

Lemma set_null_project (gone : list string) (s : AgentSessionRow) :
  s_project_id (set_null gone s) = s_project_id s.
Proof.
  unfold set_null. destruct (s_task_id s); [|reflexivity].
  destruct (includes gone s0); reflexivity.
Qed.

(** X8: deleting a stored project removes it with all of its tasks (and
    whatever is below them in the task hierarchy), its sessions and its
    checkpoints, so that nothing keyed by the project is left; the other
    projects, their checkpoints and their sessions stay, and the result is
    true.  For an id that no project has the database is unchanged and the
    result is false. *)
Theorem project_delete_cascades :
  forall (db : Database) (id : string),
    let r := ProjectRepository.delete id db in
    if has_project db id then
      snd r = inr true /\
      has_project (fst r) id = false /\
      (forall p, In p (projects (fst r)) <-> In p (projects db) /\ p_id p <> id) /\
      (forall t, In t (tasks (fst r)) <->
         In t (tasks db) /\
         forall t0, In t0 (tasks db) -> t_project_id t0 = id ->
           t_id t <> t_id t0 /\ ~ descends (tasks db) (t_id t0) (t_id t)) /\
      (forall t, In t (tasks (fst r)) -> t_project_id t <> id) /\
      (forall s, In s (agent_sessions (fst r)) -> s_project_id s <> id) /\
      map s_id (agent_sessions (fst r)) =
        map s_id (List.filter (fun s => negb (String.eqb (s_project_id s) id))
                    (agent_sessions db)) /\
      (forall c, In c (workflow_checkpoints (fst r)) <->
         In c (workflow_checkpoints db) /\ c_project_id c <> id)
    else r = (db, inr false).
Proof.
  intros db id. cbv zeta.
  unfold ProjectRepository.delete, ProjectRepository.DELETE, bind, ret. cbv zeta.
  rewrite no_filter_hits. fold (has_project db id).
  destruct (has_project db id) eqn:Hhas; [|reflexivity].
  cbn [negb]. rewrite no_filter_hits. fold (has_project db id). rewrite Hhas.
  unfold delete_tasks. cbv zeta. simpl.
  set (rows := tasks db).
  set (selected := List.filter (fun r => String.eqb (t_project_id r) id) rows).
  set (gone := cascade (length rows) rows (map t_id selected)).
  assert (Hsel : forall x, In x (map t_id selected) <->
            exists t0, In t0 rows /\ t_project_id t0 = id /\ t_id t0 = x).
  { intros x. rewrite in_map_iff. split.
    - intros (t0 & <- & H0). apply filter_In in H0 as [H0 E].
      apply String.eqb_eq in E. now exists t0.
    - intros (t0 & H0 & E & <-). exists t0. split; [reflexivity|].
      apply filter_In. split; [assumption|]. now apply String.eqb_eq. }
  assert (Hgone : forall x, In x gone <->
            exists t0, In t0 rows /\ t_project_id t0 = id /\
                       (x = t_id t0 \/ descends rows (t_id t0) x)).
  { intros x. split.
    - intros H. apply cascade_sound in H as [H|(s & Hs & Hd)].
      + apply Hsel in H as (t0 & H0 & E & <-). exists t0. auto.
      + apply Hsel in Hs as (t0 & H0 & E & <-). exists t0. auto.
    - intros (t0 & H0 & E & [->|Hd]).
      + apply cascade_mono, Hsel. now exists t0.
      + apply (cascade_complete rows _ (t_id t0)); [|assumption].
        apply Hsel. now exists t0. }
  split; [reflexivity|]. split.
  { unfold has_project. simpl. apply existsb_false. intros p Hp.
    apply filter_In in Hp as [_ Hp]. now apply negb_true_iff in Hp. }
  split.
  { intros p. rewrite filter_In, negb_true_iff, String.eqb_neq. reflexivity. }
  assert (Htasks : forall t,
            In t (List.filter (fun r => negb (includes gone (t_id r))) rows) <->
            In t rows /\
            forall t0, In t0 rows -> t_project_id t0 = id ->
              t_id t <> t_id t0 /\ ~ descends rows (t_id t0) (t_id t)).
  { intros t. rewrite filter_In, not_includes_In, Hgone. split.
    - intros [Ht Hn]. split; [assumption|]. intros t0 H0 E. split.
      + intros E'. apply Hn. exists t0. auto.
      + intros Hd. apply Hn. exists t0. auto.
    - intros [Ht Hall]. split; [assumption|].
      intros (t0 & H0 & E & [E'|Hd]); destruct (Hall t0 H0 E); contradiction. }
  split; [exact Htasks|]. split.
  { intros t Ht E. apply Htasks in Ht as [Ht Hall].
    destruct (Hall t Ht E) as [Hne _]. now apply Hne. }
  split.
  { intros s Hs. apply filter_In in Hs as [Hs E].
    now apply negb_true_iff, String.eqb_neq in E. }
  split.
  { rewrite filter_map_comm, map_map.
    erewrite (filter_ext (fun x => negb (String.eqb (s_project_id (set_null gone x)) id)));
      [|intros s; now rewrite set_null_project].
    apply map_ext. intros s. apply set_null_id. }
  intros c. rewrite filter_In, negb_true_iff, String.eqb_neq. reflexivity.
Qed.

(** *** Tasks *)

(** X9: a task cannot be created under a project id that no project has:
    [create] throws (the required-field error, the phase error or SQLite's
    constraint error) and the database is unchanged. *)
Theorem task_create_needs_project :
  forall (env : Env) (db : Database) (item : Task.partial),
    (forall projectId, Task.projectId' item = Some projectId ->
       has_project db projectId = false) ->
    exists message, TaskRepository.create env item db = (db, inl (Error message)).
Proof.
  intros env db item Hmiss. unfold TaskRepository.create.
  destruct (truthy (Task.projectId' item)) as [projectId|] eqn:P;
    [|eexists; reflexivity].
  apply truthy_inv in P. specialize (Hmiss projectId P).
  destruct (truthy (Task.title' item)) as [title|]; [|eexists; reflexivity].
  destruct (truthy (Task.phase' item)) as [phase|]; [|eexists; reflexivity].
  destruct (isValidTaskPhase phase); [|eexists; reflexivity].
  cbn [negb]. unfold bind, TaskRepository.INSERT.
  destruct (check_phase phase); [|eexists; reflexivity].
  destruct (check_task_status _); [|eexists; reflexivity].
  destruct (has_task db (randomblob env)); [eexists; reflexivity|].
  rewrite Hmiss. eexists. reflexivity.
Qed.

Lemma task_create_needs_project_witness :
  exists message,
    TaskRepository.create (Sample.env "t9" 9)
      (Task.mkPartial (Some "p7") None (Some "orphan") None (Some "design")
         None None None None None) Sample.db =
    (Sample.db, inl (Error message)).
Proof.
  apply task_create_needs_project. intros projectId [= <-]. reflexivity.
Defined.

(** X10: creating a task with a title and a valid phase under an existing
    project (fresh row id, no parent) appends one row with status pending and,
    when no priority is given, priority 1; [findById] then returns the task,
    and the ids of the table stay distinct. *)
Theorem task_create_roundtrip :
  forall (env : Env) (db : Database) (projectId title phase : string)
         (dependencies : option (list string)),
    projectId <> "" -> title <> "" ->
    isValidTaskPhase phase = true ->
    has_project db projectId = true ->
    has_task db (randomblob env) = false ->
    let row := mkTaskRow (randomblob env) projectId None title None phase "pending"
                 None 1 None dependencies
                 (CURRENT_TIMESTAMP env) (CURRENT_TIMESTAMP env) in
    let db' := set_tasks db (tasks db ++ [row]) in
    TaskRepository.create env
      (Task.mkPartial (Some projectId) None (Some title) None (Some phase)
         None None None None dependencies) db = (db', inr (taskFromRow row)) /\
    Task.status (taskFromRow row) = "pending" /\
    Task.priority (taskFromRow row) = 1 /\
    Task.dependencies (taskFromRow row) = default [] dependencies /\
    TaskRepository.findById (randomblob env) db' = (db', inr (Some (taskFromRow row))) /\
    (tasks_pk db -> tasks_pk db').
Proof.
  intros env db projectId title phase dependencies Hp Ht Hphase Hproj Hfresh. cbv zeta.
  assert (Hne : phase <> "") by (intros ->; discriminate Hphase).
  split; [|split; [reflexivity|split; [reflexivity|split; [reflexivity|split]]]].
  - unfold TaskRepository.create.
    cbn [Task.projectId' Task.title' Task.phase' truthy].
    destruct (String.eqb_spec projectId ""); [contradiction|].
    destruct (String.eqb_spec title ""); [contradiction|].
    destruct (String.eqb_spec phase ""); [contradiction|].
    rewrite Hphase. cbn [negb]. unfold bind, TaskRepository.INSERT.
    assert (Hc : check_phase phase = true) by exact Hphase.
    rewrite Hc. cbn [Task.status' Task.parentId' Task.description' Task.assigneeType'
      Task.priority' Task.requirementsRefs' Task.dependencies' or_default truthy
      default mjoin option_join negb TaskRepository.priority_or_1].
    change (check_task_status "pending") with true. cbn [negb].
    rewrite Hfresh, Hproj. reflexivity.
  - unfold TaskRepository.findById, query. simpl tasks.
    rewrite (find_app_new t_id); [reflexivity|reflexivity|].
    now apply existsb_eqb_false.
  - intros Hpk. unfold tasks_pk. simpl tasks.
    apply (NoDup_map_snoc t_id); [assumption|]. now apply existsb_eqb_false.
Qed.

Lemma task_create_roundtrip_witness :
  TaskRepository.findById "t9"
    (set_tasks Sample.db
       (tasks Sample.db ++
        [mkTaskRow "t9" "p1" None "build" None "execute" "pending" None 1 None
           (Some ["t1"]) 9 9])) =
  (set_tasks Sample.db
     (tasks Sample.db ++
      [mkTaskRow "t9" "p1" None "build" None "execute" "pending" None 1 None
         (Some ["t1"]) 9 9]),
   inr (Some (Task.mk "t9" "p1" None "build" None "execute" "pending" None 1 []
                ["t1"] 9 9))).
Proof.
  assert (H1 : "p1" <> "") by discriminate.
  assert (H2 : "build" <> "") by discriminate.
  exact (proj1 (proj2 (proj2 (proj2 (proj2
    (task_create_roundtrip (Sample.env "t9" 9) Sample.db "p1" "build" "execute"
       (Some ["t1"]) H1 H2 eq_refl eq_refl eq_refl)))))).
Defined.

(** [UPDATE tasks ... WHERE id = ?] on the row of a stored task whose new
    status passes the CHECK. *)
Lemma UPDATE_task_row (env : Env) (db : Database) (row : TaskRow)
    (sets : TaskRow -> TaskRow) :
  tasks_pk db -> In row (tasks db) ->
  check_task_status (t_status (sets row)) = true ->
  TaskRepository.UPDATE env (t_id row) sets db =
  (set_tasks db
     (map (fun r => if String.eqb (t_id r) (t_id row)
                    then TaskRepository.touch env (sets r) else r) (tasks db)),
   inr 1%nat).
Proof.
  intros Hpk Hin Hs. unfold TaskRepository.UPDATE. cbv zeta.
  assert (E : existsb (fun r => String.eqb (t_id r) (t_id row) &&
                negb (check_task_status (t_status (sets r)))) (tasks db) = false).
  { apply existsb_false. intros r Hr.
    destruct (String.eqb_spec (t_id r) (t_id row)) as [E|]; [|reflexivity].
    rewrite (NoDup_map_inj t_id (tasks db) r row Hpk Hr Hin E). simpl.
    now rewrite Hs. }
  rewrite E. now rewrite (count_by_key t_id _ row Hpk Hin).
Qed.

Lemma update_keeps_ids {A} (g : A -> string) (f : A -> A) (l : list A) (k : string) :
  (forall r, g (f r) = g r) ->
  map g (map (fun r => if String.eqb (g r) k then f r else r) l) = map g l.
Proof.
  intros Hg. rewrite map_map. apply map_ext. intros r.
  destruct (String.eqb (g r) k); [apply Hg|reflexivity].
Qed.

(** X11: updating a stored task with at least one field and a valid (or no)
    status rewrites that row alone: [update] returns the task with the new
    fields and the update time, [findById] returns the same, every other task
    reads as before, and the ids stay distinct. *)
Theorem task_update_roundtrip :
  forall (env : Env) (db : Database) (row : TaskRow) (updates : Task.partial),
    tasks_pk db -> In row (tasks db) ->
    check_task_status (t_status row) = true ->
    (forall status, Task.status' updates = Some status ->
       isValidTaskStatus status = true) ->
    TaskRepository.no_sets updates = false ->
    let row' := TaskRepository.touch env (TaskRepository.apply_sets updates row) in
    let r := TaskRepository.update env (t_id row) updates db in
    snd r = inr (Some (taskFromRow row')) /\
    TaskRepository.findById (t_id row) (fst r) = (fst r, inr (Some (taskFromRow row'))) /\
    (forall id, id <> t_id row ->
       snd (TaskRepository.findById id (fst r)) = snd (TaskRepository.findById id db)) /\
    tasks_pk (fst r).
Proof.
  intros env db row updates Hpk Hin Hchk Hvalid Hsets. cbv zeta.
  assert (Hs : check_task_status
                 (t_status (TaskRepository.apply_sets updates row)) = true).
  { simpl. destruct (Task.status' updates) as [s|]; simpl;
      [exact (Hvalid s eq_refl)|assumption]. }
  assert (Hrun : TaskRepository.update env (t_id row) updates db =
    (set_tasks db
       (map (fun r => if String.eqb (t_id r) (t_id row)
                      then TaskRepository.touch env (TaskRepository.apply_sets updates r)
                      else r) (tasks db)),
     inr (Some (taskFromRow
                  (TaskRepository.touch env (TaskRepository.apply_sets updates row)))))).
  { unfold TaskRepository.update. rewrite Hsets.
    assert (Hv : (match Task.status' updates with
                  | Some status =>
                      if isValidTaskStatus status then ret tt
                      else throw (Error ("Invalid task status: " +:+ status))
                  | None => ret tt
                  end) db = (db, inr tt)).
    { destruct (Task.status' updates) as [s|]; [|reflexivity].
      now rewrite (Hvalid s eq_refl). }
    rewrite (bind_inr _ _ _ _ _ Hv).
    rewrite (bind_inr _ _ _ _ _ (UPDATE_task_row env db row _ Hpk Hin Hs)).
    cbn [Nat.eqb]. unfold TaskRepository.findById, query. simpl tasks.
    now rewrite (find_map_update t_id
      (fun r => TaskRepository.touch env (TaskRepository.apply_sets updates r)))
      by (assumption || reflexivity). }
  rewrite Hrun. simpl fst. simpl snd. split; [reflexivity|]. split; [|split].
  - unfold TaskRepository.findById, query. simpl tasks.
    now rewrite (find_map_update t_id
      (fun r => TaskRepository.touch env (TaskRepository.apply_sets updates r)))
      by (assumption || reflexivity).
  - intros id Hne. unfold TaskRepository.findById, query. simpl.
    now rewrite (find_map_other t_id).
  - unfold tasks_pk. simpl tasks. now rewrite (update_keeps_ids t_id).
Qed.

Lemma task_update_roundtrip_witness :
  snd (TaskRepository.update (Sample.env "" 9) "t2"
         (Task.mkPartial None None None None None (Some "blocked") None (Some 7)
            None None) Sample.db) =
  inr (Some (Task.mk "t2" "p1" (Some "t1") "review" None "requirements" "blocked"
               None 7 [] ["t1"; "gone"] 4 9)).
Proof.
  refine (proj1 (task_update_roundtrip (Sample.env "" 9) Sample.db Sample.t2
            (Task.mkPartial None None None None None (Some "blocked") None (Some 7)
               None None) _ _ eq_refl _ eq_refl)).
  - unfold tasks_pk. apply (bool_decide_unpack _). vm_compute. exact I.
  - right. left. reflexivity.
  - intros status [= <-]. reflexivity.
Defined.

(** X12: when every dependency of a stored task other than one is completed
    or dangling, marking that one completed (through [update]) makes
    [checkDependencies] return true for the task. *)
Theorem dependency_completed_unblocks :
  forall (env : Env) (db : Database) (task dependency : TaskRow),
    tasks_pk db ->
    In task (tasks db) -> In dependency (tasks db) ->
    (forall d, In d (parseJsonArray (t_dependencies task)) ->
       d <> t_id dependency -> blocks db d = false) ->
    let r := TaskRepository.update env (t_id dependency)
               (Task.mkPartial None None None None None (Some "completed")
                  None None None None) db in
    TaskRepository.checkDependencies (t_id task) (fst r) = (fst r, inr true).
Proof.
  intros env db task dependency Hpk Htask Hdep Hothers. cbv zeta.
  set (upd := fun r : TaskRow =>
        TaskRepository.touch env
          (TaskRepository.apply_sets
             (Task.mkPartial None None None None None (Some "completed")
                None None None None) r)).
  assert (Hrun : fst (TaskRepository.update env (t_id dependency)
                   (Task.mkPartial None None None None None (Some "completed")
                      None None None None) db) =
                 set_tasks db
                   (map (fun r => if String.eqb (t_id r) (t_id dependency)
                                  then upd r else r) (tasks db))).
  { unfold TaskRepository.update. cbn [Task.status' TaskRepository.no_sets].
    change (isValidTaskStatus "completed") with true. cbv iota.
    rewrite (bind_inr (ret tt) _ db db tt) by reflexivity.
    rewrite (bind_inr _ _ _ _ _
      (UPDATE_task_row env db dependency
         (TaskRepository.apply_sets
            (Task.mkPartial None None None None None (Some "completed")
               None None None None)) Hpk Hdep eq_refl)).
    cbn [Nat.eqb]. reflexivity. }
  rewrite Hrun. set (db' := set_tasks db _).
  assert (Hpk' : tasks_pk db').
  { unfold tasks_pk, db'. simpl tasks. now rewrite (update_keeps_ids t_id). }
  assert (Hfind : forall d,
    find (fun r => String.eqb (t_id r) d) (tasks db') =
    if String.eqb d (t_id dependency) then Some (upd dependency)
    else find (fun r => String.eqb (t_id r) d) (tasks db)).
  { intros d. unfold db'. simpl tasks.
    destruct (String.eqb_spec d (t_id dependency)) as [->|Hne].
    - now rewrite (find_map_update t_id upd) by (assumption || reflexivity).
    - now rewrite (find_map_other t_id). }
  assert (Hdeps : exists task',
    find (fun r => String.eqb (t_id r) (t_id task)) (tasks db') = Some task' /\
    parseJsonArray (t_dependencies task') = parseJsonArray (t_dependencies task)).
  { rewrite Hfind. destruct (String.eqb_spec (t_id task) (t_id dependency)) as [E|_].
    - exists (upd dependency). split; [reflexivity|]. simpl.
      now rewrite (NoDup_map_inj t_id (tasks db) task dependency Hpk Htask Hdep E).
    - exists task. split; [|reflexivity]. now apply find_by_id_unique. }
  destruct Hdeps as (task' & Ftask & Edeps).
  unfold TaskRepository.checkDependencies.
  erewrite bind_inr
    by (unfold TaskRepository.findById, query; rewrite Ftask; reflexivity).
  cbn [fmap option_fmap option_map]. cbv beta iota.
  cbn [Task.dependencies taskFromRow]. rewrite Edeps.
  destruct (Nat.eqb (length (parseJsonArray (t_dependencies task))) 0);
    [reflexivity|].
  assert (Hzero : snd (TaskRepository.count_incomplete
                         (parseJsonArray (t_dependencies task)) db') = inr 0%nat).
  { apply (count_incomplete_0 db' _ Hpk'). apply filter_length_0.
    intros d Hd. unfold blocks. rewrite Hfind.
    destruct (String.eqb_spec d (t_id dependency)) as [->|Hne]; [reflexivity|].
    exact (Hothers d Hd Hne). }
  assert (Hcount : TaskRepository.count_incomplete
                     (parseJsonArray (t_dependencies task)) db' = (db', inr 0%nat)).
  { change (TaskRepository.count_incomplete
              (parseJsonArray (t_dependencies task)) db')
      with (db', snd (TaskRepository.count_incomplete
                        (parseJsonArray (t_dependencies task)) db')).
    now rewrite Hzero. }
  rewrite (bind_inr _ _ _ _ _ Hcount). reflexivity.
Qed.

Lemma dependency_completed_unblocks_witness :
  snd (TaskRepository.checkDependencies "t3" Sample.db) = inr false /\
  TaskRepository.checkDependencies "t3"
    (fst (TaskRepository.update (Sample.env "" 9) "t2"
            (Task.mkPartial None None None None None (Some "completed")
               None None None None) Sample.db)) =
  (fst (TaskRepository.update (Sample.env "" 9) "t2"
          (Task.mkPartial None None None None None (Some "completed")
             None None None None) Sample.db), inr true).
Proof.
  split; [reflexivity|].
  apply (dependency_completed_unblocks (Sample.env "" 9) Sample.db Sample.t3 Sample.t2).
  - unfold tasks_pk. apply (bool_decide_unpack _). vm_compute. exact I.
  - right. right. left. reflexivity.
  - right. left. reflexivity.
  - intros d [<-|[]] Hne. contradiction Hne. reflexivity.
Defined.

#[local] Instance task_order_trans : Transitive task_order.
Proof. unfold task_order. intros a b c. lia. Qed.

#[local] Instance task_order_total : Total task_order.
Proof. unfold task_order. intros a b. lia. Qed.

(** X13: [findByProject] returns exactly the rows of the project that pass
    the filter, each once, highest priority first and, among equal
    priorities, oldest first; with a status in the filter every task returned
    has that status. *)
Theorem findByProject_ordered :
  forall (db : Database) (projectId : string) (filter : TaskFilter.t),
    exists rows,
      TaskRepository.findByProject projectId filter db =
        (db, inr (map taskFromRow rows)) /\
      rows ≡ₚ List.filter (TaskRepository.matches projectId filter) (tasks db) /\
      StronglySorted task_order rows /\
      Forall (fun r => t_project_id r = projectId) rows /\
      (forall status, truthy (TaskFilter.status filter) = Some status ->
         Forall (fun r => t_status r = status) rows).
Proof.
  intros db projectId filter.
  exists (order_by task_order
            (List.filter (TaskRepository.matches projectId filter) (tasks db))).
  assert (Hall : forall P : TaskRow -> Prop,
            (forall r, TaskRepository.matches projectId filter r = true -> P r) ->
            Forall P (order_by task_order
              (List.filter (TaskRepository.matches projectId filter) (tasks db)))).
  { intros P HP. rewrite (order_by_Permutation task_order).
    apply Forall_forall. intros r Hr. apply list_elem_of_In, filter_In in Hr.
    apply HP, Hr. }
  split; [reflexivity|]. split; [apply order_by_Permutation|].
  split; [apply StronglySorted_order_by; apply _|]. split.
  - apply Hall. intros r Hm. unfold TaskRepository.matches in Hm.
    repeat (apply andb_true_iff in Hm as [Hm _]). now apply String.eqb_eq.
  - intros status Hs. apply Hall. intros r Hm. unfold TaskRepository.matches in Hm.
    rewrite Hs in Hm. do 3 (apply andb_true_iff in Hm as [Hm _]).
    apply andb_true_iff in Hm as [_ Hm]. now apply String.eqb_eq.
Qed.

(** *** Agent sessions *)

Lemma set_agent_sessions_same (db : Database) :
  set_agent_sessions db (agent_sessions db) = db.
Proof. now destruct db. Qed.

Lemma find_map_hit {A} (g : A -> string) (f : A -> A) (l : list A) (k : string) :
  (forall r, g (f r) = g r) ->
  find (fun r => String.eqb (g r) k)
    (map (fun r => if String.eqb (g r) k then f r else r) l) =
  f <$> find (fun r => String.eqb (g r) k) l.
Proof.
  intros Hg. induction l as [|x l IH]; [reflexivity|]. simpl.
  destruct (String.eqb (g x) k) eqn:E.
  - now rewrite Hg, E.
  - now rewrite E.
Qed.

(** X14: [AgentSessionRepository.create] for an existing project (fresh row
    id, non-empty agent type): a type outside requirements, design, tasks,
    implementation is refused with an error that names it and nothing is
    written; otherwise one row is appended, and [findById] returns the session
    with exactly the context object that was given. *)
Theorem session_create_roundtrip :
  forall (env : Env) (db : Database) (projectId agentType : string)
         (context : gmap string JsValue),
    projectId <> "" -> agentType <> "" ->
    has_project db projectId = true ->
    existsb (fun r => String.eqb (s_id r) (randomblob env)) (agent_sessions db) = false ->
    let r := AgentSessionRepository.create env
               (AgentSession.mkPartial (Some projectId) None (Some agentType)
                  (Some (JObj context))) db in
    if isValidAgentType agentType then
      let session := AgentSession.mk (randomblob env) projectId None agentType
                       context (CURRENT_TIMESTAMP env) in
      snd r = inr session /\
      (exists row, agent_sessions (fst r) = (agent_sessions db ++ [row])%list) /\
      AgentSessionRepository.findById (randomblob env) (fst r) =
        (fst r, inr (Some session))
    else r = (db, inl (Error ("Invalid agent type: " +:+ agentType))).
Proof.
  intros env db projectId agentType context Hp Ht Hhas Hfresh. cbv zeta.
  unfold AgentSessionRepository.create.
  cbn [AgentSession.projectId' AgentSession.agentType' truthy].
  destruct (String.eqb_spec projectId ""); [contradiction|].
  destruct (String.eqb_spec agentType ""); [contradiction|].
  destruct (isValidAgentType agentType); [|reflexivity].
  cbn [negb]. unfold bind, AgentSessionRepository.INSERT.
  cbn [AgentSession.taskId' AgentSession.contextData' truthy js_truthy].
  rewrite Hfresh, Hhas. cbn [negb]. simpl fst. simpl snd.
  split; [reflexivity|]. split; [eexists; reflexivity|].
  unfold AgentSessionRepository.findById, query. simpl agent_sessions.
  rewrite (find_app_new s_id); [reflexivity|reflexivity|].
  now apply existsb_eqb_false.
Qed.

Lemma session_create_roundtrip_witness :
  snd (AgentSessionRepository.create (Sample.env "s1" 9)
         (AgentSession.mkPartial (Some "p1") None (Some "design")
            (Some (JObj {["a" := JNum 1]}))) Sample.db) =
  inr (AgentSession.mk "s1" "p1" None "design" {["a" := JNum 1]} 9).
Proof.
  assert (H1 : "p1" <> "") by discriminate.
  assert (H2 : "design" <> "") by discriminate.
  exact (proj1 (session_create_roundtrip (Sample.env "s1" 9) Sample.db "p1" "design"
                  {["a" := JNum 1]} H1 H2 eq_refl eq_refl)).
Defined.

(** X15: [updateContext] on a stored session merges key by key: afterwards
    the session holds, for every key, the new value when the supplied
    context has the key and the old value otherwise, and its last-active time
    is refreshed; project, task and agent type are kept.  For an id that no
    session has it throws "Agent session not found" and writes nothing. *)
Theorem updateContext_by_key :
  forall (env : Env) (db : Database) (id : string) (context : gmap string JsValue),
    let r := AgentSessionRepository.updateContext env id context db in
    match find (fun r => String.eqb (s_id r) id) (agent_sessions db) with
    | Some row =>
        snd r = inr tt /\
        exists session,
          snd (AgentSessionRepository.findById id (fst r)) = inr (Some session) /\
          (forall k, AgentSession.contextData session !! k =
                     match context !! k with
                     | Some v => Some v
                     | None => parseJsonObject (s_context_data row) !! k
                     end) /\
          AgentSession.lastActive session = CURRENT_TIMESTAMP env /\
          AgentSession.projectId session = s_project_id row /\
          AgentSession.agentType session = s_agent_type row /\
          AgentSession.taskId session = truthy (s_task_id row)
    | None => r = (db, inl (Error ("Agent session not found: " +:+ id)))
    end.
Proof.
  intros env db id context. cbv zeta.
  destruct (find (fun r => String.eqb (s_id r) id) (agent_sessions db))
    as [row|] eqn:F.
  - assert (E : s_id row = id) by (apply find_some in F as [_ E]; now apply String.eqb_eq).
    subst id. destruct (updateContext_merges env db row context F) as [Hres Hdb].
    split; [exact Hres|]. eexists. split.
    + unfold AgentSessionRepository.findById, query. rewrite Hdb.
      rewrite (find_map_hit s_id
        (fun r => mkAgentSessionRow (s_id r) (s_project_id r) (s_task_id r)
                    (s_agent_type r)
                    (Some (JObj (context ∪ parseJsonObject (s_context_data row))))
                    (CURRENT_TIMESTAMP env))) by reflexivity.
      rewrite F. reflexivity.
    + simpl. repeat split. intros k. rewrite lookup_union.
      destruct (context !! k), (parseJsonObject (s_context_data row) !! k); reflexivity.
  - unfold AgentSessionRepository.updateContext.
    erewrite bind_inr
      by (unfold AgentSessionRepository.findById, query; rewrite F; reflexivity).
    reflexivity.
Qed.

(** X16: [AgentSessionRepository.update] always has a clause to set: even
    with no field it rewrites the row of a stored session with the current
    time as last-active (the context is replaced when one is given, kept
    otherwise) and returns the session; for an id that no session has it
    returns null and the database is unchanged. *)
Theorem session_update_refreshes :
  forall (env : Env) (db : Database) (id : string) (updates : AgentSession.partial),
    let r := AgentSessionRepository.update env id updates db in
    match find (fun r => String.eqb (s_id r) id) (agent_sessions db) with
    | Some row =>
        snd r =
          inr (Some (AgentSession.mk id (s_project_id row) (truthy (s_task_id row))
                       (s_agent_type row)
                       (parseJsonObject
                          (match AgentSession.contextData' updates with
                           | Some v => Some v
                           | None => s_context_data row
                           end))
                       (CURRENT_TIMESTAMP env))) /\
        AgentSessionRepository.findById id (fst r) = (fst r, snd r)
    | None => r = (db, inr None)
    end.
Proof.
  intros env db id updates. cbv zeta. unfold AgentSessionRepository.update.
  assert (Hlen : Nat.eqb (length
            (match AgentSession.contextData' updates with
             | Some _ => ["context_data = ?"]
             | None => []
             end ++ ["last_active = CURRENT_TIMESTAMP"])) 0 = false)
    by (destruct (AgentSession.contextData' updates); reflexivity).
  cbv zeta. rewrite Hlen. unfold bind, AgentSessionRepository.UPDATE. cbv zeta.
  rewrite no_filter_hits.
  destruct (find (fun r => String.eqb (s_id r) id) (agent_sessions db))
    as [row|] eqn:F.
  - assert (E : s_id row = id) by (apply find_some in F as [_ E]; now apply String.eqb_eq).
    assert (Hex : existsb (fun r => String.eqb (s_id r) id) (agent_sessions db) = true).
    { apply existsb_exists. exists row. apply find_some in F. exact F. }
    rewrite Hex. cbn [negb]. unfold AgentSessionRepository.findById, query.
    simpl agent_sessions.
    rewrite (find_map_hit s_id
      (fun r => mkAgentSessionRow (s_id r) (s_project_id r) (s_task_id r)
                  (s_agent_type r)
                  (match AgentSession.contextData' updates with
                   | Some v => Some v
                   | None => s_context_data r
                   end) (CURRENT_TIMESTAMP env))) by reflexivity.
    rewrite F. simpl. rewrite E. split; reflexivity.
  - assert (Hex : existsb (fun r => String.eqb (s_id r) id) (agent_sessions db) = false).
    { apply existsb_false. intros r Hr. apply (find_none _ _ F r Hr). }
    rewrite Hex. cbn [negb]. rewrite (map_no_hit _ _ _ Hex).
    now rewrite set_agent_sessions_same.
Qed.

#[local] Instance session_order_trans : Transitive session_order.
Proof. unfold session_order. intros a b c. lia. Qed.

#[local] Instance session_order_total : Total session_order.
Proof. unfold session_order. intros a b. lia. Qed.

(** [ORDER BY last_active DESC LIMIT 1] *)
Lemma latest_session (rows : list AgentSessionRow) :
  match head (order_by session_order rows) with
  | None => rows = []
  | Some s => In s rows /\
              forall s', In s' rows -> (s_last_active s' <= s_last_active s)%nat
  end.
Proof.
  pose proof (order_by_Permutation session_order rows) as P.
  pose proof (StronglySorted_order_by session_order rows) as S.
  destruct (order_by session_order rows) as [|s l]; simpl.
  - now apply Permutation_nil in P.
  - split.
    + apply list_elem_of_In. rewrite <- P. left.
    + intros s' Hs'. apply list_elem_of_In in Hs'. rewrite <- P in Hs'.
      apply StronglySorted_inv in S as [_ S].
      apply elem_of_cons in Hs' as [->|Hs']; [lia|].
      rewrite Forall_forall in S. apply (S s' Hs').
Qed.

(** X17: [findByProjectAndType] returns a session of that project and agent
    type than which none of that project and type was active later, and null
    exactly when the project has no session of that type. *)
Theorem findByProjectAndType_latest :
  forall (db : Database) (projectId agentType : string),
    match snd (AgentSessionRepository.findByProjectAndType projectId agentType db) with
    | inr (Some session) =>
        exists row, In row (agent_sessions db) /\
          session = agentSessionFromRow row /\
          s_project_id row = projectId /\ s_agent_type row = agentType /\
          forall row', In row' (agent_sessions db) ->
            s_project_id row' = projectId -> s_agent_type row' = agentType ->
            (s_last_active row' <= s_last_active row)%nat
    | inr None =>
        forall row, In row (agent_sessions db) ->
          s_project_id row = projectId -> s_agent_type row <> agentType
    | inl _ => False
    end.
Proof.
  intros db projectId agentType.
  unfold AgentSessionRepository.findByProjectAndType, query. simpl snd.
  pose proof (latest_session (List.filter
    (fun r => String.eqb (s_project_id r) projectId &&
              String.eqb (s_agent_type r) agentType) (agent_sessions db))) as L.
  destruct (head _) as [row|]; simpl.
  - destruct L as [Hin Hmax]. apply filter_In in Hin as [Hin Hc].
    apply andb_true_iff in Hc as [Hp Ht].
    apply String.eqb_eq in Hp. apply String.eqb_eq in Ht.
    exists row. repeat split; auto. intros row' Hin' Hp' Ht'. apply Hmax.
    apply filter_In. split; [assumption|]. now rewrite Hp', Ht', !String.eqb_refl.
  - intros row Hin Hp Ht.
    assert (H : In row (List.filter
      (fun r => String.eqb (s_project_id r) projectId &&
                String.eqb (s_agent_type r) agentType) (agent_sessions db))).
    { apply filter_In. split; [assumption|]. now rewrite Hp, Ht, !String.eqb_refl. }
    rewrite L in H. destruct H.
Qed.

(** A context map filled from sessions listed most recent first holds, for
    each agent type, the context of the session listed last. *)
Lemma contexts_last_write (rows : list AgentSessionRow) (k : string) :
  StronglySorted session_order rows ->
  match foldl (fun contexts session =>
                 <[AgentSession.agentType session :=
                     AgentSession.contextData session]> contexts)
          (∅ : gmap string (gmap string JsValue))
          (map agentSessionFromRow rows) !! k with
  | Some c =>
      exists row, In row rows /\ s_agent_type row = k /\
        parseJsonObject (s_context_data row) = c /\
        forall row', In row' rows -> s_agent_type row' = k ->
          (s_last_active row <= s_last_active row')%nat
  | None => forall row, In row rows -> s_agent_type row <> k
  end.
Proof.
  induction rows as [|x l IH] using rev_ind; intros Hs.
  - simpl. rewrite lookup_empty. intros row [].
  - rewrite map_app, foldl_app. simpl.
    pose proof (StronglySorted_app_1_l _ _ _ Hs) as Hl. specialize (IH Hl).
    destruct (decide (s_agent_type x = k)) as [E|Hne].
    + rewrite <- E, lookup_insert_eq. exists x. split; [apply in_or_app; right; now left|].
      split; [reflexivity|]. split; [reflexivity|].
      intros row' Hin _. apply in_app_or in Hin as [Hin|[<-|[]]]; [|lia].
      apply (StronglySorted_app_1_elem_of _ l [x] row' x Hs).
      * now apply list_elem_of_In.
      * apply list_elem_of_In. now left.
    + rewrite lookup_insert_ne by assumption.
      destruct (foldl _ ∅ (map agentSessionFromRow l) !! k) as [c|].
      * destruct IH as (row & Hin & Ht & Hc & Hmin). exists row.
        split; [apply in_or_app; now left|]. repeat split; auto.
        intros row' Hin' Ht'. apply in_app_or in Hin' as [Hin'|[<-|[]]];
          [now apply Hmin|contradiction].
      * intros row Hin. apply in_app_or in Hin as [Hin|[<-|[]]];
          [now apply IH|assumption].
Qed.

(** X18: when a project has several sessions of one agent type,
    [getAllContexts] reports for that type the context of a least recently
    active one (the sessions are listed most recent first and each one
    overwrites the entry of its type); a type has no entry exactly when the
    project has no session of that type. *)
Theorem getAllContexts_oldest_wins :
  forall (db : Database) (projectId agentType : string),
    exists contexts,
      AgentSessionRepository.getAllContexts projectId db = (db, inr contexts) /\
      match contexts !! agentType with
      | Some c =>
          exists row, In row (agent_sessions db) /\
            s_project_id row = projectId /\ s_agent_type row = agentType /\
            parseJsonObject (s_context_data row) = c /\
            forall row', In row' (agent_sessions db) ->
              s_project_id row' = projectId -> s_agent_type row' = agentType ->
              (s_last_active row <= s_last_active row')%nat
      | None =>
          forall row, In row (agent_sessions db) ->
            s_project_id row = projectId -> s_agent_type row <> agentType
      end.
Proof.
  intros db projectId agentType.
  set (rows := order_by session_order
                 (List.filter (fun r => String.eqb (s_project_id r) projectId)
                    (agent_sessions db))).
  exists (foldl (fun contexts session =>
                   <[AgentSession.agentType session :=
                       AgentSession.contextData session]> contexts)
            ∅ (map agentSessionFromRow rows)).
  split; [reflexivity|].
  assert (Hrows : forall row, In row rows <->
            In row (agent_sessions db) /\ s_project_id row = projectId).
  { intros row. unfold rows. rewrite <- !list_elem_of_In.
    rewrite (order_by_Permutation session_order).
    rewrite !list_elem_of_In, filter_In. now rewrite String.eqb_eq. }
  pose proof (contexts_last_write rows agentType
                (StronglySorted_order_by session_order _)) as H.
  destruct (foldl _ ∅ (map agentSessionFromRow rows) !! agentType) as [c|].
  - destruct H as (row & Hin & Ht & Hc & Hmin). apply Hrows in Hin as [Hin Hp].
    exists row. repeat split; auto. intros row' Hin' Hp' Ht'.
    apply Hmin; [|assumption]. now apply Hrows.
  - intros row Hin Hp. apply H. now apply Hrows.
Qed.

Lemma find_existsb {A} (f : A -> bool) (l : list A) (a : A) :
  find f l = Some a -> existsb f l = true.
Proof.
  intros H. apply find_some in H as [Hin Hf]. apply existsb_exists. now exists a.
Qed.

(** X19: [assignAgent] for a stored task whose project already has a session
    of the agent type reuses the most recently active such session: no row is
    added, that session's row alone is rewritten to point at the task with
    the current time as last activity (its context is kept), the session read
    back from it is returned, and no other table changes. *)
Theorem assignAgent_reuses :
  forall (env : Env) (db : Database) (taskId agentType : string)
         (taskRow : TaskRow) (existing : AgentSession.t),
    NoDup (map s_id (agent_sessions db)) ->
    find (fun r => String.eqb (t_id r) taskId) (tasks db) = Some taskRow ->
    AgentSessionRepository.findByProjectAndType (t_project_id taskRow) agentType db =
      (db, inr (Some existing)) ->
    let r := AgentSessionRepository.assignAgent env taskId agentType db in
    exists row,
      In row (agent_sessions db) /\ existing = agentSessionFromRow row /\
      let row' := mkAgentSessionRow (s_id row) (s_project_id row) (Some taskId)
                    (s_agent_type row) (s_context_data row)
                    (CURRENT_TIMESTAMP env) in
      snd r = inr (Some (agentSessionFromRow row')) /\
      agent_sessions (fst r) =
        map (fun s => if String.eqb (s_id s) (s_id row) then row' else s)
          (agent_sessions db) /\
      length (agent_sessions (fst r)) = length (agent_sessions db) /\
      projects (fst r) = projects db /\ tasks (fst r) = tasks db /\
      workflow_checkpoints (fst r) = workflow_checkpoints db.
Proof.
  intros env db taskId agentType taskRow existing Hpk Hfind Hex. cbv zeta.
  assert (Hrow : exists row, In row (agent_sessions db) /\
                   existing = agentSessionFromRow row).
  { unfold AgentSessionRepository.findByProjectAndType, query in Hex.
    pose proof (latest_session
      (List.filter (fun r => String.eqb (s_project_id r) (t_project_id taskRow) &&
                             String.eqb (s_agent_type r) agentType)
         (agent_sessions db))) as L.
    destruct (head _) as [row|]; [|discriminate].
    destruct L as [Hin _]. apply filter_In in Hin as [Hin _].
    exists row. split; [assumption|]. simpl in Hex. congruence. }
  destruct Hrow as (row & Hin & ->). exists row.
  split; [assumption|]. split; [reflexivity|].
  unfold AgentSessionRepository.assignAgent.
  rewrite (bind_inr _ _ db db (Some taskRow))
    by (unfold query; now rewrite Hfind).
  rewrite (bind_inr _ _ _ _ _ Hex).
  assert (Hupd : AgentSessionRepository.UPDATE_task env (s_id row) taskId db =
    (set_agent_sessions db
       (map (fun s => if String.eqb (s_id s) (s_id row)
                      then mkAgentSessionRow (s_id s) (s_project_id s) (Some taskId)
                             (s_agent_type s) (s_context_data s)
                             (CURRENT_TIMESTAMP env)
                      else s) (agent_sessions db)),
     inr (length (List.filter (fun s => String.eqb (s_id s) (s_id row))
                    (agent_sessions db))))).
  { unfold AgentSessionRepository.UPDATE_task, has_task. cbv zeta.
    rewrite (find_existsb _ _ _ Hfind). now rewrite andb_false_r. }
  change (AgentSession.id (agentSessionFromRow row)) with (s_id row).
  rewrite (bind_inr _ _ _ _ _ Hupd).
  unfold AgentSessionRepository.findById, query.
  assert (Hmap : map (fun s => if String.eqb (s_id s) (s_id row)
                      then mkAgentSessionRow (s_id s) (s_project_id s) (Some taskId)
                             (s_agent_type s) (s_context_data s)
                             (CURRENT_TIMESTAMP env)
                      else s) (agent_sessions db) =
                 map (fun s => if String.eqb (s_id s) (s_id row)
                      then mkAgentSessionRow (s_id row) (s_project_id row) (Some taskId)
                             (s_agent_type row) (s_context_data row)
                             (CURRENT_TIMESTAMP env)
                      else s) (agent_sessions db)).
  { apply map_ext_in. intros s Hs.
    destruct (String.eqb_spec (s_id s) (s_id row)) as [E|]; [|reflexivity].
    now rewrite (NoDup_map_inj s_id (agent_sessions db) s row Hpk Hs Hin E). }
  cbn [fst snd]. destruct db as [ps ts ss cs]. cbn [agent_sessions set_agent_sessions
    projects tasks workflow_checkpoints] in *.
  rewrite (find_map_update s_id
    (fun s => mkAgentSessionRow (s_id s) (s_project_id s) (Some taskId)
                (s_agent_type s) (s_context_data s) (CURRENT_TIMESTAMP env))
    ss row Hpk Hin eq_refl).
  split; [reflexivity|]. split; [exact Hmap|]. split; [now rewrite length_map|].
  repeat split.
Qed.

Lemma assignAgent_reuses_witness :
  let db := mkDatabase [Sample.demo] [Sample.t1]
              [mkAgentSessionRow "s1" "p1" None "design" (Some (JObj {["a" := JNum 1]})) 3;
               mkAgentSessionRow "s2" "p1" None "design" None 5] [] in
  exists row,
    In row (agent_sessions db) /\
    snd (AgentSessionRepository.assignAgent (Sample.env "" 9) "t1" "design" db) =
    inr (Some (agentSessionFromRow
      (mkAgentSessionRow (s_id row) (s_project_id row) (Some "t1")
         (s_agent_type row) (s_context_data row) 9))).
Proof.
  cbv zeta.
  destruct (assignAgent_reuses (Sample.env "" 9)
    (mkDatabase [Sample.demo] [Sample.t1]
       [mkAgentSessionRow "s1" "p1" None "design" (Some (JObj {["a" := JNum 1]})) 3;
        mkAgentSessionRow "s2" "p1" None "design" None 5] [])
    "t1" "design" Sample.t1
    (agentSessionFromRow (mkAgentSessionRow "s2" "p1" None "design" None 5)))
    as (row & Hin & _ & Hres & _).
  - apply (bool_decide_unpack _). vm_compute. exact I.
  - reflexivity.
  - reflexivity.
  - exists row. split; [exact Hin|exact Hres].
Defined.

(** *** Workflow checkpoints *)

Lemma matches_status_phase (projectId status phase : string) (r : TaskRow) :
  status <> "" -> phase <> "" ->
  TaskRepository.matches projectId
    (TaskFilter.mk (Some status) (Some phase) None None) r = true <->
  t_project_id r = projectId /\ t_status r = status /\ t_phase r = phase.
Proof.
  intros Hs Hp. unfold TaskRepository.matches, truthy. cbn [TaskFilter.status
    TaskFilter.phase TaskFilter.assigneeType TaskFilter.parentId].
  destruct (String.eqb_spec status ""); [contradiction|].
  destruct (String.eqb_spec phase ""); [contradiction|].
  rewrite !andb_true_r, !andb_true_iff, !String.eqb_eq. tauto.
Qed.

(** [ORDER BY priority DESC, created_at ASC] and [tasks[0]] *)
Lemma first_task (rows : list TaskRow) :
  match head (order_by task_order rows) with
  | None => rows = []
  | Some r => In r rows /\ forall r', In r' rows -> task_order r r'
  end.
Proof.
  pose proof (order_by_Permutation task_order rows) as P.
  pose proof (StronglySorted_order_by task_order rows) as S.
  destruct (order_by task_order rows) as [|r l]; simpl.
  - now apply Permutation_nil in P.
  - split.
    + apply list_elem_of_In. rewrite <- P. left.
    + intros r' Hr'. apply list_elem_of_In in Hr'. rewrite <- P in Hr'.
      apply StronglySorted_inv in S as [_ S].
      apply elem_of_cons in Hr' as [->|Hr'].
      * right. split; [reflexivity|lia].
      * rewrite Forall_forall in S. apply (S r' Hr').
Qed.

(** X20: the checkpoint [createCheckpoint] stores for an existing project
    and a non-empty phase label (fresh row id) is computed from the task
    table alone: its completedTasks are exactly the ids of the project's
    completed tasks in that phase, its currentTask is the project's first
    in-progress task of the phase in the listing order (highest priority,
    then oldest) and is absent exactly when there is none, and its
    phaseDeliverables are always empty.  The checkpoint is read back by
    [findById]. *)
Theorem createCheckpoint_content :
  forall (env : Env) (db : Database) (projectId phase : string),
    projectId <> "" -> phase <> "" ->
    has_project db projectId = true ->
    existsb (fun r => String.eqb (c_id r) (randomblob env))
      (workflow_checkpoints db) = false ->
    let r := WorkflowRepository.createCheckpoint env projectId phase db in
    exists checkpoint,
      snd r = inr checkpoint /\
      WorkflowRepository.findById (randomblob env) (fst r) =
        (fst r, inr (Some checkpoint)) /\
      WorkflowCheckpoint.projectId checkpoint = projectId /\
      WorkflowCheckpoint.phase checkpoint = phase /\
      WorkflowCheckpoint.createdAt checkpoint = CURRENT_TIMESTAMP env /\
      let data := WorkflowCheckpoint.checkpointData checkpoint in
      (forall id, In id (completedTasks data) <->
         exists row, In row (tasks db) /\ t_id row = id /\
           t_project_id row = projectId /\ t_status row = "completed" /\
           t_phase row = phase) /\
      match currentTask data with
      | Some id =>
          exists row, In row (tasks db) /\ t_id row = id /\
            t_project_id row = projectId /\ t_status row = "in_progress" /\
            t_phase row = phase /\
            forall row', In row' (tasks db) -> t_project_id row' = projectId ->
              t_status row' = "in_progress" -> t_phase row' = phase ->
              task_order row row'
      | None =>
          forall row, In row (tasks db) -> t_project_id row = projectId ->
            t_phase row = phase -> t_status row <> "in_progress"
      end /\
      phaseDeliverables data = ∅.
Proof.
  intros env db projectId phase Hp Hph Hhas Hfresh. cbv zeta.
  set (completed := order_by task_order
         (List.filter (TaskRepository.matches projectId
            (TaskFilter.mk (Some "completed") (Some phase) None None)) (tasks db))).
  set (inProgress := List.filter (TaskRepository.matches projectId
            (TaskFilter.mk (Some "in_progress") (Some phase) None None)) (tasks db)).
  set (data := mkCheckpointData (map Task.id (map taskFromRow completed))
                 (Task.id <$> head (map taskFromRow (order_by task_order inProgress)))
                 ∅).
  set (row := mkWorkflowCheckpointRow (randomblob env) projectId phase data
                (CURRENT_TIMESTAMP env)).
  assert (Hrun : WorkflowRepository.createCheckpoint env projectId phase db =
            (set_workflow_checkpoints db (workflow_checkpoints db ++ [row]),
             inr (workflowCheckpointFromRow row))).
  { unfold WorkflowRepository.createCheckpoint, WorkflowRepository.create,
      TaskRepository.findByProject. run.
    destruct (String.eqb_spec projectId ""); [contradiction|].
    destruct (String.eqb_spec phase ""); [contradiction|].
    unfold WorkflowRepository.INSERT. simpl. rewrite Hfresh, Hhas. reflexivity. }
  rewrite Hrun. exists (workflowCheckpointFromRow row). cbn [fst snd].
  split; [reflexivity|]. split.
  { unfold WorkflowRepository.findById, query. destruct db as [ps ts ss cs].
    cbn [workflow_checkpoints set_workflow_checkpoints] in *.
    rewrite (find_app_new c_id cs row (randomblob env) eq_refl); [reflexivity|].
    now apply existsb_eqb_false. }
  split; [reflexivity|]. split; [reflexivity|]. split; [reflexivity|].
  cbn [workflowCheckpointFromRow WorkflowCheckpoint.checkpointData c_checkpoint_data
       row data completedTasks currentTask phaseDeliverables].
  split; [|split; [|reflexivity]].
  - intros id. rewrite map_map, in_map_iff. unfold completed.
    split.
    + intros (x & <- & Hx). exists x. apply list_elem_of_In in Hx.
      rewrite (order_by_Permutation task_order) in Hx.
      apply list_elem_of_In, filter_In in Hx as [Hin Hm].
      apply matches_status_phase in Hm; [|discriminate|assumption].
      split; [assumption|]. split; [reflexivity|exact Hm].
    + intros (x & Hin & <- & Hm). exists x. split; [reflexivity|].
      apply list_elem_of_In. rewrite (order_by_Permutation task_order).
      apply list_elem_of_In, filter_In. split; [assumption|].
      apply matches_status_phase; [discriminate|assumption|exact Hm].
  - pose proof (first_task inProgress) as F.
    destruct (order_by task_order inProgress) as [|x l] eqn:E; cbn [head map fmap
      option_fmap option_map] in *.
    + intros x Hin Hpr Hphase Hst.
      assert (Hx : In x inProgress).
      { apply filter_In. split; [assumption|].
        apply matches_status_phase; [discriminate|assumption|tauto]. }
      rewrite F in Hx. destruct Hx.
    + destruct F as [Hin Hmin]. apply filter_In in Hin as [Hin Hm].
      apply matches_status_phase in Hm; [|discriminate|assumption].
      exists x. split; [assumption|]. split; [reflexivity|].
      destruct Hm as (H1 & H2 & H3). repeat (split; [assumption|]).
      intros row' Hin' Hp' Hs' Hph'. apply Hmin. apply filter_In.
      split; [assumption|].
      apply matches_status_phase; [discriminate|assumption|tauto].
Qed.

Lemma createCheckpoint_content_witness :
  exists checkpoint,
    snd (WorkflowRepository.createCheckpoint (Sample.env "c2" 9) "p1" "design"
           Sample.db) = inr checkpoint /\
    currentTask (WorkflowCheckpoint.checkpointData checkpoint) = Some "t3" /\
    phaseDeliverables (WorkflowCheckpoint.checkpointData checkpoint) = ∅.
Proof.
  destruct (createCheckpoint_content (Sample.env "c2" 9) Sample.db "p1" "design")
    as (checkpoint & Hres & _ & _ & _ & _ & _ & _ & Hd); try discriminate;
    try reflexivity.
  exists checkpoint. split; [exact Hres|]. split; [|exact Hd].
  vm_compute in Hres. injection Hres as <-. reflexivity.
Defined.

Lemma filter_other_key {A} (g : A -> string) (l : list A) (k k' : string) :
  k' <> k ->
  List.filter (fun r => String.eqb (g r) k')
    (List.filter (fun r => negb (String.eqb (g r) k)) l) =
  List.filter (fun r => String.eqb (g r) k') l.
Proof.
  intros Hne. induction l as [|x l IH]; [reflexivity|]. simpl.
  destruct (String.eqb_spec (g x) k) as [E|_]; simpl.
  - destruct (String.eqb_spec (g x) k'); [congruence|apply IH].
  - destruct (String.eqb (g x) k'); [f_equal|]; apply IH.
Qed.

Lemma filter_snoc_other {A} (g : A -> string) (l : list A) (a : A) (k : string) :
  g a <> k ->
  List.filter (fun r => String.eqb (g r) k) (l ++ [a]) =
  List.filter (fun r => String.eqb (g r) k) l.
Proof.
  intros Hne. rewrite List.filter_app. simpl.
  destruct (String.eqb_spec (g a) k); [contradiction|apply app_nil_r].
Qed.

(** X21: a checkpoint created at a time later than every checkpoint the
    project already has is the one [getLatestCheckpoint] returns afterwards;
    the latest checkpoint of every other project is as before. *)
Theorem new_checkpoint_is_latest :
  forall (env : Env) (db : Database) (projectId phase : string),
    projectId <> "" -> phase <> "" ->
    has_project db projectId = true ->
    existsb (fun r => String.eqb (c_id r) (randomblob env))
      (workflow_checkpoints db) = false ->
    (forall c, In c (workflow_checkpoints db) -> c_project_id c = projectId ->
       (c_created_at c < CURRENT_TIMESTAMP env)%nat) ->
    let r := WorkflowRepository.createCheckpoint env projectId phase db in
    exists checkpoint,
      snd r = inr checkpoint /\
      WorkflowRepository.getLatestCheckpoint projectId (fst r) =
        (fst r, inr (Some checkpoint)) /\
      forall other, other <> projectId ->
        snd (WorkflowRepository.getLatestCheckpoint other (fst r)) =
        snd (WorkflowRepository.getLatestCheckpoint other db).
Proof.
  intros env db projectId phase Hp Hph Hhas Hfresh Hnew. cbv zeta.
  destruct (createCheckpoint_appends env projectId phase db Hp Hph Hhas Hfresh)
    as (data & Hrun). cbv zeta in Hrun. rewrite Hrun. cbn [fst snd].
  set (row := mkWorkflowCheckpointRow (randomblob env) projectId phase data
                (CURRENT_TIMESTAMP env)).
  exists (workflowCheckpointFromRow row). split; [reflexivity|].
  unfold WorkflowRepository.getLatestCheckpoint, query. destruct db as [ps ts ss cs].
  cbn [workflow_checkpoints set_workflow_checkpoints fst snd] in *. split.
  - f_equal. f_equal.
    pose proof (latest_row
      (List.filter (fun r => String.eqb (c_project_id r) projectId) (cs ++ [row])))
      as L.
    assert (Hrow : In row (List.filter
              (fun r => String.eqb (c_project_id r) projectId) (cs ++ [row]))).
    { apply filter_In. split; [apply in_or_app; right; now left|].
      apply String.eqb_refl. }
    destruct (head _) as [c|]; [|rewrite L in Hrow; destruct Hrow].
    destruct L as [Hin Hmax]. apply filter_In in Hin as [Hin Hc].
    apply String.eqb_eq in Hc.
    apply in_app_or in Hin as [Hin|[<-|[]]]; [|reflexivity].
    specialize (Hmax row Hrow). specialize (Hnew c Hin Hc). simpl in Hmax. lia.
  - intros other Hne. rewrite (filter_snoc_other c_project_id); [reflexivity|].
    simpl. congruence.
Qed.

Lemma new_checkpoint_is_latest_witness :
  exists checkpoint,
    WorkflowCheckpoint.id checkpoint = "c2" /\
    snd (WorkflowRepository.getLatestCheckpoint "p1"
           (fst (WorkflowRepository.createCheckpoint (Sample.env "c2" 9) "p1"
                   "design" Sample.db))) = inr (Some checkpoint).
Proof.
  destruct (new_checkpoint_is_latest (Sample.env "c2" 9) Sample.db "p1" "design")
    as (checkpoint & Hres & Hlatest & _); try discriminate; try reflexivity.
  - intros c [<-|[]] _. simpl. lia.
  - exists checkpoint. split.
    + vm_compute in Hres. injection Hres as <-. reflexivity.
    + now rewrite Hlatest.
Defined.

#[local] Instance checkpoint_order_asc_trans : Transitive checkpoint_order_asc.
Proof. unfold checkpoint_order_asc. intros a b c. lia. Qed.

#[local] Instance checkpoint_order_asc_total : Total checkpoint_order_asc.
Proof. unfold checkpoint_order_asc. intros a b. lia. Qed.

(** X22: [getCheckpoints] lists every checkpoint of the project once, oldest
    first; [getCheckpointsByPhase] lists the project's checkpoints that
    carry the phase label once each, newest first; both leave the database
    as it is.  What [getLatestCheckpoint] returns is one of the checkpoints
    [getCheckpoints] lists, none of which is newer, and it returns null
    exactly when that list is empty. *)
Theorem checkpoint_listings :
  forall (db : Database) (projectId phase : string),
    (exists rows,
       WorkflowRepository.getCheckpoints projectId db =
         (db, inr (map workflowCheckpointFromRow rows)) /\
       rows ≡ₚ List.filter (fun r => String.eqb (c_project_id r) projectId)
                 (workflow_checkpoints db) /\
       StronglySorted (fun a b => (c_created_at a <= c_created_at b)%nat) rows) /\
    (exists rows,
       WorkflowRepository.getCheckpointsByPhase projectId phase db =
         (db, inr (map workflowCheckpointFromRow rows)) /\
       rows ≡ₚ List.filter (fun r => String.eqb (c_project_id r) projectId &&
                                     String.eqb (c_phase r) phase)
                 (workflow_checkpoints db) /\
       StronglySorted (fun a b => (c_created_at b <= c_created_at a)%nat) rows) /\
    (exists listed,
       snd (WorkflowRepository.getCheckpoints projectId db) = inr listed /\
       match snd (WorkflowRepository.getLatestCheckpoint projectId db) with
       | inr (Some latest) =>
           In latest listed /\
           forall c, In c listed ->
             (WorkflowCheckpoint.createdAt c <= WorkflowCheckpoint.createdAt latest)%nat
       | inr None => listed = []
       | inl _ => False
       end).
Proof.
  intros db projectId phase. split; [|split].
  - eexists. split; [reflexivity|]. split; [apply order_by_Permutation|].
    apply (StronglySorted_order_by checkpoint_order_asc).
  - eexists. split; [reflexivity|]. split; [apply order_by_Permutation|].
    apply (StronglySorted_order_by checkpoint_order).
  - eexists. split; [reflexivity|].
    unfold WorkflowRepository.getLatestCheckpoint, query. cbn [snd].
    pose proof (latest_row
      (List.filter (fun r => String.eqb (c_project_id r) projectId)
         (workflow_checkpoints db))) as L.
    destruct (head _) as [row|]; cbn [fmap option_fmap option_map].
    + destruct L as [Hin Hmax]. split.
      * apply in_map, list_elem_of_In.
        rewrite (order_by_Permutation checkpoint_order_asc).
        now apply list_elem_of_In.
      * intros c Hc. apply in_map_iff in Hc as (x & <- & Hx).
        apply list_elem_of_In in Hx.
        rewrite (order_by_Permutation checkpoint_order_asc) in Hx.
        apply list_elem_of_In in Hx. exact (Hmax x Hx).
    + rewrite L. reflexivity.
Qed.

(** X23: [deleteProjectCheckpoints] removes exactly the checkpoints of the
    project and keeps the others in place, returns how many it removed (the
    number [getCheckpoints] listed before), leaves the project without a
    latest checkpoint and every other project's latest checkpoint and all
    other tables as they were. *)
Theorem deleteProjectCheckpoints_spec :
  forall (db : Database) (projectId : string),
    let r := WorkflowRepository.deleteProjectCheckpoints projectId db in
    (forall c, In c (workflow_checkpoints (fst r)) <->
       In c (workflow_checkpoints db) /\ c_project_id c <> projectId) /\
    (forall listed,
       snd (WorkflowRepository.getCheckpoints projectId db) = inr listed ->
       snd r = inr (length listed)) /\
    WorkflowRepository.getLatestCheckpoint projectId (fst r) = (fst r, inr None) /\
    (forall other, other <> projectId ->
       snd (WorkflowRepository.getLatestCheckpoint other (fst r)) =
       snd (WorkflowRepository.getLatestCheckpoint other db)) /\
    projects (fst r) = projects db /\ tasks (fst r) = tasks db /\
    agent_sessions (fst r) = agent_sessions db.
Proof.
  intros db projectId. cbv zeta. unfold WorkflowRepository.deleteProjectCheckpoints.
  cbv beta zeta. destruct db as [ps ts ss cs].
  cbn [fst snd workflow_checkpoints set_workflow_checkpoints projects tasks
       agent_sessions].
  split; [|split; [|split; [|split]]].
  - intros c. rewrite filter_In, negb_true_iff. split.
    + intros [Hin E]. split; [assumption|]. now apply String.eqb_neq.
    + intros [Hin E]. split; [assumption|]. now apply String.eqb_neq.
  - intros listed H. unfold WorkflowRepository.getCheckpoints, query in H.
    cbn [snd workflow_checkpoints] in H. injection H as <-.
    rewrite length_map. now rewrite (order_by_Permutation checkpoint_order_asc).
  - unfold WorkflowRepository.getLatestCheckpoint, query.
    cbn [workflow_checkpoints set_workflow_checkpoints].
    assert (E : List.filter (fun r => String.eqb (c_project_id r) projectId)
              (List.filter (fun r => negb (String.eqb (c_project_id r) projectId)) cs)
              = []).
    { induction cs as [|x l IH]; [reflexivity|]. simpl.
      destruct (String.eqb (c_project_id x) projectId) eqn:E; simpl;
        [|rewrite E]; apply IH. }
    rewrite E. reflexivity.
  - intros other Hne. unfold WorkflowRepository.getLatestCheckpoint, query.
    cbn [snd workflow_checkpoints set_workflow_checkpoints].
    now rewrite (filter_other_key c_project_id).
  - repeat split.
Qed.

(** *** The request handlers *)

Lemma set_tasks_same (db : Database) : set_tasks db (tasks db) = db.
Proof. now destruct db. Qed.

Lemma find_none_existsb {A} (f : A -> bool) (l : list A) :
  find f l = None -> existsb f l = false.
Proof.
  intros H. apply existsb_false. intros x Hx. exact (find_none f l H x Hx).
Qed.

Lemma validate_status (updates : Task.partial) (db : Database) :
  (forall status, Task.status' updates = Some status ->
     isValidTaskStatus status = true) ->
  (match Task.status' updates with
   | Some status =>
       if isValidTaskStatus status then ret tt
       else throw (Error ("Invalid task status: " +:+ status))
   | None => ret tt
   end) db = (db, inr tt).
Proof.
  intros Hvalid. destruct (Task.status' updates) as [s|]; [|reflexivity].
  now rewrite (Hvalid s eq_refl).
Qed.

(** [update] on an id no task has: [info.changes] is 0 and the result null. *)
Lemma task_update_missing (env : Env) (db : Database) (id : string)
    (updates : Task.partial) :
  find (fun r => String.eqb (t_id r) id) (tasks db) = None ->
  (forall status, Task.status' updates = Some status ->
     isValidTaskStatus status = true) ->
  TaskRepository.update env id updates db = (db, inr None).
Proof.
  intros Hfind Hvalid. unfold TaskRepository.update.
  rewrite (bind_inr _ _ _ _ _ (validate_status updates db Hvalid)).
  destruct (TaskRepository.no_sets updates).
  - unfold TaskRepository.findById, query. now rewrite Hfind.
  - pose proof (find_none_existsb _ _ Hfind) as H.
    assert (E : TaskRepository.UPDATE env id (TaskRepository.apply_sets updates) db =
                (db, inr 0%nat)).
    { unfold TaskRepository.UPDATE. cbv zeta.
      rewrite (existsb_hit_false _ _ _ H), (map_no_hit _ _ _ H), (filter_no_hit _ _ H).
      now rewrite set_tasks_same. }
    now rewrite (bind_inr _ _ _ _ _ E).
Qed.

(** [update] on a stored task, with a field to set and a valid status. *)
Lemma task_update_run (env : Env) (db : Database) (row : TaskRow)
    (updates : Task.partial) :
  tasks_pk db -> In row (tasks db) ->
  check_task_status (t_status (TaskRepository.apply_sets updates row)) = true ->
  (forall status, Task.status' updates = Some status ->
     isValidTaskStatus status = true) ->
  TaskRepository.no_sets updates = false ->
  TaskRepository.update env (t_id row) updates db =
  (set_tasks db
     (map (fun r => if String.eqb (t_id r) (t_id row)
                    then TaskRepository.touch env (TaskRepository.apply_sets updates r)
                    else r) (tasks db)),
   inr (Some (taskFromRow
                (TaskRepository.touch env (TaskRepository.apply_sets updates row))))).
Proof.
  intros Hpk Hin Hs Hvalid Hsets. unfold TaskRepository.update. rewrite Hsets.
  rewrite (bind_inr _ _ _ _ _ (validate_status updates db Hvalid)).
  rewrite (bind_inr _ _ _ _ _ (UPDATE_task_row env db row _ Hpk Hin Hs)).
  cbn [Nat.eqb]. unfold TaskRepository.findById, query. simpl tasks.
  now rewrite (find_map_update t_id
    (fun r => TaskRepository.touch env (TaskRepository.apply_sets updates r)))
    by (assumption || reflexivity).
Qed.

(** X24: [handleTaskProgress] with a status that is absent, 'started' or one
    of the four task statuses always answers success and echoes the status
    it was given.  When no task has the id nothing is written and the answer
    is the same success; when a task has it, that task alone is rewritten:
    'started' is stored as in_progress, any other status as given, the
    assignee type becomes implementation, and the notes are stored
    nowhere. *)
Theorem handleTaskProgress_spec :
  forall (self : AgenticMCPServer.t) (env : Env) (db : Database)
         (args : TaskProgressArgs.t),
    tasks_pk db ->
    (forall row, In row (tasks db) -> check_task_status (t_status row) = true) ->
    (forall status, TaskProgressArgs.status args = Some status ->
       status = "started" \/ isValidTaskStatus status = true) ->
    let r := AgenticMCPServer.handleTaskProgress self env args db in
    snd r = inr (TaskProgressResult.mk true (TaskProgressArgs.taskId args)
                   (TaskProgressArgs.status args) (TaskProgressArgs.notes args)
                   "Task progress updated successfully") /\
    projects (fst r) = projects db /\
    agent_sessions (fst r) = agent_sessions db /\
    workflow_checkpoints (fst r) = workflow_checkpoints db /\
    match find (fun row => String.eqb (t_id row) (TaskProgressArgs.taskId args))
            (tasks db) with
    | None => fst r = db
    | Some row =>
        TaskRepository.findById (TaskProgressArgs.taskId args) (fst r) =
          (fst r, inr (Some (taskFromRow
             (mkTaskRow (t_id row) (t_project_id row) (t_parent_id row)
                (t_title row) (t_description row) (t_phase row)
                (match TaskProgressArgs.status args with
                 | Some status => if String.eqb status "started"
                                  then "in_progress" else status
                 | None => t_status row
                 end)
                (Some "implementation") (t_priority row)
                (t_requirements_refs row) (t_dependencies row)
                (t_created_at row) (CURRENT_TIMESTAMP env))))) /\
        forall id, id <> TaskProgressArgs.taskId args ->
          snd (TaskRepository.findById id (fst r)) =
          snd (TaskRepository.findById id db)
    end.
Proof.
  intros self env db [taskId status notes] Hpk Hchk Hstatus. cbv zeta.
  unfold AgenticMCPServer.handleTaskProgress.
  cbn [TaskProgressArgs.taskId TaskProgressArgs.status TaskProgressArgs.notes] in *.
  set (updates := Task.mkPartial None None None None None
         (match status with
          | Some status => if String.eqb status "started" then Some "in_progress"
                           else Some status
          | None => None
          end) (Some "implementation") None None None).
  assert (Hvalid : forall s, Task.status' updates = Some s ->
                     isValidTaskStatus s = true).
  { intros s. unfold updates. cbn [Task.status']. destruct status as [st|];
      [|discriminate].
    destruct (String.eqb_spec st "started") as [->|Hne]; intros [= <-];
      [reflexivity|]. destruct (Hstatus st eq_refl); [contradiction|assumption]. }
  destruct (find _ (tasks db)) as [row|] eqn:Hfind.
  - pose proof (find_some _ _ Hfind) as [Hin Hid]. apply String.eqb_eq in Hid.
    subst taskId.
    assert (Hs : check_task_status
                   (t_status (TaskRepository.apply_sets updates row)) = true).
    { unfold TaskRepository.apply_sets. cbn [t_status].
      pose proof (Hvalid) as Hv.
      destruct (Task.status' updates) as [s|]; cbn [default];
        [exact (Hv s eq_refl)|exact (Hchk row Hin)]. }
    assert (Hsets : TaskRepository.no_sets updates = false).
    { unfold updates. destruct status as [st|];
        [destruct (String.eqb st "started")|]; reflexivity. }
    rewrite (bind_inr _ _ _ _ _
      (task_update_run env db row updates Hpk Hin Hs Hvalid Hsets)).
    unfold ret. cbn [fst snd]. destruct db as [ps ts ss cs].
    cbn [set_tasks tasks projects agent_sessions workflow_checkpoints] in *.
    repeat (split; [reflexivity|]). split.
    + unfold TaskRepository.findById, query. cbn [tasks set_tasks].
      rewrite (find_map_update t_id
        (fun r => TaskRepository.touch env (TaskRepository.apply_sets updates r)))
        by (assumption || reflexivity).
      cbn [fmap option_fmap option_map]. do 4 f_equal.
      unfold TaskRepository.touch, TaskRepository.apply_sets, updates. simpl.
      destruct status as [st|]; [|reflexivity].
      destruct (String.eqb st "started"); reflexivity.
    + intros id Hne. unfold TaskRepository.findById, query.
      cbn [snd tasks set_tasks]. now rewrite (find_map_other t_id).
  - rewrite (bind_inr _ _ _ _ _ (task_update_missing env db taskId updates Hfind Hvalid)).
    unfold ret. cbn [fst snd]. repeat (split; [reflexivity|]). reflexivity.
Qed.

Lemma handleTaskProgress_spec_witness :
  snd (AgenticMCPServer.handleTaskProgress Sample.server (Sample.env "" 9)
         (TaskProgressArgs.mk "nowhere" (Some "started") (Some "n")) Sample.db) =
    inr (TaskProgressResult.mk true "nowhere" (Some "started") (Some "n")
           "Task progress updated successfully") /\
  snd (TaskRepository.findById "t2"
         (fst (AgenticMCPServer.handleTaskProgress Sample.server (Sample.env "" 9)
                 (TaskProgressArgs.mk "t2" (Some "started") None) Sample.db))) =
    inr (Some (Task.mk "t2" "p1" (Some "t1") "review" None "requirements"
                 "in_progress" (Some "implementation") 2 [] ["t1"; "gone"] 4 9)).
Proof.
  assert (Hpk : tasks_pk Sample.db).
  { unfold tasks_pk. apply (bool_decide_unpack _). vm_compute. exact I. }
  assert (Hchk : forall row, In row (tasks Sample.db) ->
                   check_task_status (t_status row) = true).
  { intros row [<-|[<-|[<-|[]]]]; reflexivity. }
  split.
  - refine (proj1 (handleTaskProgress_spec Sample.server (Sample.env "" 9) Sample.db
              (TaskProgressArgs.mk "nowhere" (Some "started") (Some "n")) Hpk Hchk _)).
    intros status [= <-]. now left.
  - pose proof (handleTaskProgress_spec Sample.server (Sample.env "" 9) Sample.db
              (TaskProgressArgs.mk "t2" (Some "started") None) Hpk Hchk) as H.
    destruct H as (_ & _ & _ & _ & H); [intros status [= <-]; now left|].
    cbv zeta in H. cbn [find TaskProgressArgs.taskId] in H.
    change (find _ (tasks Sample.db)) with (Some Sample.t2) in H.
    destruct H as [H _]. cbn [TaskProgressArgs.taskId] in H. now rewrite H.
Defined.

Lemma truthy_idem (o : option string) (s : string) :
  truthy o = Some s -> truthy (Some s) = Some s.
Proof.
  destruct o as [x|]; [|discriminate]. simpl.
  destruct (String.eqb x "") eqn:E; [discriminate|]. intros [= <-]. now rewrite E.
Qed.

(** X25: [handleTaskQuery] reads and never writes.  Without a project id (or
    with an empty one) it answers an empty list, whatever the other arguments
    say; with one it answers the summaries of that project's tasks, each
    once, highest priority first then oldest first, narrowed by the status
    argument alone: the assigneeType, phase and includeHierarchy arguments
    have no effect. *)
Theorem handleTaskQuery_spec :
  forall (self : AgenticMCPServer.t) (db : Database) (args : TaskQueryArgs.t),
    exists summaries,
      AgenticMCPServer.handleTaskQuery self args db =
        (db, inr (TaskQueryResult.mk true summaries)) /\
      match truthy (TaskQueryArgs.projectId args) with
      | None => summaries = []
      | Some projectId =>
          exists rows,
            summaries = map (fun r => TaskSummary.mk (t_id r) (t_title r)
                                        (t_status r) (t_project_id r)) rows /\
            rows ≡ₚ List.filter
                      (fun r => String.eqb (t_project_id r) projectId &&
                                match truthy (TaskQueryArgs.status args) with
                                | Some status => String.eqb (t_status r) status
                                | None => true
                                end) (tasks db) /\
            StronglySorted task_order rows
      end.
Proof.
  intros self db args. unfold AgenticMCPServer.handleTaskQuery.
  destruct (truthy (TaskQueryArgs.projectId args)) as [projectId|].
  - set (filter := match truthy (TaskQueryArgs.status args) with
                   | Some status => TaskFilter.mk (Some status) None None None
                   | None => TaskFilter.none
                   end).
    eexists. split.
    + unfold TaskRepository.findByProject, bind, query, ret. reflexivity.
    + exists (order_by task_order
                (List.filter (TaskRepository.matches projectId filter) (tasks db))).
      split; [now rewrite map_map|]. split.
      * rewrite (order_by_Permutation task_order).
        erewrite List.filter_ext; [reflexivity|]. intros r.
        unfold TaskRepository.matches, filter.
        destruct (truthy (TaskQueryArgs.status args)) as [status|] eqn:E.
        -- cbn [TaskFilter.status TaskFilter.phase TaskFilter.assigneeType
                TaskFilter.parentId]. rewrite (truthy_idem _ _ E).
           cbn [truthy]. now rewrite !andb_true_r.
        -- cbn [TaskFilter.none TaskFilter.status TaskFilter.phase
                TaskFilter.assigneeType TaskFilter.parentId truthy].
           now rewrite !andb_true_r.
      * apply StronglySorted_order_by; apply _.
  - exists []. split; reflexivity.
Qed.


Lemma existsb_find_none {A} (f : A -> bool) (l : list A) :
  existsb f l = false -> find f l = None.
Proof.
  rewrite existsb_false. intros H. induction l as [|x l IH]; [reflexivity|]. simpl.
  rewrite (H x (or_introl eq_refl)). apply IH. intros y Hy. apply H. now right.
Qed.

(** X27: a handoff that cannot start writes nothing.  When one of the four
    arguments is missing or of the wrong type the call is refused with
    InvalidParams, the checks running in the order project id, phase,
    deliverables, notes.  When the arguments pass but no project has the id,
    the handler's catch clause turns its own InvalidParams error into an
    InternalError whose message embeds it, and no checkpoint is stored. *)
Theorem handoff_rejections :
  forall (self : AgenticMCPServer.t) (env : Env) (db : Database)
         (args : HandoffArgs.t),
    let r := AgenticMCPServer.handleWorkflowHandoff self env args db in
    match required_string (HandoffArgs.projectId args) with
    | None => r = (db, inl (McpError InvalidParams
                "Project ID is required and must be a string"))
    | Some projectId =>
    match required_string (HandoffArgs.currentPhase args) with
    | None => r = (db, inl (McpError InvalidParams
                "Current phase is required and must be a string"))
    | Some _ =>
    match required_object (HandoffArgs.phaseDeliverables args) with
    | None => r = (db, inl (McpError InvalidParams
                "Phase deliverables are required and must be an object"))
    | Some _ =>
    match required_string (HandoffArgs.handoffNotes args) with
    | None => r = (db, inl (McpError InvalidParams
                "Handoff notes are required and must be a string"))
    | Some _ =>
        has_project db projectId = false ->
        r = (db, inl (McpError InternalError
               ("Failed to complete handoff: MCP error -32602: Project not found: "
                +:+ projectId)))
    end end end end.
Proof.
  intros self env db args. cbv zeta. unfold AgenticMCPServer.handleWorkflowHandoff.
  destruct (required_string (HandoffArgs.projectId args)) as [projectId|];
    [|reflexivity].
  destruct (required_string (HandoffArgs.currentPhase args)) as [currentPhase|];
    [|reflexivity].
  destruct (required_object (HandoffArgs.phaseDeliverables args)) as [deliverables|];
    [|reflexivity].
  destruct (required_string (HandoffArgs.handoffNotes args)) as [notes|];
    [|reflexivity].
  intros Hmissing. unfold has_project in Hmissing.
  unfold try_catch, AgenticMCPServer.handoff_body, bind,
    ProjectRepository.findById, query.
  rewrite (existsb_find_none _ _ Hmissing). reflexivity.
Qed.

Lemma required_string_nonempty (v : option JsValue) (s : string) :
  required_string v = Some s -> v = Some (JStr s) /\ s <> "".
Proof.
  destruct v as [[]|]; try discriminate. simpl.
  destruct (String.eqb_spec s0 ""); [discriminate|]. intros [= <-]. now split.
Qed.

(** [create] under a free, non-empty name with a fresh row id. *)
Lemma project_create_run (env : Env) (db : Database) (name : string)
    (description : option (option string)) :
  name <> "" ->
  has_project db (randomblob env) = false ->
  existsb (fun r => String.eqb (p_name r) name) (projects db) = false ->
  let row := mkProjectRow (randomblob env) name (truthy (mjoin description))
               "active" "requirements"
               (CURRENT_TIMESTAMP env) (CURRENT_TIMESTAMP env) in
  ProjectRepository.create env (Project.mkPartial (Some name) description None None) db =
    (set_projects db (projects db ++ [row]), inr (projectFromRow row)).
Proof.
  intros Hname Hid Hfree. cbv zeta.
  unfold ProjectRepository.create. cbn [Project.name' truthy].
  destruct (String.eqb_spec name ""); [contradiction|].
  unfold bind, ProjectRepository.INSERT.
  cbn [Project.description' Project.status' Project.currentPhase' or_default
       truthy default]. simpl negb. cbv iota.
  now rewrite Hid, Hfree.
Qed.

(** X28: [handleProjectCreate] stores the project before it mirrors it to
    disk and does not take it back: when the mirror is on and the file system
    fails, the call ends in an error (InternalError with the file system's
    message, or the InvalidParams 'already exists' error when that message
    happens to contain 'UNIQUE constraint failed') although the name was
    free, and the project is in the store afterwards. *)
Theorem project_create_mirror_failure :
  forall (self : AgenticMCPServer.t) (env : Env) (db : Database)
         (args : ProjectCreateArgs.t) (name message : string),
    required_string (ProjectCreateArgs.name args) = Some name ->
    FileSync.isEnabled (AgenticMCPServer.fileSync self) = true ->
    fs_error env = Some message ->
    has_project db (randomblob env) = false ->
    existsb (fun r => String.eqb (p_name r) name) (projects db) = false ->
    let r := AgenticMCPServer.handleProjectCreate self env args db in
    snd r = inl (if str_includes message "UNIQUE constraint failed"
                 then McpError InvalidParams
                        ("Project with name '" +:+ name +:+ "' already exists")
                 else McpError InternalError
                        ("Failed to create project: " +:+ message)) /\
    exists project,
      ProjectRepository.findByName name (fst r) = (fst r, inr (Some project)) /\
      Project.id project = randomblob env /\
      Project.status project = "active" /\
      Project.currentPhase project = "requirements".
Proof.
  intros self env db args name message Hname Hon Hfs Hid Hfree. cbv zeta.
  unfold AgenticMCPServer.handleProjectCreate. rewrite Hname.
  apply required_string_nonempty in Hname as [_ Hne].
  unfold try_catch.
  rewrite (bind_inr _ _ _ _ _
    (project_create_run env db name
       (Some <$> truthy (ProjectCreateArgs.description args)) Hne Hid Hfree)).
  rewrite Hon. unfold FileSync.createProjectFiles, FileSync.fs_calls.
  unfold FileSync.isEnabled in Hon. rewrite Hon, Hfs. cbn [negb].
  unfold bind, throw. cbn [exn_message].
  destruct (str_includes message "UNIQUE constraint failed"); cbn [fst snd];
    (split; [reflexivity|]); eexists;
    (split; [unfold ProjectRepository.findByName, query; simpl projects;
             rewrite (find_app_new p_name); [reflexivity|reflexivity|];
             now apply existsb_eqb_false|]);
    repeat split.
Qed.

Lemma project_create_mirror_failure_witness :
  snd (AgenticMCPServer.handleProjectCreate Sample.server
         (mkEnv "p2" 7 (Some "EACCES: permission denied") "ERR_INVALID_ARG_TYPE")
         (ProjectCreateArgs.mk (Some (JStr "second")) None) Sample.db) =
    inl (McpError InternalError
           "Failed to create project: EACCES: permission denied") /\
  exists project,
    snd (ProjectRepository.findByName "second"
           (fst (AgenticMCPServer.handleProjectCreate Sample.server
                   (mkEnv "p2" 7 (Some "EACCES: permission denied")
                      "ERR_INVALID_ARG_TYPE")
                   (ProjectCreateArgs.mk (Some (JStr "second")) None) Sample.db))) =
    inr (Some project).
Proof.
  destruct (project_create_mirror_failure Sample.server
    (mkEnv "p2" 7 (Some "EACCES: permission denied") "ERR_INVALID_ARG_TYPE")
    Sample.db (ProjectCreateArgs.mk (Some (JStr "second")) None) "second"
    "EACCES: permission denied" eq_refl eq_refl eq_refl eq_refl eq_refl)
    as (Herr & project & Hfound & _).
  split; [exact Herr|]. exists project. now rewrite Hfound.
Defined.

Lemma find_key_unique {A} (g : A -> string) (l : list A) (a : A) :
  NoDup (map g l) -> In a l ->
  find (fun r => String.eqb (g r) (g a)) l = Some a.
Proof.
  intros Hnd Hin. induction l as [|x l IH]; [destruct Hin|].
  simpl in Hnd. apply NoDup_cons in Hnd as [Hx Hl]. simpl.
  destruct (String.eqb_spec (g x) (g a)) as [E|Hne].
  - f_equal. destruct Hin as [|Hin]; [assumption|]. exfalso. apply Hx. rewrite E.
    now apply list_elem_of_In, in_map.
  - apply IH; [assumption|]. destruct Hin as [->|]; [contradiction|assumption].
Qed.

(** X29: [resumeSession] on a stored session stores SQLite's current time as
    the session's last activity and returns the session as it was read before
    the update, with the context, task and agent type it had and with a
    reading of the JavaScript clock as last activity; the session read back
    by [findById] carries the stored time instead, so the two agree on
    everything but the last activity.  When the stored time is later than
    the last activity of every other session of the same project and agent
    type, the resumed session is the one [findByProjectAndType] returns
    afterwards. *)
Theorem resumeSession_becomes_latest :
  forall (env : Env) (new_Date : nat) (db : Database) (row : AgentSessionRow),
    NoDup (map s_id (agent_sessions db)) ->
    In row (agent_sessions db) ->
    (forall row', In row' (agent_sessions db) -> s_id row' <> s_id row ->
       s_project_id row' = s_project_id row -> s_agent_type row' = s_agent_type row ->
       (s_last_active row' < CURRENT_TIMESTAMP env)%nat) ->
    let r := AgentSessionRepository.resumeSession env new_Date (s_id row) db in
    let session lastActive :=
      AgentSession.mk (s_id row) (s_project_id row) (truthy (s_task_id row))
        (s_agent_type row) (parseJsonObject (s_context_data row)) lastActive in
    snd r = inr (session new_Date) /\
    AgentSessionRepository.findById (s_id row) (fst r) =
      (fst r, inr (Some (session (CURRENT_TIMESTAMP env)))) /\
    AgentSessionRepository.findByProjectAndType (s_project_id row) (s_agent_type row)
      (fst r) = (fst r, inr (Some (session (CURRENT_TIMESTAMP env)))).
Proof.
  intros env new_Date db row Hpk Hin Hnew. cbv zeta.
  set (f := fun r => mkAgentSessionRow (s_id r) (s_project_id r) (s_task_id r)
                       (s_agent_type r) (s_context_data r) (CURRENT_TIMESTAMP env)).
  assert (Hrun : AgentSessionRepository.resumeSession env new_Date (s_id row) db =
            (set_agent_sessions db
               (map (fun r => if String.eqb (s_id r) (s_id row) then f r else r)
                  (agent_sessions db)),
             inr (AgentSession.mk (s_id row) (s_project_id row)
                    (truthy (s_task_id row)) (s_agent_type row)
                    (parseJsonObject (s_context_data row)) new_Date))).
  { unfold AgentSessionRepository.resumeSession.
    rewrite (bind_inr _ _ db db (Some (agentSessionFromRow row)))
      by (unfold AgentSessionRepository.findById, query;
          now rewrite (find_key_unique s_id _ row Hpk Hin)).
    unfold AgentSessionRepository.UPDATE_last_active, AgentSessionRepository.UPDATE,
      bind, ret. reflexivity. }
  rewrite Hrun. cbn [fst snd]. split; [reflexivity|].
  destruct db as [ps ts ss cs]. cbn [agent_sessions set_agent_sessions] in *. split.
  - unfold AgentSessionRepository.findById, query. simpl agent_sessions.
    now rewrite (find_map_update s_id f ss row Hpk Hin eq_refl).
  - unfold AgentSessionRepository.findByProjectAndType, query. simpl agent_sessions.
    f_equal. f_equal.
    set (rows := List.filter
                   (fun r => String.eqb (s_project_id r) (s_project_id row) &&
                             String.eqb (s_agent_type r) (s_agent_type row))
                   (map (fun r => if String.eqb (s_id r) (s_id row) then f r else r)
                      ss)).
    pose proof (latest_session rows) as L.
    assert (Hrow : In (f row) rows).
    { apply filter_In. split.
      - apply in_map_iff. exists row. now rewrite String.eqb_refl.
      - simpl. now rewrite !String.eqb_refl. }
    destruct (head (order_by session_order rows)) as [c|];
      [|rewrite L in Hrow; destruct Hrow].
    destruct L as [Hc Hmax]. specialize (Hmax (f row) Hrow). simpl in Hmax.
    apply filter_In in Hc as [Hc Hm]. apply in_map_iff in Hc as (x & Hx & Hxin).
    destruct (String.eqb_spec (s_id x) (s_id row)) as [E|Hne].
    + rewrite (NoDup_map_inj s_id ss x row Hpk Hxin Hin E) in Hx. now subst c.
    + subst c. apply andb_true_iff in Hm as [Hm1 Hm2].
      apply String.eqb_eq in Hm1, Hm2.
      specialize (Hnew x Hxin Hne Hm1 Hm2). lia.
Qed.

Lemma resumeSession_becomes_latest_witness :
  let db := mkDatabase [Sample.demo] []
              [mkAgentSessionRow "s1" "p1" None "design" (Some (JObj {["a" := JNum 1]})) 3;
               mkAgentSessionRow "s2" "p1" None "design" None 5] [] in
  let r := AgentSessionRepository.resumeSession (Sample.env "" 9) 12 "s1" db in
  snd r = inr (AgentSession.mk "s1" "p1" None "design" {["a" := JNum 1]} 12) /\
  snd (AgentSessionRepository.findByProjectAndType "p1" "design" (fst r)) =
  inr (Some (AgentSession.mk "s1" "p1" None "design" {["a" := JNum 1]} 9)).
Proof.
  cbv zeta.
  pose proof (resumeSession_becomes_latest (Sample.env "" 9) 12
    (mkDatabase [Sample.demo] []
       [mkAgentSessionRow "s1" "p1" None "design" (Some (JObj {["a" := JNum 1]})) 3;
        mkAgentSessionRow "s2" "p1" None "design" None 5] [])
    (mkAgentSessionRow "s1" "p1" None "design" (Some (JObj {["a" := JNum 1]})) 3))
    as H.
  destruct H as (H1 & _ & H).
  - apply (bool_decide_unpack _). vm_compute. exact I.
  - left. reflexivity.
  - intros row' [<-|[<-|[]]] Hne _ _; [now contradiction Hne|simpl; lia].
  - cbn [s_id s_project_id s_agent_type] in H, H1. split; [exact H1|now rewrite H].
Defined.

(** X30: [handleWorkflowResume] reads the project row and nothing else: it
    never writes, it fails exactly when [resumeWorkflow] fails (no project
    has the id), then with an InvalidParams error that is passed on as it is,
    and otherwise it reports the id, name, phase and status of the project
    [resumeWorkflow] returns, so that the same answer is given on any two
    stores with the same projects, whatever their tasks and checkpoints. *)
Theorem handleWorkflowResume_spec :
  forall (self : AgenticMCPServer.t) (db : Database) (projectId : string),
    let r := AgenticMCPServer.handleWorkflowResume self projectId db in
    fst r = db /\
    match snd (WorkflowRepository.resumeWorkflow projectId db) with
    | inr state =>
        let project := WorkflowState.project state in
        snd r = inr (WorkflowResumeResult.mk true (Project.id project)
                       (Project.name project) (WorkflowState.currentPhase state)
                       (Project.status project) "Workflow resumed successfully")
    | inl _ =>
        snd r = inl (McpError InvalidParams ("Project not found: " +:+ projectId))
    end /\
    forall db', projects db' = projects db ->
      snd (AgenticMCPServer.handleWorkflowResume self projectId db') = snd r.
Proof.
  intros self db projectId. cbv zeta.
  unfold AgenticMCPServer.handleWorkflowResume, WorkflowRepository.resumeWorkflow,
    WorkflowRepository.getLatestCheckpoint, TaskRepository.findByProject,
    ProjectRepository.findById, bind, query, ret, throw.
  split; [|split].
  - destruct (find _ (projects db)); reflexivity.
  - destruct (find _ (projects db)); reflexivity.
  - intros db' ->. destruct (find _ (projects db)); reflexivity.
Qed.
